(** * RDM disk reconciliation of a VMware guest

    A shallow embedding of [lib/ansible/modules/cloud/vmware/vmware_guest_rdm.py]:
    the two helper classes [PyVmomiDeviceHelper] and [PyVmomiHelper], with the
    instance attributes of [PyVmomiHelper] threaded through a state-and-error
    monad, Python dictionaries as [gmap], Python sets as [gset], Python
    integers as [Z] and Python strings as [string].

    The vSphere side (the [ReconfigVM_Task] call and the task it returns) is
    not part of the module; it is a parameter of the development. *)

From stdpp Require Import gmap strings list fin_maps.
From Stdlib Require Import ZArith Ascii.
From Stdlib Require String.

Local Open Scope Z_scope.

(** ** Python string methods used by the module *)

Module PyStr.

Definition lower_ascii (c : ascii) : ascii :=
  let n := nat_of_ascii c in
  if (Nat.leb 65 n && Nat.leb n 90)%bool then ascii_of_nat (n + 32) else c.

(** [str.lower], on ASCII text. *)
Fixpoint lower (s : string) : string :=
  match s with
  | EmptyString => EmptyString
  | String c s' => String (lower_ascii c) (lower s')
  end.

(** [s.startswith(p)]. *)
Fixpoint startswith (p s : string) : bool :=
  match p, s with
  | EmptyString, _ => true
  | String a p', String b s' => if Ascii.eqb a b then startswith p' s' else false
  | String _ _, EmptyString => false
  end.

Fixpoint find_from (i : Z) (s sub : string) : Z :=
  if startswith sub s then i
  else match s with
       | EmptyString => -1
       | String _ s' => find_from (i + 1) s' sub
       end.

(** [str.find(s, sub)]: the lowest index at which [sub] occurs, or [-1]. *)
Definition find (s sub : string) : Z := find_from 0 s sub.

Fixpoint replace_aux (old new : string) (skip : nat) (s : string) : string :=
  match s with
  | EmptyString => EmptyString
  | String c s' =>
      match skip with
      | S k => replace_aux old new k s'
      | O =>
          if startswith old s
          then new +:+ replace_aux old new (Nat.pred (String.length old)) s'
          else String c (replace_aux old new O s')
      end
  end.

Fixpoint intersperse (new s : string) : string :=
  match s with
  | EmptyString => new
  | String c s' => new +:+ String c (intersperse new s')
  end.

(** [s.replace(old, new)]: every occurrence, leftmost first, without
    overlap; an empty [old] matches between all characters. *)
Definition replace (s old new : string) : string :=
  match old with
  | EmptyString => intersperse new s
  | String _ _ => replace_aux old new O s
  end.

Fixpoint drop (n : nat) (s : string) : string :=
  match n, s with
  | O, _ => s
  | S k, String _ s' => drop k s'
  | S _, EmptyString => EmptyString
  end.

End PyStr.

(** ** The regular expression [^naa\.[0-9a-z]+0000+] and [re.split]

    [re.split(wwn_id_patt, name)[1]] is the text after the match.  The match
    is anchored at the start; [[0-9a-z]+] is greedy, so the engine gives back
    characters until the rest begins with four zeros, i.e. it selects the
    last place inside the leading run of [[0-9a-z]] characters (not its first
    character) where [0000] starts; the final [0+] can then take no more than
    those four.  Without a match [re.split] returns a one-element list and
    the index [1] raises [IndexError]. *)

Module WwnPattern.

Definition is_id_char (c : ascii) : bool :=
  let n := nat_of_ascii c in
  ((Nat.leb 48 n && Nat.leb n 57) || (Nat.leb 97 n && Nat.leb n 122))%bool.

Fixpoint after_last_zeros (s : string) : option string :=
  match s with
  | EmptyString => None
  | String c s' =>
      if is_id_char c then
        match after_last_zeros s' with
        | Some r => Some r
        | None => if PyStr.startswith "0000" s then Some (PyStr.drop 4 s) else None
        end
      else None
  end.

(** [re.split(wwn_id_patt, name)[1]]; [None] stands for [IndexError]. *)
Definition split1 (name : string) : option string :=
  if PyStr.startswith "naa." name then
    match PyStr.drop 4 name with
    | String c s' => if is_id_char c then after_last_zeros s' else None
    | EmptyString => None
    end
  else None.

End WwnPattern.

(** ** pyVmomi data, as far as the module reads and writes it *)

Inductive ScsiClass :=
| VirtualLsiLogicController
| ParaVirtualSCSIController
| VirtualBusLogicController
| VirtualLsiLogicSASController.

Inductive DeviceClass :=
| ScsiControllerDevice (c : ScsiClass)
| VirtualDiskDevice
| OtherDevice.

Record RawDiskMappingVer1BackingInfo := {
  lunUuid : string;
  deviceName : string;
  compatibilityMode : string;
  diskMode : string;
  datastore : string;
  fileName : string;
  sharing : string
}.

(** A device of [vm.config.hardware.device].  [backing] is [Some] exactly when
    [type(dev.backing)] is [RawDiskMappingVer1BackingInfo]; [busNumber] is
    read on controllers only. *)
Record VirtualDevice := {
  dev_class : DeviceClass;
  key : Z;
  controllerKey : Z;
  unitNumber : Z;
  busNumber : Z;
  backing : option RawDiskMappingVer1BackingInfo
}.

Record ScsiLun := {
  canonicalName : string;
  uuid : string;
  lun_deviceName : string
}.

Record HostSystem := { scsiLun : list ScsiLun }.

(** The virtual machine object.  [host_view] is what
    [CreateListView([vm.runtime.host]).view] returns ([None] for Python's
    [None]); [hw_version] is the integer that
    [int(str(facts['hw_version']).replace("vmx-",""))] evaluates to. *)
Record VirtualMachine := {
  hardware_device : list VirtualDevice;
  vm_datastore : list string;
  host_view : option (list HostSystem);
  vmPathName : string;
  hw_version : Z
}.

Inductive Operation := op_add | op_remove.
Inductive FileOperation := file_create | file_destroy.

(** The [device] of a [VirtualDeviceSpec], with the attributes the three
    builders assign. *)
Inductive SpecDevice :=
| NewScsiController (cls : ScsiClass)
    (pciSlotNumber ctl_controllerKey ctl_unitNumber ctl_busNumber : Z)
    (hotAddRemove : bool) (sharedBus : string) (scsiCtlrUnitNumber : Z)
| NewRdmDisk (disk_key disk_controllerKey disk_unitNumber : Z)
    (disk_backing : RawDiskMappingVer1BackingInfo)
| DiskRef (ref_key ref_controllerKey ref_unitNumber : Z).

Record VirtualDeviceSpec := {
  operation : Operation;
  fileOperation : option FileOperation;
  device : SpecDevice
}.

(** How a [ReconfigVM_Task] call ends: the call itself raises
    [vim.fault.RestrictedVersion] or another fault, or the task reaches the
    state [error] (with [task.info.error.msg]) or [success]. *)
Inductive TaskEnd :=
| RestrictedVersion (msg : string)
| OtherFault (name : string)
| TaskError (msg : string)
| TaskSuccess.

(** ** Module parameters *)

Inductive RdmState := present | absent.
Inductive ScsiType := paravirtual | lsilogic | buslogic | lsilogicsas.

Global Instance RdmState_eq_dec : EqDecision RdmState.
Proof. solve_decision. Defined.
Global Instance ScsiType_eq_dec : EqDecision ScsiType.
Proof. solve_decision. Defined.

Record Params := {
  state : RdmState;
  rdm_controller_type : ScsiType;
  rdm_controller_bus : list Z;
  rdm_disk : list string          (* the [wwid] of each entry *)
}.

Definition scsi_type_str (t : ScsiType) : string :=
  match t with
  | paravirtual => "paravirtual"
  | lsilogic => "lsilogic"
  | buslogic => "buslogic"
  | lsilogicsas => "lsilogicsas"
  end.

(** [type(device).__name__] of the four controller classes. *)
Definition type_name (c : ScsiClass) : string :=
  match c with
  | VirtualLsiLogicController => "vim.vm.device.VirtualLsiLogicController"
  | ParaVirtualSCSIController => "vim.vm.device.ParaVirtualSCSIController"
  | VirtualBusLogicController => "vim.vm.device.VirtualBusLogicController"
  | VirtualLsiLogicSASController => "vim.vm.device.VirtualLsiLogicSASController"
  end.

(** ** Results, failures and the state of a [PyVmomiHelper] *)

(** The messages handed to [module.fail_json]. *)
Inductive FailMsg :=
| msg_no_host_permission
| msg_no_datastore_permission
| msg_wrong_controller_type
| msg_disk_number (all bays : Z)
| msg_lun_not_presented (wwid : string)
| msg_restricted_version (msg : string).

Inductive Exn := KeyError | IndexError | TypeError | Fault (name : string).

(** [fail_json] leaves through [SystemExit]; any other exception reaches the
    handler in [main]. *)
Inductive Outcome (A : Type) :=
| Ok (a : A)
| FailJson (m : FailMsg)
| Raise (e : Exn).
Arguments Ok {A} a.
Arguments FailJson {A} m.
Arguments Raise {A} e.

(** The dictionary [reconfigure_vm] returns. *)
Record Result := {
  changed : bool;
  failed : bool;
  msg : option string;
  instance : option VirtualMachine
}.

(** An element of [self.rdm_disks]: a device whose backing is a
    [RawDiskMappingVer1BackingInfo], together with that backing. *)
Record RdmDisk := {
  rdm_device : VirtualDevice;
  rdm_backing : RawDiskMappingVer1BackingInfo
}.

Definition as_rdm (d : VirtualDevice) : option RdmDisk :=
  match backing d with
  | Some b => Some {| rdm_device := d; rdm_backing := b |}
  | None => None
  end.

(** Instance attributes.  [submitted] is a ghost log of the change lists
    passed to [ReconfigVM_Task], most recent last. *)
Record Self := {
  configspec : list VirtualDeviceSpec;
  change_detected : bool;
  facts : option VirtualMachine;
  rdm_disks : list RdmDisk;
  ctl_max : Z;
  ctl_slot_key : gmap Z Z;
  ctl_key_slot : gmap Z Z;
  ctl_units : gmap Z string;
  disk_units : gmap Z (gset Z);
  current_vm_obj : VirtualMachine;
  submitted : list (list VirtualDeviceSpec)
}.

Definition set_configspec (v : list VirtualDeviceSpec) (s : Self) : Self :=
  {| configspec := v; change_detected := change_detected s; facts := facts s;
     rdm_disks := rdm_disks s; ctl_max := ctl_max s;
     ctl_slot_key := ctl_slot_key s; ctl_key_slot := ctl_key_slot s;
     ctl_units := ctl_units s; disk_units := disk_units s;
     current_vm_obj := current_vm_obj s; submitted := submitted s |}.

Definition set_change_detected (v : bool) (s : Self) : Self :=
  {| configspec := configspec s; change_detected := v; facts := facts s;
     rdm_disks := rdm_disks s; ctl_max := ctl_max s;
     ctl_slot_key := ctl_slot_key s; ctl_key_slot := ctl_key_slot s;
     ctl_units := ctl_units s; disk_units := disk_units s;
     current_vm_obj := current_vm_obj s; submitted := submitted s |}.

Definition set_facts (v : option VirtualMachine) (s : Self) : Self :=
  {| configspec := configspec s; change_detected := change_detected s; facts := v;
     rdm_disks := rdm_disks s; ctl_max := ctl_max s;
     ctl_slot_key := ctl_slot_key s; ctl_key_slot := ctl_key_slot s;
     ctl_units := ctl_units s; disk_units := disk_units s;
     current_vm_obj := current_vm_obj s; submitted := submitted s |}.

Definition set_rdm_disks (v : list RdmDisk) (s : Self) : Self :=
  {| configspec := configspec s; change_detected := change_detected s; facts := facts s;
     rdm_disks := v; ctl_max := ctl_max s;
     ctl_slot_key := ctl_slot_key s; ctl_key_slot := ctl_key_slot s;
     ctl_units := ctl_units s; disk_units := disk_units s;
     current_vm_obj := current_vm_obj s; submitted := submitted s |}.

Definition set_ctl_max (v : Z) (s : Self) : Self :=
  {| configspec := configspec s; change_detected := change_detected s; facts := facts s;
     rdm_disks := rdm_disks s; ctl_max := v;
     ctl_slot_key := ctl_slot_key s; ctl_key_slot := ctl_key_slot s;
     ctl_units := ctl_units s; disk_units := disk_units s;
     current_vm_obj := current_vm_obj s; submitted := submitted s |}.

Definition set_ctls (sk ks : gmap Z Z) (u : gmap Z string) (s : Self) : Self :=
  {| configspec := configspec s; change_detected := change_detected s; facts := facts s;
     rdm_disks := rdm_disks s; ctl_max := ctl_max s;
     ctl_slot_key := sk; ctl_key_slot := ks;
     ctl_units := u; disk_units := disk_units s;
     current_vm_obj := current_vm_obj s; submitted := submitted s |}.

Definition set_disk_units (v : gmap Z (gset Z)) (s : Self) : Self :=
  {| configspec := configspec s; change_detected := change_detected s; facts := facts s;
     rdm_disks := rdm_disks s; ctl_max := ctl_max s;
     ctl_slot_key := ctl_slot_key s; ctl_key_slot := ctl_key_slot s;
     ctl_units := ctl_units s; disk_units := v;
     current_vm_obj := current_vm_obj s; submitted := submitted s |}.

Definition set_vm_submitted (vm : VirtualMachine) (log : list (list VirtualDeviceSpec))
    (s : Self) : Self :=
  {| configspec := configspec s; change_detected := change_detected s; facts := facts s;
     rdm_disks := rdm_disks s; ctl_max := ctl_max s;
     ctl_slot_key := ctl_slot_key s; ctl_key_slot := ctl_key_slot s;
     ctl_units := ctl_units s; disk_units := disk_units s;
     current_vm_obj := vm; submitted := log |}.

(** [PyVmomiHelper.__init__], once [get_vm] has found the machine. *)
Definition new_self (vm : VirtualMachine) : Self :=
  {| configspec := []; change_detected := false; facts := None;
     rdm_disks := []; ctl_max := 15;
     ctl_slot_key := ∅; ctl_key_slot := ∅; ctl_units := ∅; disk_units := ∅;
     current_vm_obj := vm; submitted := [] |}.

(** ** The state-and-error monad of the methods *)

Definition M (A : Type) : Type := Self → Outcome A * Self.

Definition ret {A} (a : A) : M A := λ s, (Ok a, s).

Definition bind {A B} (m : M A) (f : A → M B) : M B :=
  λ s, match m s with
       | (Ok a, s') => f a s'
       | (FailJson e, s') => (FailJson e, s')
       | (Raise e, s') => (Raise e, s')
       end.

Definition fail_json {A} (m : FailMsg) : M A := λ s, (FailJson m, s).
Definition raise {A} (e : Exn) : M A := λ s, (Raise e, s).
Definition get : M Self := λ s, (Ok s, s).
Definition modify (f : Self → Self) : M unit := λ s, (Ok tt, f s).

Notation "'let*' x := c1 'in' c2" := (bind c1 (λ x, c2))
  (at level 10, x name, c1 at level 100, c2 at level 200).

(** A [for] loop whose body may fail. *)
Fixpoint for_each {A} (l : list A) (body : A → M unit) : M unit :=
  match l with
  | [] => ret tt
  | x :: l' => let* _ := body x in for_each l' body
  end.

(** A [for] loop that also updates a local variable. *)
Fixpoint for_fold {A B} (l : list A) (acc : B) (body : B → A → M B) : M B :=
  match l with
  | [] => ret acc
  | x :: l' => let* acc' := body acc x in for_fold l' acc' body
  end.

(** ** [PyVmomiDeviceHelper] *)

(** The class [create_scsi_controller_bus] instantiates for [scsi_type]. *)
Definition scsi_class_of (scsi_type : ScsiType) : ScsiClass :=
  match scsi_type with
  | lsilogic => VirtualLsiLogicController
  | paravirtual => ParaVirtualSCSIController
  | buslogic => VirtualBusLogicController
  | lsilogicsas => VirtualLsiLogicSASController
  end.

Definition create_scsi_controller_bus (scsi_type : ScsiType) (bus_n : Z) : VirtualDeviceSpec :=
  {| operation := op_add;
     fileOperation := None;
     device := NewScsiController (scsi_class_of scsi_type) 16 100 3 bus_n true "noSharing" 7 |}.

Definition is_scsi_controller (d : VirtualDevice) : bool :=
  match dev_class d with
  | ScsiControllerDevice _ => true
  | _ => false
  end.

Definition create_rdm_disk (scsi_key : Z) (lun : ScsiLun) (ds fname : string)
    (disk_index : Z) : VirtualDeviceSpec :=
  {| operation := op_add;
     fileOperation := Some file_create;
     device :=
       NewRdmDisk (-100 - disk_index) scsi_key disk_index
         {| lunUuid := uuid lun;
            deviceName := lun_deviceName lun;
            compatibilityMode := "physicalMode";
            diskMode := "independent_persistent";
            datastore := ds;
            fileName := fname;
            sharing := "sharingNone" |} |}.

Definition remove_rdm_disk (rdm : VirtualDevice) : VirtualDeviceSpec :=
  {| operation := op_remove;
     fileOperation := Some file_destroy;
     device := DiskRef (key rdm) (controllerKey rdm) (unitNumber rdm) |}.

(** ** [PyVmomiHelper] *)

(** Modelled from the spec: [gather_vm_facts] lives in
    [ansible.module_utils.vmware], outside the source tree; the spec calls it
    "a fact-gathering service producing a structured summary of the VM".  The
    summary kept here is the machine's record, of which the module reads
    [hw_version] only. *)
Definition gather_vm_facts (vm : VirtualMachine) : VirtualMachine := vm.

(** Truth value of what [apply_changes] returns. *)
Definition truthy (res : option string) : bool :=
  match res with
  | Some (String _ _) => true
  | _ => false
  end.

(** The value stored in [ctl_units] for a controller. *)
Definition ctl_unit_name (c : ScsiClass) : string :=
  PyStr.replace (PyStr.lower (type_name c)) "vim.vm.device." "".

(** One iteration of the loop of [vm_get_ctls]. *)
Definition vm_get_ctls_step (s : Self) (d : VirtualDevice) : Self :=
  match dev_class d with
  | ScsiControllerDevice c =>
      set_ctls (<[busNumber d := key d]> (ctl_slot_key s))
               (<[key d := busNumber d]> (ctl_key_slot s))
               (<[busNumber d := ctl_unit_name c]> (ctl_units s)) s
  | _ => s
  end.

(** The test of the capacity loop: does the disk's LUN identifier contain one
    of the requested WWIDs, letter case ignored? *)
Definition wwid_in_uuid (disk : RdmDisk) (wwid : string) : bool :=
  0 <=? PyStr.find (PyStr.lower (lunUuid (rdm_backing disk))) (PyStr.lower wwid).

(** The inner loop of [create_rdm]: unit numbers of one bus, in order. *)
Fixpoint scan_units (du : gmap Z (gset Z)) (ctl : Z) (units : list Z) : Outcome (option Z) :=
  match units with
  | [] => Ok None
  | bus_n :: rest =>
      match du !! ctl with
      | None => Raise KeyError
      | Some occupied =>
          if bool_decide (bus_n ∈ occupied) then scan_units du ctl rest
          else Ok (Some bus_n)
      end
  end.

(** The outer loop of [create_rdm]: buses in the order of [ctl_list]. *)
Fixpoint scan_ctls (du : gmap Z (gset Z)) (units ctls : list Z) : Outcome (option (Z * Z)) :=
  match ctls with
  | [] => Ok None
  | ctl :: rest =>
      match scan_units du ctl units with
      | Ok (Some bus_n) => Ok (Some (ctl, bus_n))
      | Ok None => scan_ctls du units rest
      | FailJson m => FailJson m
      | Raise e => Raise e
      end
  end.

(** [[l for l in vm_host_luns if l.canonicalName == "naa." + str(wwid).lower()][0]] *)
Definition find_lun (luns : list ScsiLun) (wwid : string) : option ScsiLun :=
  head (filter (λ l, canonicalName l = "naa." +:+ PyStr.lower wwid) luns).

(** [get_vm_ctl_n]: the first controller on bus [bus_n]. *)
Definition get_vm_ctl_n (vm : VirtualMachine) (bus_n : Z) : option VirtualDevice :=
  head (filter (λ d, is_scsi_controller d = true ∧ busNumber d = bus_n) (hardware_device vm)).

Definition get_host_by_vm (vm : VirtualMachine) : M HostSystem :=
  match host_view vm with
  | Some (h :: _) => ret h
  | Some [] => raise IndexError
  | None => fail_json msg_no_host_permission
  end.

Definition get_datastore_by_vm (vm : VirtualMachine) : M string :=
  match vm_datastore vm with
  | ds :: _ => ret ds
  | [] => fail_json msg_no_datastore_permission
  end.

Section Methods.

(** [self.params]: [self.rdm_state], [self.ctl_list], [self.ctl_type] and
    [self.params['rdm_disk']] never change after [__init__]. *)
Variable p : Params.

(** The vSphere side of [ReconfigVM_Task] followed by [wait_for_task]: how
    the request ends and the machine that [current_vm_obj] shows
    afterwards.  A task that never reaches a final state is not modelled. *)
Variable ReconfigVM_Task :
  VirtualMachine → list VirtualDeviceSpec → TaskEnd * VirtualMachine.

Definition check_maximums : M unit :=
  let* s := get in
  match facts s with
  | None => raise TypeError
  | Some f =>
      let vm_version := hw_version f in
      if bool_decide (14 ≤ vm_version ∧ rdm_controller_type p = paravirtual)
      then modify (set_ctl_max 64)
      else ret tt
  end.

Definition vm_get_ctls (vm : VirtualMachine) : M unit :=
  modify (λ s, foldl vm_get_ctls_step s (hardware_device vm)).

Definition ctl_check_types (search : ScsiType) : M unit :=
  let* s := get in
  for_each (map_to_list (ctl_units s)) (λ '(bus, bus_type),
    if bool_decide (bus ∈ rdm_controller_bus p) then
      if PyStr.find bus_type (scsi_type_str search) =? -1
      then fail_json msg_wrong_controller_type
      else ret tt
    else ret tt).

Definition ctl_create_new (ctl_type : ScsiType) : M unit :=
  for_each (rdm_controller_bus p) (λ ctl,
    let* s := get in
    match ctl_units s !! ctl with
    | Some _ => ret tt
    | None =>
        match get_vm_ctl_n (current_vm_obj s) ctl with
        | Some _ => ret tt
        | None =>
            let scsi_ctl_bus_n := create_scsi_controller_bus ctl_type ctl in
            modify (λ s, set_configspec (configspec s ++ [scsi_ctl_bus_n])
                           (set_change_detected true s))
        end
    end).

Definition get_rdm_info (rdms : list RdmDisk) : M unit :=
  let used_disks := Z.of_nat (length rdms) in
  let rdms_requested := rdm_disk p in
  let* s0 := get in
  let* _ := for_each (map_to_list (ctl_units s0)).*1 (λ c,
    modify (λ s, set_disk_units (<[c := {[7]}]> (disk_units s)) s)) in
  let* wwid_presented := for_fold rdms 0 (λ wwid_presented disk,
    let* s := get in
    match ctl_key_slot s !! controllerKey (rdm_device disk) with
    | None => raise KeyError
    | Some ctl_n =>
        match disk_units s !! ctl_n with
        | None => raise KeyError
        | Some units =>
            let* _ := modify (set_disk_units
                      (<[ctl_n := units ∪ {[unitNumber (rdm_device disk)]}]> (disk_units s))) in
            ret (if existsb (wwid_in_uuid disk) rdms_requested
                 then wwid_presented + 1 else wwid_presented)
        end
    end) in
  let new_disks := Z.of_nat (length (rdm_disk p)) - wwid_presented in
  let all_disk := used_disks + new_disks in
  let* s := get in
  let free_bays := ctl_max s * Z.of_nat (length (rdm_controller_bus p)) in
  if bool_decide (all_disk > free_bays ∧ state p = present)
  then fail_json (msg_disk_number all_disk free_bays)
  else ret tt.

(** The [try] block of [create_rdm]: [Ok (Some (ctl, bus_n))] when
    [FreeBusFound] is raised, [Ok None] when both loops run to their end. *)
Definition find_free_slot (s : Self) : Outcome (option (Z * Z)) :=
  scan_ctls (disk_units s) (seqZ 0 (ctl_max s + 1)) (rdm_controller_bus p).

Definition create_rdm (lun : ScsiLun) (vm_ds rdm_file : string) : M unit :=
  let* s := get in
  match find_free_slot s with
  | FailJson m => fail_json m
  | Raise e => raise e
  | Ok None => ret tt
  | Ok (Some (ctl, bus_n)) =>
      match disk_units s !! ctl with
      | None => raise KeyError
      | Some units =>
          let* _ := modify (set_disk_units (<[ctl := units ∪ {[bus_n]}]> (disk_units s))) in
          match ctl_slot_key s !! ctl with
          | None => raise KeyError
          | Some scsi_key =>
              let diskspec := create_rdm_disk scsi_key lun vm_ds rdm_file bus_n in
              modify (λ s, set_change_detected true
                             (set_configspec (configspec s ++ [diskspec]) s))
          end
      end
  end.

Definition resolve_lun (vm_host_luns : list ScsiLun) (wwid : string) : M ScsiLun :=
  match find_lun vm_host_luns wwid with
  | Some lun => ret lun
  | None => fail_json (msg_lun_not_presented wwid)
  end.

Definition configure_rdm_disks (vm_obj : VirtualMachine) : M unit :=
  let* vm_host := get_host_by_vm vm_obj in
  let vm_host_luns := scsiLun vm_host in
  let* vm_ds := get_datastore_by_vm vm_obj in
  let vm_vmx_path := vmPathName vm_obj in
  match state p with
  | present =>
      for_each (rdm_disk p) (λ wwid,
        let* lun := resolve_lun vm_host_luns wwid in
        let* s := get in
        if bool_decide (Exists (λ rdm, uuid lun = lunUuid (rdm_backing rdm)) (rdm_disks s))
        then ret tt
        else
          match WwnPattern.split1 (canonicalName lun) with
          | None => raise IndexError
          | Some rdmid =>
              let rdm_file :=
                PyStr.replace vm_vmx_path ".vmx" ("_RDM" +:+ rdmid +:+ ".vmdk") in
              create_rdm lun vm_ds rdm_file
          end)
  | absent =>
      for_each (rdm_disk p) (λ wwid,
        let* lun := resolve_lun vm_host_luns wwid in
        let* s := get in
        for_each (rdm_disks s) (λ rdm,
          if bool_decide (lunUuid (rdm_backing rdm) = uuid lun)
          then
            let diskspec := remove_rdm_disk (rdm_device rdm) in
            modify (λ s, set_change_detected true
                           (set_configspec (configspec s ++ [diskspec]) s))
          else ret tt))
  end.

Definition apply_changes : M (option string) :=
  let* s := get in
  let task := ReconfigVM_Task (current_vm_obj s) (configspec s) in
  let* _ := modify (set_vm_submitted task.2 (submitted s ++ [configspec s])) in
  match task.1 with
  | RestrictedVersion m => fail_json (msg_restricted_version m)
  | OtherFault name => raise (Fault name)
  | TaskError m => ret (Some m)
  | TaskSuccess => ret None
  end.

Definition failed_result (res : option string) : Result :=
  {| changed := true; failed := true; msg := res; instance := None |}.

(** The block under [if self.rdm_state == 'present'] of [reconfigure_vm]:
    [inl] is its early [return], [inr] the value of [change_applied]. *)
Definition ensure_controllers : M (Result + bool) :=
  let* _ := modify (set_configspec []) in
  let* _ := ctl_check_types (rdm_controller_type p) in
  let* _ := ctl_create_new (rdm_controller_type p) in
  let* s := get in
  if change_detected s then
    let* res := apply_changes in
    if truthy res then ret (inl (failed_result res))
    else
      let* s := get in
      let* _ := vm_get_ctls (current_vm_obj s) in
      ret (inr true)
  else ret (inr false).

(** The end of [reconfigure_vm], from the comment [# Apply configuration
    changes] on; [change_applied] is the local variable. *)
Definition finish (change_applied : bool) : M Result :=
  let* s := get in
  let* pass2 := (if change_detected s then
                   let* res := apply_changes in
                   if truthy res then ret (inl (failed_result res))
                   else ret (inr true)
                 else ret (inr change_applied)) in
  match pass2 with
  | inl early => ret early
  | inr change_applied =>
      let* s := get in
      let* _ := modify (set_facts (Some (gather_vm_facts (current_vm_obj s)))) in
      ret {| changed := change_applied; failed := false; msg := None;
             instance := Some (gather_vm_facts (current_vm_obj s)) |}
  end.

(** The part of [reconfigure_vm] under the comment [# Add disks to
    controller], followed by [finish]. *)
Definition configure_disks (change_applied : bool) : M Result :=
  let* _ := modify (set_configspec []) in
  let* s := get in
  let* _ := modify (set_rdm_disks (omap as_rdm (hardware_device (current_vm_obj s)))) in
  let* s := get in
  let* _ := get_rdm_info (rdm_disks s) in
  let* _ := configure_rdm_disks (current_vm_obj s) in
  finish change_applied.

Definition reconfigure_vm : M Result :=
  let* s := get in
  let* _ := modify (set_facts (Some (gather_vm_facts (current_vm_obj s)))) in
  let* _ := check_maximums in
  let* _ := vm_get_ctls (current_vm_obj s) in
  let* pass1 := match state p with
                | present => ensure_controllers
                | absent => ret (inr false)
                end in
  match pass1 with
  | inl early => ret early
  | inr change_applied => configure_disks change_applied
  end.

End Methods.

(** [pyv.reconfigure_vm()] on a freshly built helper. *)
Definition run (p : Params)
    (ReconfigVM_Task : VirtualMachine → list VirtualDeviceSpec → TaskEnd * VirtualMachine)
    (vm : VirtualMachine) : Outcome Result * Self :=
  reconfigure_vm p ReconfigVM_Task (new_self vm).

(** ** Notions used in the statements *)

(** Every bus keeps its entry in [disk_units] and loses no unit number. *)
Definition occupancy_grows (du du' : gmap Z (gset Z)) : Prop :=
  ∀ c o, du !! c = Some o → ∃ o', du' !! c = Some o' ∧ o ⊆ o'.

(** A batch of further allocations, as the loop of [configure_rdm_disks]
    issues them. *)
Definition create_rdm_batch (p : Params) (batch : list (ScsiLun * string * string)) : M unit :=
  for_each batch (λ '(lun, vm_ds, rdm_file), create_rdm p lun vm_ds rdm_file).

(** [(ctl, bus_n)] is the first free slot of [s]: every allowed bus before
    [ctl] in the order of [rdm_controller_bus] has all its units [0..ctl_max]
    taken, [bus_n] is in range and not taken on [ctl], and every smaller
    unit of [ctl] is taken. *)
Definition first_free (p : Params) (s : Self) (ctl bus_n : Z) : Prop :=
  ∃ pre post occupied,
    rdm_controller_bus p = pre ++ (ctl :: post) ∧
    (∀ c, c ∈ pre →
       ∃ o, disk_units s !! c = Some o ∧ ∀ u, 0 ≤ u ≤ ctl_max s → u ∈ o) ∧
    disk_units s !! ctl = Some occupied ∧
    0 ≤ bus_n ≤ ctl_max s ∧
    (bus_n ∉ occupied) ∧
    (∀ u, 0 ≤ u < bus_n → u ∈ occupied).

(** ** The loops of the module as folds

    Pure readings of the loops, proved equal to the loops below. *)

(** [ctl_slot_key], [ctl_key_slot] and [ctl_units] after [vm_get_ctls] has
    gone through [devs]. *)
Definition slot_key_of (devs : list VirtualDevice) (m : gmap Z Z) : gmap Z Z :=
  foldl (λ m d, if is_scsi_controller d then <[busNumber d := key d]> m else m) m devs.

Definition key_slot_of (devs : list VirtualDevice) (m : gmap Z Z) : gmap Z Z :=
  foldl (λ m d, if is_scsi_controller d then <[key d := busNumber d]> m else m) m devs.

Definition units_of (devs : list VirtualDevice) (m : gmap Z string) : gmap Z string :=
  foldl (λ m d, match dev_class d with
                | ScsiControllerDevice c => <[busNumber d := ctl_unit_name c]> m
                | _ => m
                end) m devs.

(** [disk_units] after the first loop of [get_rdm_info]. *)
Definition reserve_units (units : gmap Z string) (du : gmap Z (gset Z)) : gmap Z (gset Z) :=
  foldl (λ du c, <[c := {[7]}]> du) du (map_to_list units).*1.

(** [disk_units] after the second loop of [get_rdm_info]; [None] when one of
    the two dictionary look-ups raises [KeyError]. *)
Fixpoint place_disks (ks : gmap Z Z) (du : gmap Z (gset Z)) (rdms : list RdmDisk)
    : option (gmap Z (gset Z)) :=
  match rdms with
  | [] => Some du
  | disk :: rest =>
      match ks !! controllerKey (rdm_device disk) with
      | None => None
      | Some ctl_n =>
          match du !! ctl_n with
          | None => None
          | Some units =>
              place_disks ks (<[ctl_n := units ∪ {[unitNumber (rdm_device disk)]}]> du) rest
          end
      end
  end.

(** [wwid_presented] after the second loop of [get_rdm_info]: the number of
    disks whose LUN identifier contains one of the requested WWIDs. *)
Definition count_presented (requested : list string) (rdms : list RdmDisk) : Z :=
  Z.of_nat (length (filter (λ disk, existsb (wwid_in_uuid disk) requested = true) rdms)).

(** [all_disk] and [free_bays] of [get_rdm_info]. *)
Definition all_disk (p : Params) (rdms : list RdmDisk) : Z :=
  Z.of_nat (length rdms)
  + (Z.of_nat (length (rdm_disk p)) - count_presented (rdm_disk p) rdms).

Definition free_bays (p : Params) (s : Self) : Z :=
  ctl_max s * Z.of_nat (length (rdm_controller_bus p)).

(** Appending [specs] to [configspec.deviceChange], raising [change_detected]
    when something is appended. *)
Definition append_specs (specs : list VirtualDeviceSpec) (s : Self) : Self :=
  set_change_detected (change_detected s || bool_decide (specs ≠ []))
    (set_configspec (configspec s ++ specs) s).

(** The buses for which [ctl_create_new] builds a controller. *)
Definition missing_ctls (p : Params) (s : Self) : list Z :=
  filter (λ ctl, ctl_units s !! ctl = None ∧ get_vm_ctl_n (current_vm_obj s) ctl = None)
         (rdm_controller_bus p).

(** The test of [ctl_check_types] on one item of [ctl_units]. *)
Definition wrong_type (p : Params) (search : ScsiType) (item : Z * string) : bool :=
  bool_decide (item.1 ∈ rdm_controller_bus p)
  && (PyStr.find item.2 (scsi_type_str search) =? -1).

(** The body of the second loop of [get_rdm_info]. *)
Definition place_body (p : Params) (wwid_presented : Z) (disk : RdmDisk) : M Z :=
  let* s := get in
  match ctl_key_slot s !! controllerKey (rdm_device disk) with
  | None => raise KeyError
  | Some ctl_n =>
      match disk_units s !! ctl_n with
      | None => raise KeyError
      | Some units =>
          let* _ := modify (set_disk_units
                    (<[ctl_n := units ∪ {[unitNumber (rdm_device disk)]}]> (disk_units s))) in
          ret (if existsb (wwid_in_uuid disk) (rdm_disk p)
               then wwid_presented + 1 else wwid_presented)
      end
  end.

(** The detach specifications that the inner loop of the [absent] branch
    appends for one LUN. *)
Definition detach_for (lun : ScsiLun) (rdms : list RdmDisk) : list VirtualDeviceSpec :=
  (λ rdm, remove_rdm_disk (rdm_device rdm))
    <$> filter (λ rdm, lunUuid (rdm_backing rdm) = uuid lun) rdms.

(** The [absent] branch of [configure_rdm_disks] over [wwids]: what it
    appends, and the WWID it stops at when that one is not presented. *)
Fixpoint detach_plan (luns : list ScsiLun) (rdms : list RdmDisk) (wwids : list string)
    : list VirtualDeviceSpec * option string :=
  match wwids with
  | [] => ([], None)
  | wwid :: rest =>
      match find_lun luns wwid with
      | None => ([], Some wwid)
      | Some lun =>
          (detach_for lun rdms ++ (detach_plan luns rdms rest).1,
           (detach_plan luns rdms rest).2)
      end
  end.

(** The state in which [configure_disks] calls [get_rdm_info]. *)
Definition disks_listed (s : Self) : Self :=
  set_rdm_disks (omap as_rdm (hardware_device (current_vm_obj s))) (set_configspec [] s).

(** Every raw-mapped disk hangs off one of the machine's SCSI controllers,
    so that [get_rdm_info] can index it by bus. *)
Definition rdm_controllers_known (vm : VirtualMachine) : Prop :=
  ∀ d b, d ∈ hardware_device vm → backing d = Some b →
    ∃ c, c ∈ hardware_device vm ∧ is_scsi_controller c = true ∧ key c = controllerKey d.

Definition is_detach (spec : VirtualDeviceSpec) : Prop :=
  operation spec = op_remove ∧ ∃ k ck u, device spec = DiskRef k ck u.

(** The state in which [reconfigure_vm] reaches its [if self.rdm_state ==
    'present'], on a fresh helper. *)
Definition inventory_state (p : Params) (vm : VirtualMachine) : Self :=
  let s1 := set_facts (Some (gather_vm_facts vm)) (new_self vm) in
  let s2 := if bool_decide (14 ≤ hw_version vm ∧ rdm_controller_type p = paravirtual)
            then set_ctl_max 64 s1 else s1 in
  set_ctls (slot_key_of (hardware_device vm) ∅) (key_slot_of (hardware_device vm) ∅)
           (units_of (hardware_device vm) ∅) s2.

(** ** A reference vSphere

    A [ReconfigVM_Task] that always succeeds and does what the change list
    says: an added device appears at the end of the device list (controllers
    with key [1000 + bus], disks with key [2000 + 16 * (controller key - 1000)
    + unit], as vSphere numbers them), a removed disk disappears.  It serves
    to run the module on concrete machines. *)
Definition realize (spec : VirtualDeviceSpec) : list VirtualDevice :=
  match device spec with
  | NewScsiController cls _ ck u bus _ _ _ =>
      [ {| dev_class := ScsiControllerDevice cls; key := 1000 + bus; controllerKey := ck;
           unitNumber := u; busNumber := bus; backing := None |} ]
  | NewRdmDisk _ ck u b =>
      [ {| dev_class := VirtualDiskDevice; key := 2000 + 16 * (ck - 1000) + u;
           controllerKey := ck; unitNumber := u; busNumber := 0; backing := Some b |} ]
  | DiskRef _ _ _ => []
  end.

Definition apply_spec (devs : list VirtualDevice) (spec : VirtualDeviceSpec)
    : list VirtualDevice :=
  match operation spec with
  | op_add => devs ++ realize spec
  | op_remove =>
      match device spec with
      | DiskRef k _ _ => filter (λ d, key d ≠ k) devs
      | _ => devs
      end
  end.

Definition with_devices (vm : VirtualMachine) (devs : list VirtualDevice) : VirtualMachine :=
  {| hardware_device := devs; vm_datastore := vm_datastore vm; host_view := host_view vm;
     vmPathName := vmPathName vm; hw_version := hw_version vm |}.

Definition ReconfigVM_ideal (vm : VirtualMachine) (changes : list VirtualDeviceSpec)
    : TaskEnd * VirtualMachine :=
  (TaskSuccess, with_devices vm (foldl apply_spec (hardware_device vm) changes)).

(** Every unit number that [create_rdm] tries is taken on every bus of
    [rdm_controller_bus]. *)
Definition all_slots_occupied (p : Params) (s : Self) : Prop :=
  ∀ ctl, ctl ∈ rdm_controller_bus p →
    ∃ occupied, disk_units s !! ctl = Some occupied ∧
                ∀ u, 0 ≤ u ≤ ctl_max s → u ∈ occupied.

(** The name [configure_rdm_disks] gives to the mapping file of a LUN. *)
Definition rdm_file_name (vm_vmx_path rdmid : string) : string :=
  PyStr.replace vm_vmx_path ".vmx" ("_RDM" +:+ rdmid +:+ ".vmdk").

(** One iteration of the [present] loop of [configure_rdm_disks], on the
    part of the helper it works with: the spec it appends (if any) and the new
    [disk_units]. *)
Definition attach_one (p : Params) (luns : list ScsiLun) (rdms : list RdmDisk)
    (vm_ds vm_vmx_path : string) (slot_key : gmap Z Z) (cap : Z)
    (du : gmap Z (gset Z)) (wwid : string)
    : Outcome (list VirtualDeviceSpec * gmap Z (gset Z)) :=
  match find_lun luns wwid with
  | None => FailJson (msg_lun_not_presented wwid)
  | Some lun =>
      if bool_decide (Exists (λ rdm, uuid lun = lunUuid (rdm_backing rdm)) rdms)
      then Ok ([], du)
      else
        match WwnPattern.split1 (canonicalName lun) with
        | None => Raise IndexError
        | Some rdmid =>
            match scan_ctls du (seqZ 0 (cap + 1)) (rdm_controller_bus p) with
            | FailJson m => FailJson m
            | Raise e => Raise e
            | Ok None => Ok ([], du)
            | Ok (Some (ctl, bus_n)) =>
                match du !! ctl, slot_key !! ctl with
                | Some units, Some scsi_key =>
                    Ok ([create_rdm_disk scsi_key lun vm_ds
                           (rdm_file_name vm_vmx_path rdmid) bus_n],
                        <[ctl := units ∪ {[bus_n]}]> du)
                | _, _ => Raise KeyError
                end
            end
        end
  end.

(** The [present] loop over [wwids]. *)
Fixpoint attach_plan (p : Params) (luns : list ScsiLun) (rdms : list RdmDisk)
    (vm_ds vm_vmx_path : string) (slot_key : gmap Z Z) (cap : Z)
    (du : gmap Z (gset Z)) (wwids : list string)
    : Outcome (list VirtualDeviceSpec * gmap Z (gset Z)) :=
  match wwids with
  | [] => Ok ([], du)
  | wwid :: rest =>
      match attach_one p luns rdms vm_ds vm_vmx_path slot_key cap du wwid with
      | Ok (spec, du1) =>
          match attach_plan p luns rdms vm_ds vm_vmx_path slot_key cap du1 rest with
          | Ok (specs, du') => Ok (spec ++ specs, du')
          | FailJson m => FailJson m
          | Raise e => Raise e
          end
      | FailJson m => FailJson m
      | Raise e => Raise e
      end
  end.

(** The body of the [present] loop, with the values read before the loop. *)
Definition attach_body (p : Params) (luns : list ScsiLun) (vm_ds vm_vmx_path : string)
    (wwid : string) : M unit :=
  let* lun := resolve_lun luns wwid in
  let* s := get in
  if bool_decide (Exists (λ rdm, uuid lun = lunUuid (rdm_backing rdm)) (rdm_disks s))
  then ret tt
  else
    match WwnPattern.split1 (canonicalName lun) with
    | None => raise IndexError
    | Some rdmid =>
        let rdm_file :=
          PyStr.replace vm_vmx_path ".vmx" ("_RDM" +:+ rdmid +:+ ".vmdk") in
        create_rdm p lun vm_ds rdm_file
    end.

(** An attach spec for [lun]. *)
Definition is_attach_of (lun : ScsiLun) (spec : VirtualDeviceSpec) : Prop :=
  ∃ scsi_key vm_ds rdm_file bus_n,
    spec = create_rdm_disk scsi_key lun vm_ds rdm_file bus_n.

(** What the [present] loop may append when it works on [luns] and [rdms]:
    attach specs for LUNs of requested WWIDs that no disk of [rdms] carries. *)
Definition is_new_attach (p : Params) (luns : list ScsiLun) (rdms : list RdmDisk)
    (spec : VirtualDeviceSpec) : Prop :=
  ∃ wwid lun,
    wwid ∈ rdm_disk p ∧ find_lun luns wwid = Some lun ∧
    is_attach_of lun spec ∧
    ∀ rdm, rdm ∈ rdms → lunUuid (rdm_backing rdm) ≠ uuid lun.

(** The skip test of the [present] loop of [configure_rdm_disks]: some disk
    of [rdms] has the [uuid] of [lun] as its LUN identifier. *)
Definition lun_mapped (rdms : list RdmDisk) (lun : ScsiLun) : Prop :=
  ∃ rdm, rdm ∈ rdms ∧ lunUuid (rdm_backing rdm) = uuid lun.

(** ** What a second run needs from vSphere and from the data

    [realizes spec dev]: [dev] is the device that appears on the machine for
    the add spec [spec] (vSphere chooses its key). *)
Definition realizes (spec : VirtualDeviceSpec) (dev : VirtualDevice) : Prop :=
  match device spec with
  | NewScsiController cls _ _ _ bus _ _ _ =>
      dev_class dev = ScsiControllerDevice cls ∧ busNumber dev = bus ∧ backing dev = None
  | NewRdmDisk _ ck u b =>
      is_scsi_controller dev = false ∧ controllerKey dev = ck ∧ unitNumber dev = u
      ∧ backing dev = Some b
  | DiskRef _ _ _ => False
  end.

(** The task ends that [reconfigure_vm] takes for a success: [success], and
    [error] with an empty message. *)
Definition taken_as_done (e : TaskEnd) : bool :=
  match e with
  | TaskSuccess => true
  | TaskError m => negb (truthy (Some m))
  | _ => false
  end.

(** An [add] operation carrying a new device, as [create_scsi_controller_bus]
    and [create_rdm_disk] build them. *)
Definition is_addition (spec : VirtualDeviceSpec) : Prop :=
  operation spec = op_add ∧
  match device spec with
  | DiskRef _ _ _ => False
  | _ => True
  end.

(** Whenever the module takes a change list of additions as applied, the
    devices are on the machine, after the ones that were there, and nothing
    else has changed. *)
Definition faithful_additions
    (R : VirtualMachine → list VirtualDeviceSpec → TaskEnd * VirtualMachine) : Prop :=
  ∀ vm changes,
    taken_as_done (R vm changes).1 = true →
    Forall is_addition changes →
    ∃ added, (R vm changes).2 = with_devices vm (hardware_device vm ++ added) ∧
             Forall2 realizes changes added.

(** The [uuid] of a host LUN contains the WWID it is requested by, letter
    case ignored. *)
Definition uuids_embed_wwids (p : Params) (vm : VirtualMachine) : Prop :=
  ∀ h hs w lun,
    host_view vm = Some (h :: hs) → w ∈ rdm_disk p → find_lun (scsiLun h) w = Some lun →
    0 ≤ PyStr.find (PyStr.lower (uuid lun)) (PyStr.lower w).

(** Two SCSI controllers with the same key sit on the same bus. *)
Definition controller_keys_distinct (vm : VirtualMachine) : Prop :=
  ∀ c1 c2,
    c1 ∈ hardware_device vm → c2 ∈ hardware_device vm →
    is_scsi_controller c1 = true → is_scsi_controller c2 = true →
    key c1 = key c2 → busNumber c1 = busNumber c2.

(** [spec] is an attach spec and [rdm] the disk that realizes it. *)
Definition spec_disk (spec : VirtualDeviceSpec) (rdm : RdmDisk) : Prop :=
  match device spec with
  | NewRdmDisk _ ck u b =>
      controllerKey (rdm_device rdm) = ck ∧ unitNumber (rdm_device rdm) = u
      ∧ rdm_backing rdm = b
  | _ => False
  end.

(** What the controller pass of a [present] run leaves when it goes through:
    the machine with the controllers [added], every bus of the list served by
    a controller that passes the type test, and an inventory of exactly that
    machine. *)
Definition controllers_in_place (p : Params) (vm : VirtualMachine)
    (added : list VirtualDevice) (s : Self) : Prop :=
  let devs := hardware_device vm ++ added in
  current_vm_obj s = with_devices vm devs ∧
  Forall (λ d, dev_class d = ScsiControllerDevice (scsi_class_of (rdm_controller_type p))
               ∧ backing d = None) added ∧
  (∀ b, b ∈ rdm_controller_bus p → is_Some (units_of devs ∅ !! b)) ∧
  (∀ b name, units_of devs ∅ !! b = Some name → b ∈ rdm_controller_bus p →
             PyStr.find name (scsi_type_str (rdm_controller_type p)) ≠ -1) ∧
  ctl_slot_key s = slot_key_of devs ∅ ∧
  ctl_key_slot s = key_slot_of devs ∅ ∧
  ctl_units s = units_of devs ∅ ∧
  disk_units s = ∅ ∧
  ctl_max s = ctl_max (inventory_state p vm).

(** Boolean forms of the two data conditions, for concrete machines. *)
Definition keys_distinct_b (devs : list VirtualDevice) : bool :=
  forallb (λ c1,
    forallb (λ c2,
      implb (is_scsi_controller c1 && is_scsi_controller c2 && (key c1 =? key c2))
            (busNumber c1 =? busNumber c2)) devs) devs.

Definition uuids_embed_b (p : Params) (vm : VirtualMachine) : bool :=
  match host_view vm with
  | Some (h :: _) =>
      forallb (λ w, match find_lun (scsiLun h) w with
                    | Some lun => 0 <=? PyStr.find (PyStr.lower (uuid lun)) (PyStr.lower w)
                    | None => true
                    end) (rdm_disk p)
  | _ => true
  end.

(** ** Example data *)

Module SlotExample.
Definition params : Params :=
  {| state := present; rdm_controller_type := paravirtual;
     rdm_controller_bus := [0; 1]; rdm_disk := [] |}.
Definition vm : VirtualMachine :=
  {| hardware_device := []; vm_datastore := ["ds1"]; host_view := None;
     vmPathName := "[ds1] vm/vm.vmx"; hw_version := 13 |}.
Definition self : Self :=
  set_disk_units (<[0 := {[7; 0; 1]}]> (<[1 := {[7]}]> ∅))
    (set_ctls (<[0 := 1000]> (<[1 := 1001]> ∅)) ∅ ∅ (new_self vm)).
Definition lun : ScsiLun :=
  {| canonicalName := "naa.6000001"; uuid := "02006000001"; lun_deviceName := "d1" |}.
End SlotExample.

Definition paravirtual_controller (bus : Z) : VirtualDevice :=
  {| dev_class := ScsiControllerDevice ParaVirtualSCSIController; key := 1000 + bus;
     controllerKey := 100; unitNumber := 3; busNumber := bus; backing := None |}.

Definition lun_of_wwid (wwid : string) : ScsiLun :=
  {| canonicalName := "naa." +:+ PyStr.lower wwid;
     uuid := "02000a0000" +:+ PyStr.lower wwid +:+ "565620202020";
     lun_deviceName := "/vmfs/devices/disks/naa." +:+ PyStr.lower wwid |}.

Definition rdm_disk_on (bus unit : Z) (lun : ScsiLun) : VirtualDevice :=
  {| dev_class := VirtualDiskDevice; key := 2000 + 16 * bus + unit;
     controllerKey := 1000 + bus; unitNumber := unit; busNumber := 0;
     backing := Some {| lunUuid := uuid lun; deviceName := lun_deviceName lun;
                        compatibilityMode := "physicalMode";
                        diskMode := "independent_persistent"; datastore := "ds1";
                        fileName := "[ds1] vm/vm_RDM.vmdk"; sharing := "sharingNone" |} |}.

(** Scenario C of the spec: a disk on bus 3, removal asked with bus list [[1]]. *)
Module ScenarioC.
Definition wwid : string := "60002AC0000000000000006A000123FD".
Definition disk : VirtualDevice := rdm_disk_on 3 0 (lun_of_wwid wwid).
Definition vm : VirtualMachine :=
  {| hardware_device := [paravirtual_controller 1; paravirtual_controller 3; disk];
     vm_datastore := ["ds1"];
     host_view := Some [ {| scsiLun := [lun_of_wwid wwid] |} ];
     vmPathName := "[ds1] vm/vm.vmx"; hw_version := 13 |}.
Definition params : Params :=
  {| state := absent; rdm_controller_type := paravirtual;
     rdm_controller_bus := [1]; rdm_disk := [wwid] |}.
(** The same request once the disk is gone. *)
Definition vm_detached : VirtualMachine :=
  with_devices vm [paravirtual_controller 1; paravirtual_controller 3].
(** The same request once the LUN is no longer presented to the host. *)
Definition vm_unpresented : VirtualMachine :=
  {| hardware_device := [paravirtual_controller 1; paravirtual_controller 3];
     vm_datastore := ["ds1"]; host_view := Some [ {| scsiLun := [] |} ];
     vmPathName := "[ds1] vm/vm.vmx"; hw_version := 13 |}.
End ScenarioC.

(** A helper with one bus, all of whose sixteen unit numbers are taken. *)
Module Exhausted.
Definition params : Params :=
  {| state := present; rdm_controller_type := paravirtual;
     rdm_controller_bus := [0]; rdm_disk := [] |}.
Definition self : Self :=
  set_disk_units (<[0 := list_to_set (seqZ 0 16)]> ∅)
    (set_ctls (<[0 := 1000]> ∅) (<[1000 := 0]> ∅) (<[0 := "paravirtualscsicontroller"]> ∅)
       (new_self SlotExample.vm)).
End Exhausted.

(** A machine with a BusLogic controller on bus 1 and an LSI Logic SAS
    controller on bus 2. *)
Module MixedControllers.
Definition buslogic_on_1 : VirtualDevice :=
  {| dev_class := ScsiControllerDevice VirtualBusLogicController; key := 1001;
     controllerKey := 100; unitNumber := 3; busNumber := 1; backing := None |}.
Definition sas_on_2 : VirtualDevice :=
  {| dev_class := ScsiControllerDevice VirtualLsiLogicSASController; key := 1002;
     controllerKey := 100; unitNumber := 4; busNumber := 2; backing := None |}.
Definition vm : VirtualMachine :=
  {| hardware_device := [buslogic_on_1; sas_on_2]; vm_datastore := ["ds1"];
     host_view := Some [ {| scsiLun := [] |} ];
     vmPathName := "[ds1] vm/vm.vmx"; hw_version := 13 |}.
Definition present_paravirtual_1 : Params :=
  {| state := present; rdm_controller_type := paravirtual;
     rdm_controller_bus := [1]; rdm_disk := [] |}.
Definition absent_paravirtual_1 : Params :=
  {| state := absent; rdm_controller_type := paravirtual;
     rdm_controller_bus := [1]; rdm_disk := [] |}.
Definition present_lsilogic_2 : Params :=
  {| state := present; rdm_controller_type := lsilogic;
     rdm_controller_bus := [2]; rdm_disk := [] |}.
End MixedControllers.

(** A machine whose requested LUN is already mapped on bus 0, asked to use
    bus 1, which has no controller yet. *)
Module NewBusOnly.
Definition wwid : string := "60002AC0000000000000006A000123FD".
Definition vm : VirtualMachine :=
  {| hardware_device := [paravirtual_controller 0; rdm_disk_on 0 0 (lun_of_wwid wwid)];
     vm_datastore := ["ds1"];
     host_view := Some [ {| scsiLun := [lun_of_wwid wwid] |} ];
     vmPathName := "[ds1] vm/vm.vmx"; hw_version := 13 |}.
Definition params : Params :=
  {| state := present; rdm_controller_type := paravirtual;
     rdm_controller_bus := [1]; rdm_disk := [wwid] |}.
End NewBusOnly.

(** The capacity boundary of the spec: one paravirtual controller on bus 0,
    hardware version 13, so fifteen usable units. *)
Module CapacityBoundary.
Definition wwids : list string :=
  ["7000001"; "7000002"; "7000003"; "7000004"; "7000005"; "7000006"; "7000007";
   "7000008"; "7000009"; "7000010"; "7000011"; "7000012"; "7000013"; "7000014";
   "700000A"; "7000016"].
Definition units : list Z := [0; 1; 2; 3; 4; 5; 6; 8; 9; 10; 11; 12; 13; 14; 15].
Definition disks (n : nat) : list VirtualDevice :=
  zip_with (λ u w, rdm_disk_on 0 u (lun_of_wwid w)) (take n units) wwids.
Definition vm (n : nat) : VirtualMachine :=
  {| hardware_device := paravirtual_controller 0 :: disks n;
     vm_datastore := ["ds1"];
     host_view := Some [ {| scsiLun := lun_of_wwid <$> wwids |} ];
     vmPathName := "[ds1] vm/vm.vmx"; hw_version := 13 |}.
Definition request (ws : list string) : Params :=
  {| state := present; rdm_controller_type := paravirtual;
     rdm_controller_bus := [0]; rdm_disk := ws |}.
End CapacityBoundary.

(** Two LUNs, the WWID of the first being the beginning of the WWID of the
    second; the second is mapped on bus 0, the first is requested. *)
Module PrefixLuns.
Definition wwid_a : string := "60000a1".
Definition wwid_b : string := "60000a17".
Definition disk_b : VirtualDevice := rdm_disk_on 0 0 (lun_of_wwid wwid_b).
Definition vm : VirtualMachine :=
  {| hardware_device := [paravirtual_controller 0; disk_b];
     vm_datastore := ["ds1"];
     host_view := Some [ {| scsiLun := [lun_of_wwid wwid_a; lun_of_wwid wwid_b] |} ];
     vmPathName := "[ds1] vm/vm.vmx"; hw_version := 13 |}.
Definition params : Params :=
  {| state := present; rdm_controller_type := paravirtual;
     rdm_controller_bus := [0]; rdm_disk := [wwid_a] |}.
End PrefixLuns.

(** Scenario A of the spec: no controller yet, buses 1 and 2 allowed, four
    LUNs requested. *)
Module ScenarioA.
Definition wwids : list string :=
  ["60002AC0000000000000006A000123FD"; "60002AC0000000000000006B000123FD";
   "60002AC0000000000000006C000123FD"; "60002AC0000000000000006D000123FD"].
Definition vm : VirtualMachine :=
  {| hardware_device := []; vm_datastore := ["ds1"];
     host_view := Some [ {| scsiLun := lun_of_wwid <$> wwids |} ];
     vmPathName := "[ds1] vm/vm.vmx"; hw_version := 13 |}.
Definition params : Params :=
  {| state := present; rdm_controller_type := paravirtual;
     rdm_controller_bus := [1; 2]; rdm_disk := wwids |}.
Definition vm_after : VirtualMachine :=
  current_vm_obj (run params ReconfigVM_ideal vm).2.
End ScenarioA.

(** Eight LUNs whose [uuid] does not contain their WWID, requested on one
    bus of fifteen units. *)
Module ForeignUuids.
Definition lun (w u : string) : ScsiLun :=
  {| canonicalName := "naa." +:+ w; uuid := u; lun_deviceName := "/vmfs/devices/disks/" +:+ u |}.
Definition wwids : list string :=
  ["7000001"; "7000002"; "7000003"; "7000004"; "7000005"; "7000006"; "7000007"; "7000008"].
Definition uuids : list string :=
  ["vml.a"; "vml.b"; "vml.c"; "vml.d"; "vml.e"; "vml.f"; "vml.g"; "vml.h"].
Definition vm : VirtualMachine :=
  {| hardware_device := [paravirtual_controller 0]; vm_datastore := ["ds1"];
     host_view := Some [ {| scsiLun := zip_with lun wwids uuids |} ];
     vmPathName := "[ds1] vm/vm.vmx"; hw_version := 13 |}.
Definition params : Params :=
  {| state := present; rdm_controller_type := paravirtual;
     rdm_controller_bus := [0]; rdm_disk := wwids |}.
Definition vm_after : VirtualMachine :=
  current_vm_obj (run params ReconfigVM_ideal vm).2.
End ForeignUuids.

(** A machine with two controllers on bus 1, a BusLogic one followed by a
    paravirtual one. *)
Module TwoOnBusOne.
Definition buslogic : VirtualDevice :=
  {| dev_class := ScsiControllerDevice VirtualBusLogicController; key := 1001;
     controllerKey := 100; unitNumber := 3; busNumber := 1; backing := None |}.
Definition paravirtual : VirtualDevice :=
  {| dev_class := ScsiControllerDevice ParaVirtualSCSIController; key := 1007;
     controllerKey := 100; unitNumber := 4; busNumber := 1; backing := None |}.
Definition vm : VirtualMachine :=
  {| hardware_device := [buslogic; paravirtual]; vm_datastore := ["ds1"];
     host_view := Some [ {| scsiLun := [] |} ];
     vmPathName := "[ds1] vm/vm.vmx"; hw_version := 13 |}.
End TwoOnBusOne.

(** A machine whose raw-mapped disk hangs off a device that is none of the
    four SCSI controller classes. *)
Module ForeignController.
Definition wwid : string := "60002AC0000000000000006A000123FD".
Definition nvme : VirtualDevice :=
  {| dev_class := OtherDevice; key := 31000; controllerKey := 100; unitNumber := 30;
     busNumber := 0; backing := None |}.
Definition disk : VirtualDevice :=
  {| dev_class := VirtualDiskDevice; key := 32000; controllerKey := 31000; unitNumber := 0;
     busNumber := 0;
     backing := Some {| lunUuid := uuid (lun_of_wwid wwid);
                        deviceName := lun_deviceName (lun_of_wwid wwid);
                        compatibilityMode := "physicalMode";
                        diskMode := "independent_persistent"; datastore := "ds1";
                        fileName := "[ds1] vm/vm_RDM.vmdk"; sharing := "sharingNone" |} |}.
Definition vm : VirtualMachine :=
  {| hardware_device := [paravirtual_controller 0; nvme; disk];
     vm_datastore := ["ds1"];
     host_view := Some [ {| scsiLun := [lun_of_wwid wwid] |} ];
     vmPathName := "[ds1] vm/vm.vmx"; hw_version := 13 |}.
Definition params : Params :=
  {| state := absent; rdm_controller_type := paravirtual;
     rdm_controller_bus := [0]; rdm_disk := [] |}.
End ForeignController.

(** A machine without a readable datastore. *)
Module NoDatastore.
Definition vm : VirtualMachine :=
  {| hardware_device := [paravirtual_controller 0]; vm_datastore := [];
     host_view := Some [ {| scsiLun := [] |} ];
     vmPathName := "[ds1] vm/vm.vmx"; hw_version := 13 |}.
Definition params : Params :=
  {| state := absent; rdm_controller_type := paravirtual;
     rdm_controller_bus := [0]; rdm_disk := [] |}.
End NoDatastore.

(** A machine with a raw-mapped disk on unit 0 and an ordinary disk on
    unit 1 of the paravirtual controller of bus 0. *)
Module OrdinaryDisk.
Definition wwid : string := "60002AC0000000000000006A000123FD".
Definition mapped : VirtualDevice := rdm_disk_on 0 0 (lun_of_wwid wwid).
Definition flat : VirtualDevice :=
  {| dev_class := VirtualDiskDevice; key := 2001; controllerKey := 1000; unitNumber := 1;
     busNumber := 0; backing := None |}.
Definition vm : VirtualMachine :=
  {| hardware_device := [paravirtual_controller 0; mapped; flat];
     vm_datastore := ["ds1"];
     host_view := Some [ {| scsiLun := [lun_of_wwid wwid] |} ];
     vmPathName := "[ds1] vm/vm.vmx"; hw_version := 13 |}.
Definition params : Params :=
  {| state := present; rdm_controller_type := paravirtual;
     rdm_controller_bus := [0]; rdm_disk := [wwid] |}.
Definition self : Self := disks_listed (inventory_state params vm).
End OrdinaryDisk.

(** The request of scenario C with another controller type and other
    buses. *)
Module OtherOptions.
Definition params : Params :=
  {| state := absent; rdm_controller_type := lsilogic;
     rdm_controller_bus := [0; 2]; rdm_disk := [ScenarioC.wwid] |}.
End OtherOptions.

(** A machine without a controller, asked to use bus 1 twice and bus 0. *)
Module RepeatedBus.
Definition vm : VirtualMachine :=
  {| hardware_device := []; vm_datastore := ["ds1"];
     host_view := Some [ {| scsiLun := [] |} ];
     vmPathName := "[ds1] vm/vm.vmx"; hw_version := 13 |}.
Definition params : Params :=
  {| state := present; rdm_controller_type := lsilogic;
     rdm_controller_bus := [1; 0; 1]; rdm_disk := [] |}.
End RepeatedBus.

(** Thirteen of the LUNs of [CapacityBoundary] are mapped, on the units 0 to
    6 and 8 to 13 of bus 0; the first of them and a LUN that is not mapped
    are requested.  [self] is the helper as [get_rdm_info] leaves it, that
    is as [configure_rdm_disks] finds it. *)
Module SkipAndAttach.
Definition params : Params := CapacityBoundary.request ["7000001"; "7000016"].
Definition vm : VirtualMachine := CapacityBoundary.vm 13.
Definition host : HostSystem := {| scsiLun := lun_of_wwid <$> CapacityBoundary.wwids |}.
Definition self : Self :=
  (get_rdm_info params (omap as_rdm (hardware_device vm))
     (disks_listed (inventory_state params vm))).2.
End SkipAndAttach.

(** The request of scenario C with a WWID in front that no LUN of the host
    carries. *)
Module UnpresentedFirst.
Definition params : Params :=
  {| state := absent; rdm_controller_type := paravirtual;
     rdm_controller_bus := [1]; rdm_disk := ["deadbeef"; ScenarioC.wwid] |}.
End UnpresentedFirst.

(** ** Further notions *)

(** ** [main]

    What [main] hands to [module.fail_json]: a message of a [fail_json] call
    made further down (it leaves through [SystemExit], which [except
    Exception] does not catch), the message built from an exception, or the
    message for a machine that [get_vm] has not found. *)
Inductive MainMsg :=
| msg_from (m : FailMsg)
| msg_failed_with_exception (exc : Exn)
| msg_non_existing_vm.

(** How the module ends. *)
Inductive Exit :=
| exit_json (result : Result)
| exit_fail_json (m : MainMsg).

(** [main], from [vm = pyv.get_vm()] on; [get_vm] belongs to
    [ansible.module_utils.vmware], its answer is the argument [vm]. *)
Definition main (p : Params)
    (ReconfigVM_Task : VirtualMachine → list VirtualDeviceSpec → TaskEnd * VirtualMachine)
    (vm : option VirtualMachine) : Exit :=
  match vm with
  | Some vm_obj =>
      match (run p ReconfigVM_Task vm_obj).1 with
      | Ok result => exit_json result
      | FailJson m => exit_fail_json (msg_from m)
      | Raise exc => exit_fail_json (msg_failed_with_exception exc)
      end
  | None => exit_fail_json msg_non_existing_vm
  end.

(** A vSphere whose tasks all end in the state [error] with the message
    [m], the machine staying as it is. *)
Definition ReconfigVM_failing (m : string) (vm : VirtualMachine)
    (changes : list VirtualDeviceSpec) : TaskEnd * VirtualMachine :=
  (TaskError m, vm).

(** The returned dictionary [r] agrees with what the helper [s] has done to
    the machine [vm0] it started from. *)
Definition result_matches (vm0 : VirtualMachine) (r : Result) (s : Self) : Prop :=
  (changed r = false ↔ submitted s = []) ∧
  (submitted s = [] → current_vm_obj s = vm0) ∧
  (failed r = true →
     changed r = true ∧ instance r = None ∧ ∃ m, msg r = Some m ∧ m ≠ EmptyString) ∧
  (failed r = false → msg r = None ∧ instance r = Some (current_vm_obj s)).

(** The place of a raw-mapped disk: the key of its controller and its unit
    number. *)
Definition rdm_slot (rdm : RdmDisk) : Z * Z :=
  (controllerKey (rdm_device rdm), unitNumber (rdm_device rdm)).

Definition rdm_slots (vm : VirtualMachine) : list (Z * Z) :=
  rdm_slot <$> omap as_rdm (hardware_device vm).

(** The unit of [rdm] is taken in [du], on the bus that [ks] gives for its
    controller. *)
Definition covered (ks : gmap Z Z) (du : gmap Z (gset Z)) (rdm : RdmDisk) : Prop :=
  ∃ b o, ks !! controllerKey (rdm_device rdm) = Some b ∧ du !! b = Some o ∧
         unitNumber (rdm_device rdm) ∈ o.

(** What can be seen of a run from outside: its outcome, the change lists
    handed to vSphere and the machine it leaves. *)
Definition observed (run_end : Outcome Result * Self)
    : Outcome Result * list (list VirtualDeviceSpec) * VirtualMachine :=
  (run_end.1, submitted run_end.2, current_vm_obj run_end.2).

(** An [absent] run read as a function of the requested WWIDs, vSphere and
    the machine alone. *)
Definition absent_observed (wwids : list string)
    (R : VirtualMachine → list VirtualDeviceSpec → TaskEnd * VirtualMachine)
    (vm : VirtualMachine)
    : Outcome Result * list (list VirtualDeviceSpec) * VirtualMachine :=
  let devs := hardware_device vm in
  let rdms := omap as_rdm devs in
  match place_disks (key_slot_of devs ∅) (reserve_units (units_of devs ∅) ∅) rdms with
  | None => (Raise KeyError, [], vm)
  | Some _ =>
      match host_view vm, vm_datastore vm with
      | None, _ => (FailJson msg_no_host_permission, [], vm)
      | Some [], _ => (Raise IndexError, [], vm)
      | Some (_ :: _), [] => (FailJson msg_no_datastore_permission, [], vm)
      | Some (h :: _), _ :: _ =>
          let plan := detach_plan (scsiLun h) rdms wwids in
          match plan.2 with
          | Some w => (FailJson (msg_lun_not_presented w), [], vm)
          | None =>
              if bool_decide (plan.1 ≠ []) then
                let task := R vm plan.1 in
                (match task.1 with
                 | RestrictedVersion m => FailJson (msg_restricted_version m)
                 | OtherFault name => Raise (Fault name)
                 | TaskError m =>
                     if truthy (Some m) then Ok (failed_result (Some m))
                     else Ok {| changed := true; failed := false; msg := None;
                                instance := Some task.2 |}
                 | TaskSuccess =>
                     Ok {| changed := true; failed := false; msg := None;
                           instance := Some task.2 |}
                 end, [plan.1], task.2)
              else
                (Ok {| changed := false; failed := false; msg := None; instance := Some vm |},
                 [], vm)
          end
      end
  end.

(** The keys of the disks that a change list asks to remove. *)
Definition removed_keys (changes : list VirtualDeviceSpec) : list Z :=
  omap (λ spec, match device spec with
                | DiskRef k _ _ => Some k
                | _ => None
                end) changes.

(** Whenever the module takes a change list of removals as applied, the
    devices with the keys it names are gone and nothing else has changed. *)
Definition faithful_removals
    (R : VirtualMachine → list VirtualDeviceSpec → TaskEnd * VirtualMachine) : Prop :=
  ∀ vm changes,
    taken_as_done (R vm changes).1 = true →
    Forall is_detach changes →
    (R vm changes).2
    = with_devices vm (filter (λ d, key d ∉ removed_keys changes) (hardware_device vm)).

(** Every character of [s] is in the class [[0-9a-z]]. *)
Fixpoint id_chars (s : string) : bool :=
  match s with
  | EmptyString => true
  | String c s' => WwnPattern.is_id_char c && id_chars s'
  end.

(* ------------------------------------------------------------------ *)
(** * Properties *)

(** ** The slot scan *)

Lemma scan_units_found du ctl units bus_n :
  scan_units du ctl units = Ok (Some bus_n) →
  ∃ occupied pre post,
    du !! ctl = Some occupied ∧ units = pre ++ (bus_n :: post) ∧
    (bus_n ∉ occupied) ∧ ∀ u, u ∈ pre → u ∈ occupied.
Proof.
  induction units as [|u units IH]; simpl; [discriminate|].
  destruct (du !! ctl) as [occ|] eqn:Hdu; [|discriminate].
  case_bool_decide as Hin.
  - intros H. destruct (IH H) as (occ' & pre & post & Hocc & -> & Hnot & Hpre).
    simplify_eq. exists occ', (u :: pre), post. split_and!; try done.
    intros x [->|Hx]%elem_of_cons; auto.
  - intros [= ->]. exists occ, [], units. split_and!; try done.
    intros x Hx. by apply elem_of_nil in Hx.
Qed.

Lemma scan_units_full du ctl units :
  scan_units du ctl units = Ok None →
  units = [] ∨ ∃ occupied, du !! ctl = Some occupied ∧ ∀ u, u ∈ units → u ∈ occupied.
Proof.
  induction units as [|u units IH]; simpl; [by left|].
  destruct (du !! ctl) as [occ|] eqn:Hdu; [|discriminate].
  case_bool_decide as Hin; [|discriminate].
  intros H. right. exists occ. split; [done|].
  intros x [->|Hx]%elem_of_cons; [done|].
  destruct (IH H) as [->|(occ' & ? & Hall)]; [by apply elem_of_nil in Hx|].
  simplify_eq. auto.
Qed.

Lemma scan_units_full_inv du ctl units occupied :
  du !! ctl = Some occupied → (∀ u, u ∈ units → u ∈ occupied) →
  scan_units du ctl units = Ok None.
Proof.
  intros Hdu. induction units as [|u units IH]; simpl; [done|].
  intros Hall. rewrite Hdu, bool_decide_true by (apply Hall; left).
  apply IH. intros x Hx. apply Hall. by right.
Qed.

Lemma scan_ctls_found du units ctls ctl bus_n :
  scan_ctls du units ctls = Ok (Some (ctl, bus_n)) →
  ∃ pre post,
    ctls = pre ++ (ctl :: post) ∧
    scan_units du ctl units = Ok (Some bus_n) ∧
    ∀ c, c ∈ pre → scan_units du c units = Ok None.
Proof.
  induction ctls as [|c ctls IH]; simpl; [discriminate|].
  destruct (scan_units du c units) as [[u|]| |] eqn:Hc; try discriminate.
  - intros [= -> ->]. exists [], ctls. split_and!; try done.
    intros x Hx. by apply elem_of_nil in Hx.
  - intros H. destruct (IH H) as (pre & post & -> & Hfound & Hpre).
    exists (c :: pre), post. split_and!; try done.
    intros x [->|Hx]%elem_of_cons; auto.
Qed.

Lemma scan_ctls_exhausted du units ctls :
  (∀ c, c ∈ ctls → scan_units du c units = Ok None) →
  scan_ctls du units ctls = Ok None.
Proof.
  induction ctls as [|c ctls IH]; simpl; [done|].
  intros Hall. rewrite (Hall c) by left. apply IH. intros x Hx. apply Hall. by right.
Qed.

Lemma elem_of_seqZ_range (cap u : Z) : u ∈ seqZ 0 (cap + 1) ↔ 0 ≤ u ≤ cap.
Proof. rewrite elem_of_seqZ. lia. Qed.

Lemma seqZ_split_at (cap : Z) pre u post :
  seqZ 0 (cap + 1) = pre ++ (u :: post) →
  0 ≤ u ≤ cap ∧ ∀ x, 0 ≤ x < u → x ∈ pre.
Proof.
  intros Hsplit.
  assert (Hu : u ∈ seqZ 0 (cap + 1)) by (rewrite Hsplit; set_solver).
  apply elem_of_seqZ_range in Hu. split; [done|].
  assert (Hlen : seqZ 0 (cap + 1) !! length pre = Some u).
  { rewrite Hsplit. by rewrite list_lookup_middle. }
  assert (Hlt : Z.of_nat (length pre) < cap + 1).
  { apply lookup_lt_Some in Hlen. rewrite length_seqZ in Hlen. lia. }
  rewrite lookup_seqZ_lt in Hlen by done. simplify_eq.
  intros x Hx.
  assert (Hx' : seqZ 0 (cap + 1) !! Z.to_nat x = Some x).
  { rewrite lookup_seqZ_lt by lia. f_equal. lia. }
  rewrite Hsplit, lookup_app_l in Hx' by lia.
  by eapply list_elem_of_lookup_2.
Qed.

(** ** Monad bookkeeping *)

Lemma occupancy_grows_refl du : occupancy_grows du du.
Proof. intros c o H. by exists o. Qed.

Lemma occupancy_grows_trans du1 du2 du3 :
  occupancy_grows du1 du2 → occupancy_grows du2 du3 → occupancy_grows du1 du3.
Proof.
  intros H12 H23 c o H. destruct (H12 c o H) as (o2 & H2 & ?).
  destruct (H23 c o2 H2) as (o3 & H3 & ?). exists o3. split; [done|set_solver].
Qed.

Lemma occupancy_grows_insert du c o u :
  du !! c = Some o → occupancy_grows du (<[c := o ∪ {[u]}]> du).
Proof.
  intros Hc c' o' H'. destruct (decide (c = c')) as [<-|Hne].
  - simplify_eq. exists (o ∪ {[u]}). rewrite lookup_insert_eq. split; [done|set_solver].
  - exists o'. rewrite lookup_insert_ne by done. done.
Qed.

Section Allocator.
Variable p : Params.

Lemma create_rdm_found lun vm_ds rdm_file s ctl bus_n :
  find_free_slot p s = Ok (Some (ctl, bus_n)) →
  ∃ occupied,
    disk_units s !! ctl = Some occupied ∧
    disk_units (create_rdm p lun vm_ds rdm_file s).2
      = <[ctl := occupied ∪ {[bus_n]}]> (disk_units s) ∧
    ctl_max (create_rdm p lun vm_ds rdm_file s).2 = ctl_max s ∧
    match ctl_slot_key s !! ctl with
    | Some scsi_key =>
        (create_rdm p lun vm_ds rdm_file s).1 = Ok tt ∧
        configspec (create_rdm p lun vm_ds rdm_file s).2
          = configspec s ++ [create_rdm_disk scsi_key lun vm_ds rdm_file bus_n] ∧
        change_detected (create_rdm p lun vm_ds rdm_file s).2 = true
    | None =>
        (create_rdm p lun vm_ds rdm_file s).1 = Raise KeyError ∧
        configspec (create_rdm p lun vm_ds rdm_file s).2 = configspec s
    end.
Proof.
  intros Hfind.
  assert (∃ occupied, disk_units s !! ctl = Some occupied) as [occ Hocc].
  { unfold find_free_slot in Hfind.
    apply scan_ctls_found in Hfind as (? & ? & _ & Hu & _).
    apply scan_units_found in Hu as (occ & ? & ? & ? & _). by exists occ. }
  exists occ. split; [done|].
  unfold create_rdm, bind, get, modify, raise, ret. rewrite Hfind, Hocc. simpl.
  destruct (ctl_slot_key s !! ctl); simpl; done.
Qed.

Lemma create_rdm_grows lun vm_ds rdm_file s :
  occupancy_grows (disk_units s) (disk_units (create_rdm p lun vm_ds rdm_file s).2) ∧
  ctl_max (create_rdm p lun vm_ds rdm_file s).2 = ctl_max s.
Proof.
  destruct (find_free_slot p s) as [[[ctl bus_n]|]| |] eqn:Hfind.
  - destruct (create_rdm_found lun vm_ds rdm_file s ctl bus_n Hfind)
      as (occ & Hocc & -> & -> & _).
    split; [by apply occupancy_grows_insert|done].
  - unfold create_rdm, bind, get, ret. rewrite Hfind. simpl.
    split; [apply occupancy_grows_refl|done].
  - unfold create_rdm, bind, get, fail_json. rewrite Hfind. simpl.
    split; [apply occupancy_grows_refl|done].
  - unfold create_rdm, bind, get, raise. rewrite Hfind. simpl.
    split; [apply occupancy_grows_refl|done].
Qed.

Lemma create_rdm_batch_grows batch s :
  occupancy_grows (disk_units s) (disk_units (create_rdm_batch p batch s).2) ∧
  ctl_max (create_rdm_batch p batch s).2 = ctl_max s.
Proof.
  unfold create_rdm_batch.
  revert s. induction batch as [|[[lun ds] f] batch IH]; intros s.
  - split; [apply occupancy_grows_refl|done].
  - simpl. unfold bind.
    destruct (create_rdm_grows lun ds f s) as [Hg Hm].
    destruct (create_rdm p lun ds f s) as [[[]| |] s'] eqn:Hrun; simpl in *; try done.
    destruct (IH s') as [Hg' Hm'].
    split; [by eapply occupancy_grows_trans|congruence].
Qed.

End Allocator.

Lemma scan_units_first du ctl occupied pre u post :
  du !! ctl = Some occupied → (∀ x, x ∈ pre → x ∈ occupied) → u ∉ occupied →
  scan_units du ctl (pre ++ u :: post) = Ok (Some u).
Proof.
  intros Hdu Hpre Hu. induction pre as [|x pre IH]; simpl; rewrite Hdu.
  - by rewrite bool_decide_false.
  - rewrite bool_decide_true by (apply Hpre; left).
    apply IH. intros y Hy. apply Hpre. by right.
Qed.

Lemma scan_ctls_first du units pre ctl post u :
  (∀ c, c ∈ pre → scan_units du c units = Ok None) →
  scan_units du ctl units = Ok (Some u) →
  scan_ctls du units (pre ++ ctl :: post) = Ok (Some (ctl, u)).
Proof.
  intros Hpre Hu. induction pre as [|c pre IH]; simpl.
  - by rewrite Hu.
  - rewrite (Hpre c) by left. apply IH. intros y Hy. apply Hpre. by right.
Qed.

Lemma seqZ_cut (cap u : Z) :
  0 ≤ u ≤ cap → seqZ 0 (cap + 1) = seqZ 0 u ++ u :: seqZ (u + 1) (cap - u).
Proof.
  intros Hu. replace (cap + 1) with (u + (1 + (cap - u))) by lia.
  rewrite seqZ_app by lia. f_equal.
  rewrite seqZ_cons by lia. f_equal. f_equal; lia.
Qed.

Lemma find_free_slot_first_free p s ctl bus_n :
  find_free_slot p s = Ok (Some (ctl, bus_n)) ↔ first_free p s ctl bus_n.
Proof.
  unfold find_free_slot, first_free. split.
  - intros Hscan.
    apply scan_ctls_found in Hscan as (pre & post & Hlist & Hu & Hpre).
    apply scan_units_found in Hu as (occ & upre & upost & Hocc & Hunits & Hfree & Hbelow).
    destruct (seqZ_split_at _ _ _ _ Hunits) as [[Hlo Hhi] Hsmall].
    exists pre, post, occ. split_and!; try done.
    + intros c Hc. destruct (scan_units_full _ _ _ (Hpre c Hc)) as [Hnil|(o & Ho & Hall)].
      * rewrite Hnil in Hunits. by destruct upre.
      * exists o. split; [done|]. intros u Hu. apply Hall. by apply elem_of_seqZ_range.
    + intros u Hu. apply Hbelow, Hsmall, Hu.
  - intros (pre & post & occ & -> & Hpre & Hocc & Hrange & Hfree & Hbelow).
    apply scan_ctls_first.
    + intros c Hc. destruct (Hpre c Hc) as (o & Ho & Hall).
      apply (scan_units_full_inv _ _ _ o Ho).
      intros u Hu. apply Hall. by apply elem_of_seqZ_range.
    + rewrite (seqZ_cut _ _ Hrange).
      apply (scan_units_first _ _ occ); try done.
      intros x Hx. apply Hbelow. apply elem_of_seqZ in Hx. lia.
Qed.

(** C1. Slot allocation.  The allocator of [create_rdm] returns [(ctl, bus_n)]
    exactly when it is the first free slot: buses are taken in the order of
    [rdm_controller_bus], units of a bus from 0 up to [ctl_max], and the pair
    returned is the first whose unit is not in the occupied set of its bus.
    [create_rdm] then adds the unit to that set, whether or not the attach
    spec can be built, the spec it builds carries this unit on the key of
    this bus, and no later allocation of the same pass, however many follow,
    returns the pair again. *)
Theorem slot_allocation_first_free (p : Params) (s : Self) (lun : ScsiLun)
    (vm_ds rdm_file : string) (ctl bus_n : Z) (batch : list (ScsiLun * string * string)) :
  (find_free_slot p s = Ok (Some (ctl, bus_n)) ↔ first_free p s ctl bus_n) ∧
  (find_free_slot p s = Ok (Some (ctl, bus_n)) →
   let s' := (create_rdm p lun vm_ds rdm_file s).2 in
   (∃ occupied,
      disk_units s !! ctl = Some occupied ∧
      disk_units s' = <[ctl := occupied ∪ {[bus_n]}]> (disk_units s) ∧
      (∀ scsi_key, ctl_slot_key s !! ctl = Some scsi_key →
         configspec s' = configspec s ++ [create_rdm_disk scsi_key lun vm_ds rdm_file bus_n])) ∧
   find_free_slot p (create_rdm_batch p batch s').2 ≠ Ok (Some (ctl, bus_n))).
Proof.
  split; [apply find_free_slot_first_free|].
  intros Hfind s'.
  destruct (create_rdm_found p lun vm_ds rdm_file s ctl bus_n Hfind)
    as (occ & Hocc & Hdu & Hmax & Hspec).
  fold s' in Hdu, Hmax, Hspec.
  split.
  - exists occ. split_and!; try done.
    intros k Hk. rewrite Hk in Hspec. by destruct Hspec as (_ & ? & _).
  - intros Hagain.
    destruct (create_rdm_batch_grows p batch s') as [Hgrow _].
    unfold find_free_slot in Hagain.
    apply scan_ctls_found in Hagain as (_ & _ & _ & Hu & _).
    apply scan_units_found in Hu as (occ2 & _ & _ & Hocc2 & _ & Hfree2 & _).
    destruct (Hgrow ctl (occ ∪ {[bus_n]})) as (o' & Ho' & Hsub).
    { rewrite Hdu. apply lookup_insert_eq. }
    simplify_eq. apply Hfree2. set_solver.
Qed.

Lemma slot_allocation_first_free_witness :
  find_free_slot SlotExample.params SlotExample.self = Ok (Some (0, 2)) ∧
  find_free_slot SlotExample.params
    (create_rdm SlotExample.params SlotExample.lun "ds1" "f1" SlotExample.self).2
    = Ok (Some (0, 3)) ∧
  configspec (create_rdm SlotExample.params SlotExample.lun "ds1" "f1" SlotExample.self).2
    = [create_rdm_disk 1000 SlotExample.lun "ds1" "f1" 2] ∧
  find_free_slot SlotExample.params
    (create_rdm_batch SlotExample.params [(SlotExample.lun, "ds1", "f2")]
       (create_rdm SlotExample.params SlotExample.lun "ds1" "f1" SlotExample.self).2).2
    ≠ Ok (Some (0, 2)).
Proof.
  split; [vm_compute; reflexivity|].
  split; [vm_compute; reflexivity|].
  split; [vm_compute; reflexivity|].
  apply (slot_allocation_first_free SlotExample.params SlotExample.self SlotExample.lun
           "ds1" "f1" 0 2 [(SlotExample.lun, "ds1", "f2")]).
  vm_compute; reflexivity.
Defined.

Lemma bind_run {A B} (m : M A) (f : A → M B) s :
  bind m f s = match m s with
               | (Ok a, s') => f a s'
               | (FailJson e, s') => (FailJson e, s')
               | (Raise e, s') => (Raise e, s')
               end.
Proof. reflexivity. Qed.

(** A loop of plain state updates is a fold. *)
Lemma for_each_modify {A} (l : list A) (g : A → Self → Self) s :
  for_each l (λ x, modify (g x)) s = (Ok tt, foldl (λ s x, g x s) s l).
Proof.
  revert s. induction l as [|x l IH]; intros s; [done|].
  simpl. rewrite bind_run. unfold modify at 1. apply IH.
Qed.

Lemma set_ctls_id s : set_ctls (ctl_slot_key s) (ctl_key_slot s) (ctl_units s) s = s.
Proof. by destruct s. Qed.

Lemma set_disk_units_id s : set_disk_units (disk_units s) s = s.
Proof. by destruct s. Qed.

Lemma vm_get_ctls_fold devs s :
  foldl vm_get_ctls_step s devs
  = set_ctls (slot_key_of devs (ctl_slot_key s)) (key_slot_of devs (ctl_key_slot s))
             (units_of devs (ctl_units s)) s.
Proof.
  unfold slot_key_of, key_slot_of, units_of.
  revert s. induction devs as [|d devs IH]; intros s; simpl.
  - by rewrite set_ctls_id.
  - rewrite IH. unfold vm_get_ctls_step, is_scsi_controller.
    destruct (dev_class d); simpl; try done.
Qed.

Lemma vm_get_ctls_run vm s :
  vm_get_ctls vm s
  = (Ok tt, set_ctls (slot_key_of (hardware_device vm) (ctl_slot_key s))
                     (key_slot_of (hardware_device vm) (ctl_key_slot s))
                     (units_of (hardware_device vm) (ctl_units s)) s).
Proof. unfold vm_get_ctls, modify. by rewrite vm_get_ctls_fold. Qed.

(** *** What the inventory contains *)

Lemma units_of_app devs1 devs2 m :
  units_of (devs1 ++ devs2) m = units_of devs2 (units_of devs1 m).
Proof. unfold units_of. by rewrite foldl_app. Qed.

Lemma slot_key_of_app devs1 devs2 m :
  slot_key_of (devs1 ++ devs2) m = slot_key_of devs2 (slot_key_of devs1 m).
Proof. unfold slot_key_of. by rewrite foldl_app. Qed.

Lemma key_slot_of_app devs1 devs2 m :
  key_slot_of (devs1 ++ devs2) m = key_slot_of devs2 (key_slot_of devs1 m).
Proof. unfold key_slot_of. by rewrite foldl_app. Qed.

Lemma units_of_cons d devs m :
  units_of (d :: devs) m
  = units_of devs match dev_class d with
                  | ScsiControllerDevice c => <[busNumber d := ctl_unit_name c]> m
                  | _ => m
                  end.
Proof. reflexivity. Qed.

Lemma slot_key_of_cons d devs m :
  slot_key_of (d :: devs) m
  = slot_key_of devs (if is_scsi_controller d then <[busNumber d := key d]> m else m).
Proof. reflexivity. Qed.

Lemma key_slot_of_cons d devs m :
  key_slot_of (d :: devs) m
  = key_slot_of devs (if is_scsi_controller d then <[key d := busNumber d]> m else m).
Proof. reflexivity. Qed.

Lemma units_of_lookup devs m b n :
  units_of devs m !! b = Some n →
  (∃ d c, d ∈ devs ∧ dev_class d = ScsiControllerDevice c ∧ busNumber d = b
          ∧ n = ctl_unit_name c)
  ∨ m !! b = Some n.
Proof.
  revert m. induction devs as [|d devs IH]; intros m; [by right|].
  rewrite units_of_cons. intros H.
  apply IH in H as [(d' & c & Hd' & ?)|H].
  - left. exists d', c. split; [by right|done].
  - destruct (dev_class d) as [c| |] eqn:Hc; try by right.
    destruct (decide (busNumber d = b)) as [Hb|Hb].
    + rewrite Hb, lookup_insert_eq in H. simplify_eq.
      left. exists d, c. split; [by left|done].
    + rewrite lookup_insert_ne in H by done. by right.
Qed.

Lemma units_of_is_Some devs m b :
  is_Some (units_of devs m !! b) ↔
  (∃ d, d ∈ devs ∧ is_scsi_controller d = true ∧ busNumber d = b) ∨ is_Some (m !! b).
Proof.
  revert m. induction devs as [|d devs IH]; intros m.
  - split; [by right|]. intros [(d & Hd & _)|H]; [by apply elem_of_nil in Hd|done].
  - rewrite units_of_cons, IH.
    unfold is_scsi_controller.
    split.
    + intros [(d' & Hd' & ?)|H].
      * left. exists d'. split; [by right|done].
      * destruct (dev_class d) as [c| |] eqn:Hc; try by right.
        destruct (decide (busNumber d = b)) as [Hb|Hb].
        -- left. exists d. rewrite Hc. split; [by left|done].
        -- rewrite lookup_insert_ne in H by done. by right.
    + intros [(d' & [->|Hd']%elem_of_cons & Hs & Hb)|H].
      * right. destruct (dev_class d); try done. rewrite Hb, lookup_insert_eq. by eexists.
      * left. by exists d'.
      * right. destruct (dev_class d); try done.
        destruct (decide (busNumber d = b)) as [Hb|Hb].
        -- rewrite Hb, lookup_insert_eq. by eexists.
        -- by rewrite lookup_insert_ne.
Qed.

Lemma key_slot_of_lookup devs m k b :
  key_slot_of devs m !! k = Some b →
  (∃ d, d ∈ devs ∧ is_scsi_controller d = true ∧ key d = k ∧ busNumber d = b)
  ∨ m !! k = Some b.
Proof.
  revert m. induction devs as [|d devs IH]; intros m; [by right|].
  rewrite key_slot_of_cons. intros H.
  apply IH in H as [(d' & Hd' & ?)|H].
  - left. exists d'. split; [by right|done].
  - destruct (is_scsi_controller d) eqn:Hc; [|by right].
    destruct (decide (key d = k)) as [Hk|Hk].
    + rewrite Hk, lookup_insert_eq in H. simplify_eq.
      left. exists d. split; [by left|done].
    + rewrite lookup_insert_ne in H by done. by right.
Qed.

Lemma key_slot_of_is_Some devs m k :
  is_Some (key_slot_of devs m !! k) ↔
  (∃ d, d ∈ devs ∧ is_scsi_controller d = true ∧ key d = k) ∨ is_Some (m !! k).
Proof.
  revert m. induction devs as [|d devs IH]; intros m.
  - split; [by right|]. intros [(d & Hd & _)|H]; [by apply elem_of_nil in Hd|done].
  - rewrite key_slot_of_cons, IH.
    split.
    + intros [(d' & Hd' & ?)|H].
      * left. exists d'. split; [by right|done].
      * destruct (is_scsi_controller d) eqn:Hc; [|by right].
        destruct (decide (key d = k)) as [Hk|Hk].
        -- left. exists d. split; [by left|done].
        -- rewrite lookup_insert_ne in H by done. by right.
    + intros [(d' & [->|Hd']%elem_of_cons & Hs & Hk)|H].
      * right. rewrite Hs, Hk, lookup_insert_eq. by eexists.
      * left. by exists d'.
      * right. destruct (is_scsi_controller d); [|done].
        destruct (decide (key d = k)) as [Hk|Hk].
        -- rewrite Hk, lookup_insert_eq. by eexists.
        -- by rewrite lookup_insert_ne.
Qed.

Lemma append_specs_nil s : append_specs [] s = s.
Proof.
  unfold append_specs. destruct s. simpl.
  rewrite app_nil_r, orb_false_r. done.
Qed.

Lemma append_specs_app a b s :
  append_specs b (append_specs a s) = append_specs (a ++ b) s.
Proof.
  unfold append_specs, set_change_detected, set_configspec. simpl.
  rewrite <- app_assoc. f_equal.
  destruct (change_detected s); simpl; [done|].
  destruct a, b; simpl; try done.
Qed.

Lemma for_each_ext {A} (l : list A) (f g : A → M unit) s :
  (∀ x s, x ∈ l → f x s = g x s) → for_each l f s = for_each l g s.
Proof.
  revert s. induction l as [|x l IH]; intros s H; [done|].
  simpl. rewrite !bind_run, (H x s) by left.
  destruct (g x s) as [[[]|e|e] s']; try done.
  apply IH. intros y s'' Hy. apply H. by right.
Qed.

Lemma for_each_check {A} (l : list A) (c : A → bool) (m : FailMsg) s :
  for_each l (λ x, if c x then fail_json m else ret tt) s
  = (if existsb c l then FailJson m else Ok tt, s).
Proof.
  induction l as [|x l IH]; [done|].
  simpl. rewrite bind_run. destruct (c x); simpl; [done|]. apply IH.
Qed.

Section MethodRuns.
Variable p : Params.

Lemma check_maximums_run s f :
  facts s = Some f →
  check_maximums p s
  = (Ok tt, if bool_decide (14 ≤ hw_version f ∧ rdm_controller_type p = paravirtual)
            then set_ctl_max 64 s else s).
Proof.
  intros Hf. unfold check_maximums. rewrite bind_run. simpl. rewrite Hf.
  by case_bool_decide.
Qed.

Lemma ctl_check_types_run search s :
  ctl_check_types p search s
  = (if existsb (wrong_type p search) (map_to_list (ctl_units s))
     then FailJson msg_wrong_controller_type else Ok tt, s).
Proof.
  unfold ctl_check_types. rewrite bind_run. simpl.
  rewrite <- for_each_check. apply for_each_ext.
  intros [bus name] s' _. unfold wrong_type. simpl.
  case_bool_decide; simpl; [|done]. by destruct (_ =? _).
Qed.

Lemma ctl_check_types_fails search s bus name :
  ctl_units s !! bus = Some name →
  bus ∈ rdm_controller_bus p →
  PyStr.find name (scsi_type_str search) = -1 →
  ctl_check_types p search s = (FailJson msg_wrong_controller_type, s).
Proof.
  intros Hb Hin Hfind. rewrite ctl_check_types_run.
  replace (existsb _ _) with true; [done|].
  symmetry. apply existsb_exists. exists (bus, name). split.
  - apply list_elem_of_In. by apply elem_of_map_to_list.
  - unfold wrong_type. simpl. rewrite bool_decide_true by done. rewrite Hfind. done.
Qed.

Lemma ctl_create_new_loop ctl_type (l : list Z) s :
  for_each l (λ ctl,
    let* s := get in
    match ctl_units s !! ctl with
    | Some _ => ret tt
    | None =>
        match get_vm_ctl_n (current_vm_obj s) ctl with
        | Some _ => ret tt
        | None =>
            let scsi_ctl_bus_n := create_scsi_controller_bus ctl_type ctl in
            modify (λ s, set_configspec (configspec s ++ [scsi_ctl_bus_n])
                           (set_change_detected true s))
        end
    end) s
  = (Ok tt,
     append_specs
       (create_scsi_controller_bus ctl_type <$>
          filter (λ ctl, ctl_units s !! ctl = None
                         ∧ get_vm_ctl_n (current_vm_obj s) ctl = None) l) s).
Proof.
  revert s. induction l as [|ctl l IH]; intros s.
  - simpl. by rewrite append_specs_nil.
  - rewrite filter_cons. cbn [for_each]. rewrite !bind_run. cbn [get].
    destruct (decide _) as [[Hu Hg]|Hn].
    + rewrite Hu, Hg. unfold modify at 1. rewrite IH. cbn.
      replace (set_configspec _ (set_change_detected true s))
        with (append_specs [create_scsi_controller_bus ctl_type ctl] s).
      2:{ unfold append_specs. simpl. by rewrite orb_true_r. }
      rewrite append_specs_app. done.
    + destruct (ctl_units s !! ctl) as [n|] eqn:Hu; [apply IH|].
      destruct (get_vm_ctl_n (current_vm_obj s) ctl) as [d|] eqn:Hg; [apply IH|].
      by destruct Hn.
Qed.

Lemma ctl_create_new_run ctl_type s :
  ctl_create_new p ctl_type s
  = (Ok tt, append_specs (create_scsi_controller_bus ctl_type <$> missing_ctls p s) s).
Proof. apply ctl_create_new_loop. Qed.

End MethodRuns.

(** *** [get_rdm_info] *)

Lemma reserve_units_fold (keys : list Z) (du : gmap Z (gset Z)) (c : Z) :
  foldl (λ (du : gmap Z (gset Z)) c, <[c := ({[7]} : gset Z)]> du) du keys !! c
  = if bool_decide (c ∈ keys) then Some {[7]} else du !! c.
Proof.
  revert du. induction keys as [|k keys IH]; intros du; [done|].
  simpl. rewrite IH. destruct (decide (c = k)) as [->|Hne].
  - rewrite lookup_insert_eq, (bool_decide_true (k ∈ k :: keys)) by left.
    by case_bool_decide.
  - rewrite lookup_insert_ne by done.
    case_bool_decide as H1; case_bool_decide as H2; try done.
    + destruct H2. by right.
    + apply elem_of_cons in H2 as [?|?]; done.
Qed.

Lemma reserve_units_lookup units du c :
  reserve_units units du !! c
  = match units !! c with Some _ => Some {[7]} | None => du !! c end.
Proof.
  unfold reserve_units. rewrite reserve_units_fold.
  destruct (units !! c) as [n|] eqn:Hc.
  - rewrite bool_decide_true; [done|].
    apply list_elem_of_fmap. exists (c, n). split; [done|]. by apply elem_of_map_to_list.
  - rewrite bool_decide_false; [done|].
    intros ([c' n] & -> & Hin)%list_elem_of_fmap.
    apply elem_of_map_to_list in Hin. simpl in Hc. congruence.
Qed.

Lemma reserve_loop (keys : list Z) s :
  foldl (λ s c, set_disk_units (<[c := {[7]}]> (disk_units s)) s) s keys
  = set_disk_units (foldl (λ (du : gmap Z (gset Z)) c, <[c := {[7]}]> du) (disk_units s) keys) s.
Proof.
  revert s. induction keys as [|k keys IH]; intros s; simpl.
  - by rewrite set_disk_units_id.
  - by rewrite IH.
Qed.

Lemma count_presented_cons requested disk rdms :
  count_presented requested (disk :: rdms)
  = (if existsb (wwid_in_uuid disk) requested then 1 else 0)
    + count_presented requested rdms.
Proof.
  unfold count_presented. rewrite filter_cons.
  destruct (existsb (wwid_in_uuid disk) requested) eqn:H.
  - rewrite decide_True by done. simpl length. lia.
  - rewrite decide_False by done. lia.
Qed.

Lemma place_disks_is_Some ks du rdms :
  (∀ d, d ∈ rdms → ∃ b, ks !! controllerKey (rdm_device d) = Some b ∧ is_Some (du !! b)) →
  is_Some (place_disks ks du rdms).
Proof.
  revert du. induction rdms as [|d rdms IH]; intros du H; simpl; [by eexists|].
  destruct (H d) as (b & -> & [u Hu]); [by left|]. rewrite Hu.
  apply IH. intros d' Hd'. destruct (H d') as (b' & Hb' & Hs); [by right|].
  exists b'. split; [done|]. destruct (decide (b = b')) as [->|Hne].
  - rewrite lookup_insert_eq. by eexists.
  - by rewrite lookup_insert_ne.
Qed.

Section GetRdmInfo.
Variable p : Params.

Lemma place_loop_ok rdms acc s du' :
  place_disks (ctl_key_slot s) (disk_units s) rdms = Some du' →
  for_fold rdms acc (place_body p) s
  = (Ok (acc + count_presented (rdm_disk p) rdms), set_disk_units du' s).
Proof.
  revert acc s. induction rdms as [|d rdms IH]; intros acc s; simpl.
  - intros [= <-]. unfold ret, count_presented. simpl.
    by rewrite Z.add_0_r, set_disk_units_id.
  - destruct (ctl_key_slot s !! _) as [b|] eqn:Hk; [|done].
    destruct (disk_units s !! b) as [u|] eqn:Hb; [|done].
    intros Hplace. rewrite bind_run. unfold place_body at 1.
    rewrite !bind_run. cbn [get]. rewrite Hk, Hb. rewrite bind_run. cbn [modify ret].
    rewrite IH by exact Hplace. rewrite count_presented_cons.
    f_equal. destruct (existsb _ _); f_equal; lia.
Qed.

Lemma place_loop_raises rdms acc s :
  place_disks (ctl_key_slot s) (disk_units s) rdms = None →
  ∃ du', for_fold rdms acc (place_body p) s = (Raise KeyError, set_disk_units du' s).
Proof.
  revert acc s. induction rdms as [|d rdms IH]; intros acc s; simpl; [done|].
  intros Hplace. rewrite bind_run. unfold place_body at 1.
  rewrite !bind_run. cbn [get].
  destruct (ctl_key_slot s !! _) as [b|] eqn:Hk.
  2:{ exists (disk_units s). by rewrite set_disk_units_id. }
  destruct (disk_units s !! b) as [u|] eqn:Hb.
  2:{ exists (disk_units s). by rewrite set_disk_units_id. }
  rewrite bind_run. cbn [modify ret].
  edestruct IH as (du' & ->); [exact Hplace|]. by exists du'.
Qed.

(** [get_rdm_info] when no look-up fails. *)
Lemma get_rdm_info_run rdms s du' :
  place_disks (ctl_key_slot s) (reserve_units (ctl_units s) (disk_units s)) rdms = Some du' →
  get_rdm_info p rdms s
  = (if bool_decide (all_disk p rdms > free_bays p s ∧ state p = present)
     then FailJson (msg_disk_number (all_disk p rdms) (free_bays p s))
     else Ok tt,
     set_disk_units du' s).
Proof.
  intros Hplace. unfold get_rdm_info. rewrite bind_run. cbn [get].
  rewrite bind_run, for_each_modify.
  rewrite reserve_loop. fold (reserve_units (ctl_units s) (disk_units s)).
  rewrite bind_run.
  change (for_fold rdms 0 _) with (for_fold rdms 0 (place_body p)).
  rewrite (place_loop_ok rdms 0 _ du') by done.
  rewrite bind_run. cbn [get]. rewrite Z.add_0_l.
  unfold all_disk, free_bays. simpl.
  by case_bool_decide.
Qed.

(** [get_rdm_info] in general: it touches [disk_units] only, and the only
    message it can fail with is the one of the capacity test. *)
Lemma get_rdm_info_frame rdms s :
  ∃ du', (get_rdm_info p rdms s).2 = set_disk_units du' s ∧
    ((get_rdm_info p rdms s).1 = Ok tt
     ∨ (get_rdm_info p rdms s).1 = Raise KeyError
     ∨ ((get_rdm_info p rdms s).1
          = FailJson (msg_disk_number (all_disk p rdms) (free_bays p s))
        ∧ all_disk p rdms > free_bays p s ∧ state p = present)).
Proof.
  destruct (place_disks (ctl_key_slot s) (reserve_units (ctl_units s) (disk_units s)) rdms)
    as [du'|] eqn:Hplace.
  - exists du'. rewrite (get_rdm_info_run rdms s du') by done. simpl.
    split; [done|]. case_bool_decide as Hc; [right; right; by destruct Hc|by left].
  - unfold get_rdm_info. rewrite bind_run. cbn [get].
    rewrite bind_run, for_each_modify.
    rewrite reserve_loop. fold (reserve_units (ctl_units s) (disk_units s)).
    rewrite bind_run.
    change (for_fold rdms 0 _) with (for_fold rdms 0 (place_body p)).
    edestruct (place_loop_raises rdms 0) as (du' & ->); [exact Hplace|].
    exists du'. simpl. split; [done|]. right. by left.
Qed.

End GetRdmInfo.

Lemma apply_changes_run R s :
  apply_changes R s
  = (match (R (current_vm_obj s) (configspec s)).1 with
     | RestrictedVersion m => FailJson (msg_restricted_version m)
     | OtherFault name => Raise (Fault name)
     | TaskError m => Ok (Some m)
     | TaskSuccess => Ok None
     end,
     set_vm_submitted (R (current_vm_obj s) (configspec s)).2
       (submitted s ++ [configspec s]) s).
Proof.
  unfold apply_changes. rewrite !bind_run. cbn [get modify].
  by destruct (R (current_vm_obj s) (configspec s)).1.
Qed.

Lemma detach_loop_run lun (rdms : list RdmDisk) s :
  for_each rdms (λ rdm,
    if bool_decide (lunUuid (rdm_backing rdm) = uuid lun)
    then
      let diskspec := remove_rdm_disk (rdm_device rdm) in
      modify (λ s, set_change_detected true
                     (set_configspec (configspec s ++ [diskspec]) s))
    else ret tt) s
  = (Ok tt, append_specs (detach_for lun rdms) s).
Proof.
  unfold detach_for.
  revert s. induction rdms as [|rdm rdms IH]; intros s.
  - simpl. by rewrite append_specs_nil.
  - cbn [for_each]. rewrite bind_run, filter_cons.
    case_bool_decide as Hm.
    + rewrite decide_True by done. unfold modify at 1. rewrite IH.
      rewrite fmap_cons.
      replace (set_change_detected true (set_configspec _ s))
        with (append_specs [remove_rdm_disk (rdm_device rdm)] s).
      2:{ unfold append_specs. simpl. by rewrite orb_true_r. }
      by rewrite append_specs_app.
    + rewrite decide_False by done. apply IH.
Qed.

Lemma detach_plan_is_detach luns rdms wwids :
  Forall is_detach (detach_plan luns rdms wwids).1.
Proof.
  induction wwids as [|w wwids IH]; simpl; [constructor|].
  destruct (find_lun luns w) as [lun|]; simpl; [|constructor].
  apply Forall_app. split; [|done].
  unfold detach_for. apply Forall_fmap, Forall_forall. intros rdm _.
  split; [done|]. simpl. eauto.
Qed.

Lemma detach_plan_resolved luns rdms wwids :
  (∀ w, w ∈ wwids → is_Some (find_lun luns w)) →
  (detach_plan luns rdms wwids).2 = None.
Proof.
  induction wwids as [|w wwids IH]; simpl; [done|]. intros H.
  destruct (H w) as [lun ->]; [by left|]. simpl. apply IH.
  intros w' Hw'. apply H. by right.
Qed.

Lemma detach_plan_elem luns rdms wwids w lun rdm :
  (∀ w, w ∈ wwids → is_Some (find_lun luns w)) →
  w ∈ wwids → find_lun luns w = Some lun →
  rdm ∈ rdms → lunUuid (rdm_backing rdm) = uuid lun →
  remove_rdm_disk (rdm_device rdm) ∈ (detach_plan luns rdms wwids).1.
Proof.
  intros Hall Hw Hlun Hrdm Hmatch.
  induction wwids as [|w' wwids IH]; [by apply elem_of_nil in Hw|].
  simpl. destruct (Hall w') as [lun' Hlun']; [by left|]. rewrite Hlun'. simpl.
  apply elem_of_app. apply elem_of_cons in Hw as [->|Hw].
  - left. simplify_eq. unfold detach_for.
    apply list_elem_of_fmap. exists rdm. split; [done|].
    by apply list_elem_of_filter.
  - right. apply IH; [|done]. intros w'' Hw''. apply Hall. by right.
Qed.

Lemma filter_none {A} (P : A → Prop) `{!∀ x, Decision (P x)} (l : list A) :
  (∀ x, x ∈ l → ¬ P x) → filter P l = [].
Proof.
  induction l as [|x l IH]; intros Hall; [done|].
  rewrite filter_cons, decide_False by (apply Hall; left).
  apply IH. intros y Hy. apply Hall. by right.
Qed.

Lemma detach_plan_nil luns rdms wwids :
  (∀ w lun rdm, w ∈ wwids → find_lun luns w = Some lun → rdm ∈ rdms →
                lunUuid (rdm_backing rdm) ≠ uuid lun) →
  (detach_plan luns rdms wwids).1 = [].
Proof.
  induction wwids as [|w wwids IH]; simpl; [done|]. intros H.
  destruct (find_lun luns w) as [lun|] eqn:Hlun; simpl; [|done].
  rewrite IH by (intros w' lun' rdm Hw'; apply H; by right).
  rewrite app_nil_r. unfold detach_for.
  rewrite filter_none; [done|].
  intros rdm Hrdm. by apply (H w lun rdm); [left| |].
Qed.

Section DiskPass.
Variable p : Params.
Variable R : VirtualMachine → list VirtualDeviceSpec → TaskEnd * VirtualMachine.

Lemma absent_loop_run luns wwids s :
  for_each wwids (λ wwid,
    let* lun := resolve_lun luns wwid in
    let* s := get in
    for_each (rdm_disks s) (λ rdm,
      if bool_decide (lunUuid (rdm_backing rdm) = uuid lun)
      then
        let diskspec := remove_rdm_disk (rdm_device rdm) in
        modify (λ s, set_change_detected true
                       (set_configspec (configspec s ++ [diskspec]) s))
      else ret tt)) s
  = (match (detach_plan luns (rdm_disks s) wwids).2 with
     | None => Ok tt
     | Some w => FailJson (msg_lun_not_presented w)
     end,
     append_specs (detach_plan luns (rdm_disks s) wwids).1 s).
Proof.
  revert s. induction wwids as [|w wwids IH]; intros s.
  - simpl. by rewrite append_specs_nil.
  - cbn [for_each detach_plan]. rewrite !bind_run. unfold resolve_lun at 1.
    destruct (find_lun luns w) as [lun|] eqn:Hlun.
    + cbn [ret]. rewrite bind_run. cbn [get]. rewrite detach_loop_run, IH.
      cbn. by rewrite append_specs_app.
    + cbn. by rewrite append_specs_nil.
Qed.

Lemma configure_absent_run vm s h hs ds dss :
  state p = absent → host_view vm = Some (h :: hs) → vm_datastore vm = ds :: dss →
  configure_rdm_disks p vm s
  = (match (detach_plan (scsiLun h) (rdm_disks s) (rdm_disk p)).2 with
     | None => Ok tt
     | Some w => FailJson (msg_lun_not_presented w)
     end,
     append_specs (detach_plan (scsiLun h) (rdm_disks s) (rdm_disk p)).1 s).
Proof.
  intros Hst Hh Hds. unfold configure_rdm_disks, get_host_by_vm, get_datastore_by_vm.
  rewrite Hh, Hds, Hst. rewrite !bind_run. cbn [ret]. apply absent_loop_run.
Qed.

Lemma configure_absent_frame vm s :
  state p = absent →
  ∃ specs, (configure_rdm_disks p vm s).2 = append_specs specs s ∧
           Forall is_detach specs ∧
           (configure_rdm_disks p vm s).1 ≠ FailJson msg_wrong_controller_type.
Proof.
  intros Hst.
  destruct (host_view vm) as [[|h hs]|] eqn:Hh.
  - exists []. unfold configure_rdm_disks, get_host_by_vm. rewrite Hh, bind_run.
    cbn. by rewrite append_specs_nil.
  - destruct (vm_datastore vm) as [|ds dss] eqn:Hds.
    + exists []. unfold configure_rdm_disks, get_host_by_vm, get_datastore_by_vm.
      rewrite Hh, Hds, !bind_run. cbn. by rewrite append_specs_nil.
    + eexists. rewrite (configure_absent_run vm s h hs ds dss) by done. cbn.
      split; [done|]. split; [apply detach_plan_is_detach|].
      by destruct (detach_plan _ _ _).2.
  - exists []. unfold configure_rdm_disks, get_host_by_vm. rewrite Hh, bind_run.
    cbn. by rewrite append_specs_nil.
Qed.

Lemma run_inventory vm :
  run p R vm
  = bind match state p with
         | present => ensure_controllers p R
         | absent => ret (inr false)
         end
         (λ pass1, match pass1 with
                   | inl early => ret early
                   | inr change_applied => configure_disks p R change_applied
                   end)
         (inventory_state p vm).
Proof.
  unfold run, reconfigure_vm. rewrite bind_run. cbn [get].
  rewrite bind_run. cbn [modify].
  rewrite bind_run, (check_maximums_run p _ vm) by done.
  rewrite bind_run, vm_get_ctls_run. unfold inventory_state, gather_vm_facts.
  case_bool_decide; reflexivity.
Qed.

Lemma run_absent vm :
  state p = absent → run p R vm = configure_disks p R false (inventory_state p vm).
Proof. intros Hst. rewrite run_inventory, Hst. reflexivity. Qed.

Lemma configure_disks_run change_applied s :
  configure_disks p R change_applied s
  = bind (get_rdm_info p (rdm_disks (disks_listed s)))
      (λ _, bind (configure_rdm_disks p (current_vm_obj s))
              (λ _, finish R change_applied))
      (disks_listed s).
Proof. reflexivity. Qed.

Lemma finish_unchanged change_applied s :
  change_detected s = false →
  finish R change_applied s
  = (Ok {| changed := change_applied; failed := false; msg := None;
           instance := Some (current_vm_obj s) |},
     set_facts (Some (current_vm_obj s)) s).
Proof. intros H. unfold finish. rewrite !bind_run. cbn [get]. rewrite H. reflexivity. Qed.

Lemma finish_changed change_applied s :
  change_detected s = true →
  let task := R (current_vm_obj s) (configspec s) in
  let s' := set_vm_submitted task.2 (submitted s ++ [configspec s]) s in
  finish R change_applied s
  = match task.1 with
    | RestrictedVersion m => (FailJson (msg_restricted_version m), s')
    | OtherFault name => (Raise (Fault name), s')
    | TaskError m =>
        if truthy (Some m) then (Ok (failed_result (Some m)), s')
        else (Ok {| changed := true; failed := false; msg := None;
                    instance := Some task.2 |},
              set_facts (Some task.2) s')
    | TaskSuccess =>
        (Ok {| changed := true; failed := false; msg := None; instance := Some task.2 |},
         set_facts (Some task.2) s')
    end.
Proof.
  intros H task s'. unfold finish. rewrite !bind_run. cbn [get]. rewrite H.
  rewrite !bind_run, apply_changes_run. fold task. fold s'.
  destruct task.1 as [m|n|m|]; try reflexivity.
  destruct m; reflexivity.
Qed.

End DiskPass.

Lemma elem_of_rdm_disks (devs : list VirtualDevice) (rdm : RdmDisk) :
  rdm ∈ omap as_rdm devs ↔
  ∃ d b, d ∈ devs ∧ backing d = Some b ∧ rdm = {| rdm_device := d; rdm_backing := b |}.
Proof.
  rewrite list_elem_of_omap. unfold as_rdm. split.
  - intros (d & Hd & H). destruct (backing d) as [b|] eqn:Hb; [|done].
    exists d, b. by simplify_eq.
  - intros (d & b & Hd & Hb & ->). exists d. by rewrite Hb.
Qed.

Lemma place_disks_known vm :
  rdm_controllers_known vm →
  is_Some (place_disks (key_slot_of (hardware_device vm) ∅)
             (reserve_units (units_of (hardware_device vm) ∅) ∅)
             (omap as_rdm (hardware_device vm))).
Proof.
  intros Hknown. apply place_disks_is_Some.
  intros rdm (d & b & Hd & Hb & ->)%elem_of_rdm_disks. simpl.
  destruct (Hknown d b Hd Hb) as (c & Hc & Hscsi & Hkey).
  assert (is_Some (key_slot_of (hardware_device vm) ∅ !! controllerKey d)) as [bus Hbus].
  { apply key_slot_of_is_Some. left. by exists c. }
  exists bus. split; [done|].
  apply key_slot_of_lookup in Hbus as [(c' & Hc' & Hs' & _ & Hb')|Hbus]; [|done].
  rewrite reserve_units_lookup.
  assert (is_Some (units_of (hardware_device vm) ∅ !! bus)) as [n ->]; [|by eexists].
  apply units_of_is_Some. left. by exists c'.
Qed.

(** C10 (stated further below) rests on this: whatever happens, an [absent]
    run hands vSphere at most one change list, made of detach specs only. *)
Lemma absent_post_finish R s :
  submitted s = [] → Forall is_detach (configspec s) →
  (length (submitted (finish R false s).2) ≤ 1)%nat ∧
  (∀ changes, changes ∈ submitted (finish R false s).2 → Forall is_detach changes) ∧
  (finish R false s).1 ≠ FailJson msg_wrong_controller_type.
Proof.
  intros Hsub Hspecs.
  destruct (change_detected s) eqn:Hcd.
  - rewrite (finish_changed R false s Hcd). cbv zeta. rewrite Hsub. simpl.
    destruct (R (current_vm_obj s) (configspec s)).1 as [m|n|m|]; simpl;
      try destruct m; simpl;
      (split_and!; [lia| |done]);
      intros changes ->%list_elem_of_singleton; done.
  - rewrite (finish_unchanged R false s Hcd). simpl. rewrite Hsub.
    split_and!; [simpl; lia| |done]. intros changes H. by apply elem_of_nil in H.
Qed.

Lemma inventory_state_fields p vm :
  submitted (inventory_state p vm) = [] ∧
  configspec (inventory_state p vm) = [] ∧
  change_detected (inventory_state p vm) = false ∧
  current_vm_obj (inventory_state p vm) = vm ∧
  disk_units (inventory_state p vm) = ∅ ∧
  ctl_slot_key (inventory_state p vm) = slot_key_of (hardware_device vm) ∅ ∧
  ctl_key_slot (inventory_state p vm) = key_slot_of (hardware_device vm) ∅ ∧
  ctl_units (inventory_state p vm) = units_of (hardware_device vm) ∅ ∧
  ctl_max (inventory_state p vm)
  = if bool_decide (14 ≤ hw_version vm ∧ rdm_controller_type p = paravirtual)
    then 64 else 15.
Proof. unfold inventory_state. case_bool_decide; done. Qed.

Opaque inventory_state.

Section AbsentRuns.
Variable p : Params.
Variable R : VirtualMachine → list VirtualDeviceSpec → TaskEnd * VirtualMachine.
Variable vm : VirtualMachine.
Hypothesis Habsent : state p = absent.

Lemma run_absent_post :
  (length (submitted (run p R vm).2) ≤ 1)%nat ∧
  (∀ changes, changes ∈ submitted (run p R vm).2 → Forall is_detach changes) ∧
  (run p R vm).1 ≠ FailJson msg_wrong_controller_type.
Proof.
  rewrite run_absent, configure_disks_run by done.
  destruct (inventory_state_fields p vm) as (Hsub & Hcs & Hcd & Hvm & _).
  set (s1 := disks_listed (inventory_state p vm)).
  assert (Hsub1 : submitted s1 = []) by done.
  destruct (get_rdm_info_frame p (rdm_disks s1) s1) as (du' & Hst & Hout).
  rewrite bind_run.
  destruct (get_rdm_info p (rdm_disks s1) s1) as [o s2]. simpl in Hst, Hout. subst s2.
  destruct o as [[]|m|e].
  - rewrite bind_run.
    destruct (configure_absent_frame p (current_vm_obj (inventory_state p vm))
                (set_disk_units du' s1) Habsent) as (specs & Hst2 & Hdet & Hne).
    destruct (configure_rdm_disks p _ (set_disk_units du' s1)) as [o s3].
    simpl in Hst2, Hne. subst s3.
    destruct o as [[]|m|e].
    + apply absent_post_finish; [done|]. by simpl.
    + subst s1; simpl; rewrite Hsub. split_and!; [simpl; lia| |first [by intros [= ->]; apply Hne|done]].
      intros changes H. by apply elem_of_nil in H.
    + subst s1; simpl; rewrite Hsub. split_and!; [simpl; lia| |first [by intros [= ->]; apply Hne|done]].
      intros changes H. by apply elem_of_nil in H.
  - subst s1; simpl; rewrite Hsub. split_and!; [simpl; lia| |].
    + intros changes H. by apply elem_of_nil in H.
    + destruct Hout as [?|[?|[? _]]]; congruence.
  - subst s1; simpl; rewrite Hsub. split_and!; [simpl; lia| |first [by intros [= ->]; apply Hne|done]].
    intros changes H. by apply elem_of_nil in H.
Qed.

Variables (h : HostSystem) (hs : list HostSystem) (ds : string) (dss : list string).
Hypothesis Hhost : host_view vm = Some (h :: hs).
Hypothesis Hds : vm_datastore vm = ds :: dss.
Hypothesis Hknown : rdm_controllers_known vm.
Hypothesis Hresolved : ∀ w, w ∈ rdm_disk p → is_Some (find_lun (scsiLun h) w).

(** An [absent] run that gets past every look-up. *)
Lemma run_absent_resolved :
  ∃ du',
    run p R vm
    = finish R false
        (append_specs
           (detach_plan (scsiLun h) (omap as_rdm (hardware_device vm)) (rdm_disk p)).1
           (set_disk_units du' (disks_listed (inventory_state p vm)))).
Proof.
  rewrite run_absent, configure_disks_run by done.
  destruct (inventory_state_fields p vm)
    as (Hsub & Hcs & Hcd & Hvm & Hdu & Hsk & Hks & Hu & Hmax).
  destruct (place_disks_known vm Hknown) as [du' Hplace].
  exists du'.
  set (s1 := disks_listed (inventory_state p vm)).
  assert (Hrdms : rdm_disks s1 = omap as_rdm (hardware_device vm)).
  { unfold s1, disks_listed. simpl. by rewrite Hvm. }
  rewrite bind_run, (get_rdm_info_run p _ s1 du').
  2:{ rewrite Hrdms. unfold s1, disks_listed. simpl. by rewrite Hks, Hu, Hdu. }
  rewrite bool_decide_false by (intros [_ ?]; congruence).
  rewrite bind_run, Hvm.
  rewrite (configure_absent_run p vm _ h hs ds dss) by done.
  cbn [rdm_disks set_disk_units]. fold s1. rewrite Hrdms.
  by rewrite detach_plan_resolved.
Qed.

End AbsentRuns.

(** ** C10: an [absent] run never looks at controller types or creates
    controllers *)

(** C10.  When [state] is [absent], [reconfigure_vm] runs neither
    [ctl_check_types] nor [ctl_create_new]: whatever the machine and whatever
    vSphere answers, the run never fails with the wrong-controller-type
    message, it hands at most one change list to [ReconfigVM_Task], and every
    operation of that list is the removal of a disk. *)
Theorem absent_run_detaches_only (p : Params)
    (R : VirtualMachine → list VirtualDeviceSpec → TaskEnd * VirtualMachine)
    (vm : VirtualMachine) :
  state p = absent →
  (length (submitted (run p R vm).2) ≤ 1)%nat ∧
  (∀ changes spec, changes ∈ submitted (run p R vm).2 → spec ∈ changes →
     operation spec = op_remove ∧ ∃ k ck u, device spec = DiskRef k ck u) ∧
  (run p R vm).1 ≠ FailJson msg_wrong_controller_type.
Proof.
  intros Habsent.
  destruct (run_absent_post p R vm Habsent) as (Hlen & Hall & Hne).
  split_and!; [done| |done].
  intros changes spec Hin Hspec.
  specialize (Hall changes Hin). rewrite Forall_forall in Hall.
  exact (Hall spec Hspec).
Qed.

Lemma absent_run_detaches_only_witness :
  state ScenarioC.params = absent ∧
  submitted (run ScenarioC.params ReconfigVM_ideal ScenarioC.vm).2
  = [[remove_rdm_disk ScenarioC.disk]] ∧
  ((length (submitted (run ScenarioC.params ReconfigVM_ideal ScenarioC.vm).2) ≤ 1)%nat ∧
   (∀ changes spec,
      changes ∈ submitted (run ScenarioC.params ReconfigVM_ideal ScenarioC.vm).2 →
      spec ∈ changes →
      operation spec = op_remove ∧ ∃ k ck u, device spec = DiskRef k ck u) ∧
   (run ScenarioC.params ReconfigVM_ideal ScenarioC.vm).1
   ≠ FailJson msg_wrong_controller_type).
Proof.
  split; [reflexivity|].
  split; [vm_compute; reflexivity|].
  apply (absent_run_detaches_only ScenarioC.params ReconfigVM_ideal ScenarioC.vm).
  reflexivity.
Defined.

(** ** C7: detaching goes by the LUN, not by the bus *)

(** C7.  In an [absent] run that gets as far as the detach loop (the host and
    a datastore are readable, every raw-mapped disk hangs off a known SCSI
    controller, every requested WWID is presented to the host), every
    raw-mapped disk whose [lunUuid] is the [uuid] of the LUN of a requested
    WWID gets a removal spec carrying its own [key], [controllerKey] and
    [unitNumber], and that spec is in the one change list handed to vSphere.
    Nothing is assumed about the bus of the disk's controller or about
    [rdm_controller_bus]. *)
Theorem detach_by_lun_identity (p : Params)
    (R : VirtualMachine → list VirtualDeviceSpec → TaskEnd * VirtualMachine)
    (vm : VirtualMachine) (h : HostSystem) (hs : list HostSystem)
    (ds : string) (dss : list string)
    (wwid : string) (lun : ScsiLun) (d : VirtualDevice) (b : RawDiskMappingVer1BackingInfo) :
  state p = absent →
  host_view vm = Some (h :: hs) →
  vm_datastore vm = ds :: dss →
  rdm_controllers_known vm →
  (∀ w, w ∈ rdm_disk p → is_Some (find_lun (scsiLun h) w)) →
  wwid ∈ rdm_disk p →
  find_lun (scsiLun h) wwid = Some lun →
  d ∈ hardware_device vm →
  backing d = Some b →
  lunUuid b = uuid lun →
  ∃ changes,
    submitted (run p R vm).2 = [changes] ∧
    {| operation := op_remove; fileOperation := Some file_destroy;
       device := DiskRef (key d) (controllerKey d) (unitNumber d) |} ∈ changes.
Proof.
  intros Habsent Hhost Hds Hknown Hres Hw Hlun Hd Hb Hmatch.
  destruct (run_absent_resolved p R vm Habsent h hs ds dss Hhost Hds Hknown Hres)
    as (du' & ->).
  set (plan := (detach_plan (scsiLun h) (omap as_rdm (hardware_device vm)) (rdm_disk p)).1).
  assert (Hin : remove_rdm_disk d ∈ plan).
  { apply (detach_plan_elem _ _ _ wwid lun {| rdm_device := d; rdm_backing := b |});
      try done.
    apply elem_of_rdm_disks. by exists d, b. }
  destruct (inventory_state_fields p vm) as (Hsub & Hcs & Hcd & _).
  exists plan. rewrite finish_changed.
  2:{ simpl. rewrite bool_decide_true; [by rewrite orb_true_r|].
      intros Hnil. rewrite Hnil in Hin. by apply elem_of_nil in Hin. }
  cbv zeta. split; [|exact Hin].
  destruct (R _ _).1 as [m|n|m|]; try destruct m; simpl; by rewrite Hsub.
Qed.

Lemma detach_by_lun_identity_witness :
  (busNumber (paravirtual_controller 3) ∉ rdm_controller_bus ScenarioC.params) ∧
  ∃ changes,
    submitted (run ScenarioC.params ReconfigVM_ideal ScenarioC.vm).2 = [changes] ∧
    {| operation := op_remove; fileOperation := Some file_destroy;
       device := DiskRef (key ScenarioC.disk) (controllerKey ScenarioC.disk)
                   (unitNumber ScenarioC.disk) |} ∈ changes.
Proof.
  split; [vm_compute; intros [=]%list_elem_of_singleton|].
  destruct (backing ScenarioC.disk) as [b|] eqn:Hb; [|discriminate].
  eapply (detach_by_lun_identity ScenarioC.params ReconfigVM_ideal ScenarioC.vm
            _ [] "ds1" [] ScenarioC.wwid (lun_of_wwid ScenarioC.wwid) ScenarioC.disk b).
  - reflexivity.
  - reflexivity.
  - reflexivity.
  - intros d b' Hd Hb'. exists (paravirtual_controller 3).
    unfold ScenarioC.vm in *. simpl in Hd.
    repeat (apply elem_of_cons in Hd as [->|Hd]); try discriminate.
    + split; [set_solver|]. split; reflexivity.
    + by apply elem_of_nil in Hd.
  - intros w ->%list_elem_of_singleton. vm_compute. by eexists.
  - by left.
  - vm_compute. reflexivity.
  - unfold ScenarioC.vm. simpl. set_solver.
  - exact Hb.
  - injection Hb as <-. reflexivity.
Defined.

(** C7 as the spec words it fails.  The disk on bus 3 maps the LUN of the
    second requested WWID (by [uuid], and by the substring test as well), the
    host presents that LUN and the machine is the one of scenario C; the first
    requested WWID is presented by no LUN of the host.  The loop stops there
    with [fail_json]: no detach spec is built for the disk and nothing is
    handed to vSphere. *)
Lemma detach_blocked_by_unpresented_wwid :
  state UnpresentedFirst.params = absent ∧
  ScenarioC.wwid ∈ rdm_disk UnpresentedFirst.params ∧
  ScenarioC.disk ∈ hardware_device ScenarioC.vm ∧
  (∃ b, backing ScenarioC.disk = Some b ∧
        lunUuid b = uuid (lun_of_wwid ScenarioC.wwid) ∧
        wwid_in_uuid {| rdm_device := ScenarioC.disk; rdm_backing := b |} ScenarioC.wwid
        = true) ∧
  host_view ScenarioC.vm = Some [ {| scsiLun := [lun_of_wwid ScenarioC.wwid] |} ] ∧
  find_lun [lun_of_wwid ScenarioC.wwid] ScenarioC.wwid = Some (lun_of_wwid ScenarioC.wwid) ∧
  (run UnpresentedFirst.params ReconfigVM_ideal ScenarioC.vm).1
  = FailJson (msg_lun_not_presented "deadbeef") ∧
  configspec (run UnpresentedFirst.params ReconfigVM_ideal ScenarioC.vm).2 = [] ∧
  submitted (run UnpresentedFirst.params ReconfigVM_ideal ScenarioC.vm).2 = [] ∧
  current_vm_obj (run UnpresentedFirst.params ReconfigVM_ideal ScenarioC.vm).2 = ScenarioC.vm.
Proof.
  split_and!.
  - reflexivity.
  - right. by left.
  - unfold ScenarioC.vm. simpl. set_solver.
  - destruct (backing ScenarioC.disk) as [b|] eqn:Hb; [|discriminate].
    exists b. split; [done|]. injection Hb as <-. split; vm_compute; reflexivity.
  - reflexivity.
  - vm_compute; reflexivity.
  - vm_compute; reflexivity.
  - vm_compute; reflexivity.
  - vm_compute; reflexivity.
  - vm_compute; reflexivity.
Qed.

(** ** C6: [absent] for a WWID that is not attached *)

(** C6, as the code has it.  In an [absent] run on a machine whose host and
    datastore are readable and whose raw-mapped disks hang off known SCSI
    controllers: if every requested WWID is presented to the host and no
    raw-mapped disk carries the [uuid] of its LUN, no detach spec is built,
    nothing is handed to vSphere, the machine is left as it was and the result
    is [changed = False], [failed = False]. *)
Theorem absent_without_match_is_noop (p : Params)
    (R : VirtualMachine → list VirtualDeviceSpec → TaskEnd * VirtualMachine)
    (vm : VirtualMachine) (h : HostSystem) (hs : list HostSystem)
    (ds : string) (dss : list string) :
  state p = absent →
  host_view vm = Some (h :: hs) →
  vm_datastore vm = ds :: dss →
  rdm_controllers_known vm →
  (∀ w, w ∈ rdm_disk p →
     ∃ lun, find_lun (scsiLun h) w = Some lun ∧
            ∀ d b, d ∈ hardware_device vm → backing d = Some b → lunUuid b ≠ uuid lun) →
  (run p R vm).1
  = Ok {| changed := false; failed := false; msg := None; instance := Some vm |} ∧
  submitted (run p R vm).2 = [] ∧
  current_vm_obj (run p R vm).2 = vm.
Proof.
  intros Habsent Hhost Hds Hknown Hnone.
  destruct (run_absent_resolved p R vm Habsent h hs ds dss Hhost Hds Hknown)
    as (du' & ->).
  { intros w Hw. destruct (Hnone w Hw) as (lun & -> & _). by eexists. }
  rewrite detach_plan_nil.
  2:{ intros w lun rdm Hw Hlun (d & b & Hd & Hb & ->)%elem_of_rdm_disks. simpl.
      destruct (Hnone w Hw) as (lun' & Hlun' & Hno). simplify_eq. by eapply Hno. }
  rewrite append_specs_nil.
  destruct (inventory_state_fields p vm) as (Hsub & Hcs & Hcd & Hvm & _).
  rewrite finish_unchanged by done. simpl. by rewrite Hsub, Hvm.
Qed.

Lemma absent_without_match_is_noop_witness :
  (run ScenarioC.params ReconfigVM_ideal ScenarioC.vm_detached).1
  = Ok {| changed := false; failed := false; msg := None;
          instance := Some ScenarioC.vm_detached |} ∧
  submitted (run ScenarioC.params ReconfigVM_ideal ScenarioC.vm_detached).2 = [] ∧
  current_vm_obj (run ScenarioC.params ReconfigVM_ideal ScenarioC.vm_detached).2
  = ScenarioC.vm_detached.
Proof.
  eapply (absent_without_match_is_noop ScenarioC.params ReconfigVM_ideal
            ScenarioC.vm_detached _ [] "ds1" []).
  - reflexivity.
  - reflexivity.
  - reflexivity.
  - intros d b Hd Hb. simpl in Hd.
    repeat (apply elem_of_cons in Hd as [->|Hd]); try discriminate.
    by apply elem_of_nil in Hd.
  - intros w ->%list_elem_of_singleton. exists (lun_of_wwid ScenarioC.wwid).
    split; [vm_compute; reflexivity|].
    intros d b Hd Hb. simpl in Hd.
    repeat (apply elem_of_cons in Hd as [->|Hd]); try discriminate.
    by apply elem_of_nil in Hd.
Defined.

(** C6 as the spec words it fails: the requested WWID has no raw-mapped disk
    on the machine (the machine has none at all), yet the [absent] run ends
    in [fail_json], because the LUN is not presented to the host either. *)
Lemma absent_unpresented_lun_fails :
  state ScenarioC.params = absent ∧
  omap as_rdm (hardware_device ScenarioC.vm_unpresented) = [] ∧
  (run ScenarioC.params ReconfigVM_ideal ScenarioC.vm_unpresented).1
  = FailJson (msg_lun_not_presented ScenarioC.wwid).
Proof. split_and!; vm_compute; reflexivity. Qed.

(** ** C4: the allocator on a full set of buses *)

Lemma find_free_slot_exhausted p s :
  all_slots_occupied p s → find_free_slot p s = Ok None.
Proof.
  intros Hfull. unfold find_free_slot. apply scan_ctls_exhausted.
  intros c Hc. destruct (Hfull c Hc) as (occ & Hocc & Hall).
  apply (scan_units_full_inv _ _ _ occ); [done|].
  intros u Hu. by apply Hall, elem_of_seqZ_range.
Qed.

(** C4, as the code has it.  When every unit number [0 .. ctl_max] of every
    bus of [rdm_controller_bus] is taken, [create_rdm] signals nothing: both
    loops run to their end, no [FreeBusFound] is raised, and the call returns
    normally with the helper unchanged (no spec appended, no unit reserved,
    [change_detected] as before). *)
Theorem create_rdm_exhausted_is_silent (p : Params) (s : Self) (lun : ScsiLun)
    (vm_ds rdm_file : string) :
  all_slots_occupied p s →
  create_rdm p lun vm_ds rdm_file s = (Ok tt, s).
Proof.
  intros Hfull. unfold create_rdm. rewrite bind_run. cbn [get].
  by rewrite find_free_slot_exhausted.
Qed.

Lemma exhausted_self_is_full : all_slots_occupied Exhausted.params Exhausted.self.
Proof.
  intros ctl ->%list_elem_of_singleton.
  exists (list_to_set (seqZ 0 16)). split; [reflexivity|].
  intros u Hu. apply elem_of_list_to_set, elem_of_seqZ. simpl in Hu. lia.
Defined.

Lemma create_rdm_exhausted_is_silent_witness :
  create_rdm Exhausted.params SlotExample.lun "ds1" "f1" Exhausted.self
  = (Ok tt, Exhausted.self).
Proof.
  apply (create_rdm_exhausted_is_silent Exhausted.params Exhausted.self).
  exact exhausted_self_is_full.
Defined.

(** C4 as the spec words it fails: on a full bus the allocator raises no
    error; the call returns normally and appends nothing. *)
Lemma exhausted_allocator_signals_nothing :
  all_slots_occupied Exhausted.params Exhausted.self ∧
  (create_rdm Exhausted.params SlotExample.lun "ds1" "f1" Exhausted.self).1 = Ok tt ∧
  configspec (create_rdm Exhausted.params SlotExample.lun "ds1" "f1" Exhausted.self).2 = [].
Proof.
  split; [exact exhausted_self_is_full|].
  split; vm_compute; reflexivity.
Qed.

(** ** C2: the controller type guard *)

(** What [str.find(bus_type, search) == -1] means on the four classes and the
    four requested types: the classes differ, except that an LSI Logic SAS
    controller passes for [lsilogic]. *)
Lemma wrong_type_table (c : ScsiClass) (t : ScsiType) :
  PyStr.find (ctl_unit_name c) (scsi_type_str t) = -1 ↔
  c ≠ scsi_class_of t ∧ ¬ (c = VirtualLsiLogicSASController ∧ t = lsilogic).
Proof.
  destruct c, t; vm_compute; split; try done; try (intros [? ?]; done);
    try (intros _; split; [done|intros [? ?]; done]);
    try (intros [_ H]; destruct H; done).
Qed.

Lemma units_of_unique devs d c :
  d ∈ devs → dev_class d = ScsiControllerDevice c →
  (∀ d' c', d' ∈ devs → dev_class d' = ScsiControllerDevice c' →
            busNumber d' = busNumber d → c' = c) →
  units_of devs ∅ !! busNumber d = Some (ctl_unit_name c).
Proof.
  intros Hd Hc Huniq.
  assert (is_Some (units_of devs ∅ !! busNumber d)) as [n Hn].
  { apply units_of_is_Some. left. exists d. unfold is_scsi_controller. by rewrite Hc. }
  rewrite Hn. apply units_of_lookup in Hn as [(d' & c' & Hd' & Hc' & Hb' & ->)|Hn]; [|done].
  by rewrite (Huniq d' c' Hd' Hc' Hb').
Qed.

(** C2, as the code has it.  In a [present] run, an existing controller on a
    bus of [rdm_controller_bus] whose class is not the one of
    [rdm_controller_type] makes the run fail with the wrong-controller-type
    message before anything is handed to vSphere; the machine is untouched.
    (The case of an LSI Logic SAS controller with [lsilogic] requested is left
    aside; an [absent] run makes no such check.) *)
Theorem controller_type_guard (p : Params)
    (R : VirtualMachine → list VirtualDeviceSpec → TaskEnd * VirtualMachine)
    (vm : VirtualMachine) (d : VirtualDevice) (c : ScsiClass) :
  state p = present →
  d ∈ hardware_device vm →
  dev_class d = ScsiControllerDevice c →
  busNumber d ∈ rdm_controller_bus p →
  (∀ d' c', d' ∈ hardware_device vm → dev_class d' = ScsiControllerDevice c' →
            busNumber d' = busNumber d → c' = c) →
  c ≠ scsi_class_of (rdm_controller_type p) →
  ¬ (c = VirtualLsiLogicSASController ∧ rdm_controller_type p = lsilogic) →
  (run p R vm).1 = FailJson msg_wrong_controller_type ∧
  submitted (run p R vm).2 = [] ∧
  current_vm_obj (run p R vm).2 = vm.
Proof.
  intros Hpresent Hd Hc Hbus Huniq Hne Hsas.
  rewrite run_inventory, Hpresent.
  destruct (inventory_state_fields p vm) as (Hsub & _ & _ & Hvm & _ & _ & _ & Hu & _).
  rewrite bind_run. unfold ensure_controllers. rewrite bind_run. cbn [modify].
  rewrite bind_run.
  rewrite (ctl_check_types_fails p _ _ (busNumber d) (ctl_unit_name c)).
  - simpl. by rewrite Hsub, Hvm.
  - simpl. rewrite Hu. by apply units_of_unique.
  - done.
  - by apply wrong_type_table.
Qed.

Lemma controller_type_guard_witness :
  (run MixedControllers.present_paravirtual_1 ReconfigVM_ideal MixedControllers.vm).1
  = FailJson msg_wrong_controller_type ∧
  submitted (run MixedControllers.present_paravirtual_1 ReconfigVM_ideal
               MixedControllers.vm).2 = [] ∧
  current_vm_obj (run MixedControllers.present_paravirtual_1 ReconfigVM_ideal
                    MixedControllers.vm).2 = MixedControllers.vm.
Proof.
  apply (controller_type_guard MixedControllers.present_paravirtual_1 ReconfigVM_ideal
           MixedControllers.vm MixedControllers.buslogic_on_1 VirtualBusLogicController).
  - reflexivity.
  - by left.
  - reflexivity.
  - by left.
  - intros d' c' Hd' Hc' Hb'. simpl in Hd'.
    repeat (apply elem_of_cons in Hd' as [->|Hd']); try discriminate.
    + by injection Hc' as <-.
    + by apply elem_of_nil in Hd'.
  - discriminate.
  - intros [? _]. discriminate.
Defined.

(** C2 as the spec words it fails in [absent] mode: a BusLogic controller
    sits on the allowed bus 1, [paravirtual] is requested, and the run ends
    well. *)
Lemma absent_run_skips_type_guard :
  state MixedControllers.absent_paravirtual_1 = absent ∧
  MixedControllers.buslogic_on_1 ∈ hardware_device MixedControllers.vm ∧
  busNumber MixedControllers.buslogic_on_1
    ∈ rdm_controller_bus MixedControllers.absent_paravirtual_1 ∧
  dev_class MixedControllers.buslogic_on_1
    ≠ ScsiControllerDevice
        (scsi_class_of (rdm_controller_type MixedControllers.absent_paravirtual_1)) ∧
  (run MixedControllers.absent_paravirtual_1 ReconfigVM_ideal MixedControllers.vm).1
  = Ok {| changed := false; failed := false; msg := None;
          instance := Some MixedControllers.vm |}.
Proof.
  split_and!; [reflexivity|by left|by left|discriminate|vm_compute; reflexivity].
Qed.

(** The substring test of [ctl_check_types] lets an LSI Logic SAS controller
    pass when [lsilogic] is requested. *)
Lemma lsilogicsas_passes_for_lsilogic :
  (run MixedControllers.present_lsilogic_2 ReconfigVM_ideal MixedControllers.vm).1
  = Ok {| changed := false; failed := false; msg := None;
          instance := Some MixedControllers.vm |}.
Proof. vm_compute; reflexivity. Qed.

(** ** C9: an empty change list after a controller was created *)

(** C9 fails on the code.  [change_detected] is raised by [ctl_create_new]
    and never lowered, so after the controller cycle the second
    [if self.change_detected] is taken although [deviceChange] is empty:
    vSphere receives the controller change list and then an empty one. *)
Theorem empty_change_list_is_submitted :
  submitted (run NewBusOnly.params ReconfigVM_ideal NewBusOnly.vm).2
  = [[create_scsi_controller_bus paravirtual 1]; []] ∧
  (run NewBusOnly.params ReconfigVM_ideal NewBusOnly.vm).1
  = Ok {| changed := true; failed := false; msg := None;
          instance := Some (with_devices NewBusOnly.vm
                              (hardware_device NewBusOnly.vm ++ [paravirtual_controller 1])) |}.
Proof. split; vm_compute; reflexivity. Qed.

(** Without a controller cycle the claim holds: with [change_detected] still
    low, [finish] hands nothing to vSphere. *)
Lemma nothing_built_nothing_submitted R change_applied s :
  change_detected s = false →
  submitted (finish R change_applied s).2 = submitted s ∧
  current_vm_obj (finish R change_applied s).2 = current_vm_obj s.
Proof. intros H. by rewrite finish_unchanged. Qed.

Lemma scan_units_no_fail du ctl units m : scan_units du ctl units ≠ FailJson m.
Proof.
  induction units as [|u units IH]; simpl; [done|].
  destruct (du !! ctl); [|done]. by case_bool_decide.
Qed.

Lemma scan_ctls_no_fail du units ctls m : scan_ctls du units ctls ≠ FailJson m.
Proof.
  induction ctls as [|c ctls IH]; simpl; [done|].
  destruct (scan_units du c units) as [[u|]|m'|e] eqn:H; try done.
  by apply scan_units_no_fail in H.
Qed.

Section PresentLoop.
Variable p : Params.

Lemma create_rdm_run lun vm_ds rdm_file s :
  create_rdm p lun vm_ds rdm_file s
  = match find_free_slot p s with
    | FailJson m => (FailJson m, s)
    | Raise e => (Raise e, s)
    | Ok None => (Ok tt, s)
    | Ok (Some (ctl, bus_n)) =>
        match disk_units s !! ctl with
        | None => (Raise KeyError, s)
        | Some units =>
            let s1 := set_disk_units (<[ctl := units ∪ {[bus_n]}]> (disk_units s)) s in
            match ctl_slot_key s !! ctl with
            | None => (Raise KeyError, s1)
            | Some scsi_key =>
                (Ok tt, append_specs [create_rdm_disk scsi_key lun vm_ds rdm_file bus_n] s1)
            end
        end
    end.
Proof.
  unfold create_rdm. rewrite bind_run. cbn [get].
  destruct (find_free_slot p s) as [[[ctl bus_n]|]|m|e]; try reflexivity.
  destruct (disk_units s !! ctl) as [units|]; [|reflexivity].
  rewrite bind_run. cbn [modify]. cbn [ctl_slot_key set_disk_units].
  destruct (ctl_slot_key s !! ctl); [|reflexivity].
  unfold modify, append_specs. simpl. by rewrite orb_true_r.
Qed.

Lemma attach_body_ok luns vm_ds path w s spec du1 :
  attach_one p luns (rdm_disks s) vm_ds path (ctl_slot_key s) (ctl_max s) (disk_units s) w
  = Ok (spec, du1) →
  attach_body p luns vm_ds path w s = (Ok tt, set_disk_units du1 (append_specs spec s)).
Proof.
  unfold attach_one, attach_body, resolve_lun. rewrite bind_run.
  destruct (find_lun luns w) as [lun|]; [|done].
  cbn [ret]. rewrite bind_run. cbn [get].
  case_bool_decide.
  { intros [= <- <-]. by rewrite append_specs_nil, set_disk_units_id. }
  destruct (WwnPattern.split1 (canonicalName lun)) as [rdmid|]; [|done].
  rewrite create_rdm_run. unfold find_free_slot.
  destruct (scan_ctls _ _ _) as [[[ctl bus_n]|]|m|e]; try done.
  - destruct (disk_units s !! ctl) as [units|]; [|done].
    destruct (ctl_slot_key s !! ctl) as [k|]; [|done].
    intros [= <- <-]. unfold rdm_file_name. f_equal.
  - intros [= <- <-]. by rewrite append_specs_nil, set_disk_units_id.
Qed.

(** Whatever the outcome of an iteration, it touches [disk_units],
    [configspec] and [change_detected] only, lets no bus lose a unit, and
    appends at most an attach spec for the LUN of a requested WWID that is not
    mapped yet. *)
Lemma attach_body_frame luns vm_ds path w s :
  w ∈ rdm_disk p →
  ∃ specs du',
    (attach_body p luns vm_ds path w s).2 = set_disk_units du' (append_specs specs s) ∧
    occupancy_grows (disk_units s) du' ∧
    Forall (is_new_attach p luns (rdm_disks s)) specs ∧
    (∀ a b, (attach_body p luns vm_ds path w s).1 ≠ FailJson (msg_disk_number a b)) ∧
    (attach_body p luns vm_ds path w s).1 ≠ FailJson msg_wrong_controller_type.
Proof.
  intros Hw.
  assert (Hid : s = set_disk_units (disk_units s) (append_specs [] s)).
  { by rewrite append_specs_nil, set_disk_units_id. }
  unfold attach_body, resolve_lun. rewrite bind_run.
  destruct (find_lun luns w) as [lun|] eqn:Hlun.
  2:{ exists [], (disk_units s). simpl. split_and!; try done.
      apply occupancy_grows_refl. }
  cbn [ret]. rewrite bind_run. cbn [get].
  case_bool_decide as Hex.
  { exists [], (disk_units s). simpl. split_and!; try done. apply occupancy_grows_refl. }
  destruct (WwnPattern.split1 (canonicalName lun)) as [rdmid|].
  2:{ exists [], (disk_units s). simpl. split_and!; try done. apply occupancy_grows_refl. }
  rewrite create_rdm_run. unfold find_free_slot.
  destruct (scan_ctls _ _ _) as [[[ctl bus_n]|]|m|e] eqn:Hscan.
  - destruct (disk_units s !! ctl) as [units|] eqn:Hu.
    2:{ exists [], (disk_units s). simpl. split_and!; try done. apply occupancy_grows_refl. }
    destruct (ctl_slot_key s !! ctl) as [k|].
    + eexists [_], _. simpl. split_and!; try done.
      * by apply occupancy_grows_insert.
      * constructor; [|constructor]. exists w, lun. split_and!; try done.
        -- by eexists _, _, _, _.
        -- intros rdm Hrdm Heq. apply Hex, Exists_exists. by exists rdm.
    + exists [], (<[ctl := units ∪ {[bus_n]}]> (disk_units s)). simpl.
      rewrite append_specs_nil. split_and!; try done.
      by apply occupancy_grows_insert.
  - exists [], (disk_units s). simpl. split_and!; try done. apply occupancy_grows_refl.
  - by apply scan_ctls_no_fail in Hscan.
  - exists [], (disk_units s). simpl. split_and!; try done. apply occupancy_grows_refl.
Qed.

Lemma present_loop_ok luns vm_ds path wwids s specs du' :
  attach_plan p luns (rdm_disks s) vm_ds path (ctl_slot_key s) (ctl_max s)
    (disk_units s) wwids = Ok (specs, du') →
  for_each wwids (attach_body p luns vm_ds path) s
  = (Ok tt, set_disk_units du' (append_specs specs s)).
Proof.
  revert s specs du'. induction wwids as [|w wwids IH]; intros s specs du'.
  - simpl. intros [= <- <-]. by rewrite append_specs_nil, set_disk_units_id.
  - cbn [attach_plan for_each].
    destruct (attach_one _ _ _ _ _ _ _ _ w) as [[spec du1]|m|e] eqn:Hone; try done.
    destruct (attach_plan _ _ _ _ _ _ _ du1 wwids) as [[specs2 du2]|m|e] eqn:Hplan; try done.
    intros [= <- <-]. rewrite bind_run, (attach_body_ok _ _ _ _ _ _ _ Hone).
    rewrite (IH _ specs2 du2) by exact Hplan.
    cbn. by rewrite <- append_specs_app.
Qed.

Lemma present_loop_frame luns vm_ds path wwids s :
  (∀ w, w ∈ wwids → w ∈ rdm_disk p) →
  ∃ specs du',
    (for_each wwids (attach_body p luns vm_ds path) s).2
      = set_disk_units du' (append_specs specs s) ∧
    occupancy_grows (disk_units s) du' ∧
    Forall (is_new_attach p luns (rdm_disks s)) specs ∧
    (∀ a b, (for_each wwids (attach_body p luns vm_ds path) s).1
            ≠ FailJson (msg_disk_number a b)) ∧
    (for_each wwids (attach_body p luns vm_ds path) s).1 ≠ FailJson msg_wrong_controller_type.
Proof.
  revert s. induction wwids as [|w wwids IH]; intros s Hsub.
  - exists [], (disk_units s). simpl. rewrite append_specs_nil, set_disk_units_id.
    split_and!; try done. apply occupancy_grows_refl.
  - cbn [for_each]. rewrite bind_run.
    destruct (attach_body_frame luns vm_ds path w s) as (sp & du1 & Hst & Hg & Hnew & Hn1 & Hn2).
    { apply Hsub. by left. }
    destruct (attach_body p luns vm_ds path w s) as [[[]|m|e] s1]; simpl in Hst, Hn1, Hn2; subst s1.
    + destruct (IH (set_disk_units du1 (append_specs sp s)))
        as (sp2 & du2 & Hst2 & Hg2 & Hnew2 & Hn3 & Hn4).
      { intros w' Hw'. apply Hsub. by right. }
      exists (sp ++ sp2), du2. rewrite Hst2. simpl in *.
      split_and!; try done.
      * by rewrite <- append_specs_app.
      * by eapply occupancy_grows_trans.
      * by apply Forall_app.
    + exists sp, du1. by split_and!.
    + exists sp, du1. by split_and!.
Qed.

End PresentLoop.

Lemma configure_present_run p vm s h hs ds dss :
  state p = present → host_view vm = Some (h :: hs) → vm_datastore vm = ds :: dss →
  configure_rdm_disks p vm s
  = for_each (rdm_disk p) (attach_body p (scsiLun h) ds (vmPathName vm)) s.
Proof.
  intros Hst Hh Hds. unfold configure_rdm_disks, get_host_by_vm, get_datastore_by_vm.
  rewrite Hh, Hds, Hst. rewrite !bind_run. reflexivity.
Qed.

(** [configure_rdm_disks] in a [present] run, whatever its outcome. *)
Lemma configure_present_frame p vm s :
  state p = present →
  ∃ specs du',
    (configure_rdm_disks p vm s).2 = set_disk_units du' (append_specs specs s) ∧
    occupancy_grows (disk_units s) du' ∧
    (∀ h hs, host_view vm = Some (h :: hs) →
       Forall (is_new_attach p (scsiLun h) (rdm_disks s)) specs) ∧
    (∀ a b, (configure_rdm_disks p vm s).1 ≠ FailJson (msg_disk_number a b)) ∧
    (configure_rdm_disks p vm s).1 ≠ FailJson msg_wrong_controller_type.
Proof.
  intros Hst.
  assert (Hnone : ∀ o : Outcome unit,
    (∀ a b, o ≠ FailJson (msg_disk_number a b)) → o ≠ FailJson msg_wrong_controller_type →
    ∃ specs du',
      (o, s).2 = set_disk_units du' (append_specs specs s) ∧
      occupancy_grows (disk_units s) du' ∧
      (∀ h hs, host_view vm = Some (h :: hs) →
         Forall (is_new_attach p (scsiLun h) (rdm_disks s)) specs) ∧
      (∀ a b, (o, s).1 ≠ FailJson (msg_disk_number a b)) ∧
      (o, s).1 ≠ FailJson msg_wrong_controller_type).
  { intros o H1 H2. exists [], (disk_units s).
    rewrite append_specs_nil, set_disk_units_id. split_and!; try done.
    apply occupancy_grows_refl. }
  destruct (host_view vm) as [[|h hs]|] eqn:Hh.
  - unfold configure_rdm_disks, get_host_by_vm. rewrite Hh, bind_run. by apply Hnone.
  - destruct (vm_datastore vm) as [|ds dss] eqn:Hds.
    + unfold configure_rdm_disks, get_host_by_vm, get_datastore_by_vm.
      rewrite Hh, Hds, !bind_run. by apply Hnone.
    + rewrite (configure_present_run p vm s h hs ds dss) by done.
      destruct (present_loop_frame p (scsiLun h) ds (vmPathName vm) (rdm_disk p) s)
        as (specs & du' & H1 & H2 & H3 & H4 & H5); [done|].
      exists specs, du'. split_and!; try done.
      intros h' hs' [= <- <-]. done.
  - unfold configure_rdm_disks, get_host_by_vm. rewrite Hh, bind_run. by apply Hnone.
Qed.

(** *** [ensure_controllers] *)

Lemma ensure_controllers_run p R s :
  let s1 := set_configspec [] s in
  let s2 := append_specs
              (create_scsi_controller_bus (rdm_controller_type p) <$> missing_ctls p s1) s1 in
  let task := R (current_vm_obj s2) (configspec s2) in
  let s3 := set_vm_submitted task.2 (submitted s2 ++ [configspec s2]) s2 in
  ensure_controllers p R s
  = if existsb (wrong_type p (rdm_controller_type p)) (map_to_list (ctl_units s))
    then (FailJson msg_wrong_controller_type, s1)
    else if change_detected s2 then
      match task.1 with
      | RestrictedVersion m => (FailJson (msg_restricted_version m), s3)
      | OtherFault name => (Raise (Fault name), s3)
      | TaskError m =>
          if truthy (Some m) then (Ok (inl (failed_result (Some m))), s3)
          else (Ok (inr true),
                set_ctls (slot_key_of (hardware_device task.2) (ctl_slot_key s3))
                         (key_slot_of (hardware_device task.2) (ctl_key_slot s3))
                         (units_of (hardware_device task.2) (ctl_units s3)) s3)
      | TaskSuccess =>
          (Ok (inr true),
           set_ctls (slot_key_of (hardware_device task.2) (ctl_slot_key s3))
                    (key_slot_of (hardware_device task.2) (ctl_key_slot s3))
                    (units_of (hardware_device task.2) (ctl_units s3)) s3)
      end
    else (Ok (inr false), s2).
Proof.
  intros s1 s2 task s3. unfold ensure_controllers.
  rewrite bind_run. cbn [modify]. fold s1.
  rewrite bind_run, ctl_check_types_run. cbn [ctl_units set_configspec s1].
  destruct (existsb _ _); [reflexivity|].
  rewrite bind_run, ctl_create_new_run. fold s2.
  rewrite bind_run. cbn [get].
  destruct (change_detected s2) eqn:Hcd; [|reflexivity].
  rewrite bind_run, apply_changes_run. fold task. fold s3.
  destruct task.1 as [m|n|m|]; try reflexivity.
  - destruct m; [|reflexivity]. cbn [truthy]. rewrite bind_run. cbn [get].
    rewrite bind_run, vm_get_ctls_run. reflexivity.
  - cbn [truthy]. rewrite bind_run. cbn [get].
    rewrite bind_run, vm_get_ctls_run. reflexivity.
Qed.

(** The controller pass leaves [ctl_max] alone and never fails with the
    capacity message. *)
Lemma ensure_controllers_frame p R s :
  ctl_max (ensure_controllers p R s).2 = ctl_max s ∧
  ∀ a b, (ensure_controllers p R s).1 ≠ FailJson (msg_disk_number a b).
Proof.
  rewrite ensure_controllers_run. cbv zeta.
  destruct (existsb _ _); [done|].
  destruct (change_detected _); [|done].
  destruct (R _ _).1 as [m|n|m|]; try done.
  by destruct m.
Qed.

(** ** C3: the capacity rule *)

Lemma finish_no_capacity_failure R change_applied s a b :
  (finish R change_applied s).1 ≠ FailJson (msg_disk_number a b).
Proof.
  destruct (change_detected s) eqn:Hcd.
  - rewrite finish_changed by done. cbv zeta.
    destruct (R _ _).1 as [m|n|m|]; try done. by destruct m.
  - by rewrite finish_unchanged.
Qed.

Lemma configure_absent_no_capacity_failure p vm s a b :
  state p = absent → (configure_rdm_disks p vm s).1 ≠ FailJson (msg_disk_number a b).
Proof.
  intros Hst.
  destruct (host_view vm) as [[|h hs]|] eqn:Hh.
  - unfold configure_rdm_disks, get_host_by_vm. by rewrite Hh, bind_run.
  - destruct (vm_datastore vm) as [|ds dss] eqn:Hds.
    + unfold configure_rdm_disks, get_host_by_vm, get_datastore_by_vm.
      by rewrite Hh, Hds, !bind_run.
    + rewrite (configure_absent_run p vm s h hs ds dss) by done. simpl.
      by destruct (detach_plan _ _ _).2.
  - unfold configure_rdm_disks, get_host_by_vm. by rewrite Hh, bind_run.
Qed.

(** C3, as the code has it.  [ctl_max] is 15, or 64 exactly when the type is
    paravirtual and the hardware version is at least 14.  In a [present] run
    that gets past the controller pass and whose raw-mapped disks can all be
    placed on their bus, let [total] be the number of raw-mapped disks plus
    the number of requested WWIDs minus the number of raw-mapped disks whose
    LUN identifier contains a requested WWID.  If [total] exceeds [ctl_max]
    times the length of the bus list, the run fails with the capacity message
    with no disk change built and nothing more submitted; otherwise, up to and
    including equality, the run does not fail with that message.  An [absent]
    run never fails with it. *)
Theorem capacity_rule (p : Params)
    (R : VirtualMachine → list VirtualDeviceSpec → TaskEnd * VirtualMachine)
    (vm : VirtualMachine) :
  let capacity :=
    if bool_decide (14 ≤ hw_version vm ∧ rdm_controller_type p = paravirtual)
    then 64 else 15 in
  let bays := capacity * Z.of_nat (length (rdm_controller_bus p)) in
  ctl_max (inventory_state p vm) = capacity ∧
  (∀ change_applied s_c du',
     state p = present →
     ensure_controllers p R (inventory_state p vm) = (Ok (inr change_applied), s_c) →
     let rdms := omap as_rdm (hardware_device (current_vm_obj s_c)) in
     let total := Z.of_nat (length rdms)
                  + (Z.of_nat (length (rdm_disk p)) - count_presented (rdm_disk p) rdms) in
     place_disks (ctl_key_slot s_c) (reserve_units (ctl_units s_c) (disk_units s_c)) rdms
       = Some du' →
     (total > bays →
        (run p R vm).1 = FailJson (msg_disk_number total bays) ∧
        configspec (run p R vm).2 = [] ∧
        submitted (run p R vm).2 = submitted s_c) ∧
     (total ≤ bays → ∀ a b, (run p R vm).1 ≠ FailJson (msg_disk_number a b))) ∧
  (state p = absent → ∀ a b, (run p R vm).1 ≠ FailJson (msg_disk_number a b)).
Proof.
  intros capacity bays.
  destruct (inventory_state_fields p vm) as (_ & _ & _ & _ & _ & _ & _ & _ & Hmax).
  split; [exact Hmax|]. split.
  - intros ca s_c du' Hpresent Hctl rdms total Hplace.
    assert (Hcap : ctl_max s_c = capacity).
    { destruct (ensure_controllers_frame p R (inventory_state p vm)) as [Hm _].
      rewrite Hctl in Hm. simpl in Hm. by rewrite Hm. }
    rewrite run_inventory, Hpresent, bind_run, Hctl, configure_disks_run, bind_run.
    rewrite (get_rdm_info_run p _ _ du') by exact Hplace.
    change (all_disk p (rdm_disks (disks_listed s_c))) with total.
    replace (free_bays p (disks_listed s_c)) with bays
      by (unfold free_bays, bays; simpl; by rewrite Hcap).
    split.
    + intros Hgt. rewrite bool_decide_true by done. done.
    + intros Hle a b. rewrite bool_decide_false by lia.
      rewrite bind_run.
      destruct (configure_present_frame p (current_vm_obj s_c)
                  (set_disk_units du' (disks_listed s_c)) Hpresent)
        as (specs & du2 & _ & _ & _ & Hn & _).
      destruct (configure_rdm_disks p _ _) as [[[]|m|e] s2]; simpl in Hn; try done.
      * apply finish_no_capacity_failure.
      * intros [= ->]. by eapply Hn.
  - intros Habsent a b. rewrite run_absent, configure_disks_run, bind_run by done.
    set (s1 := disks_listed (inventory_state p vm)).
    destruct (get_rdm_info_frame p (rdm_disks s1) s1) as (du' & _ & Hout).
    destruct (get_rdm_info p (rdm_disks s1) s1) as [[[]|m|e] s2]; simpl in Hout.
    + rewrite bind_run.
      pose proof (configure_absent_no_capacity_failure p
                    (current_vm_obj (inventory_state p vm)) s2 a b Habsent) as Hn.
      destruct (configure_rdm_disks p _ s2) as [[[]|m|e] s3]; simpl in Hn; try done.
      * apply finish_no_capacity_failure.
      * intros [= ->]. by apply Hn.
    + destruct Hout as [?|[?|(_ & _ & ?)]]; congruence.
    + done.
Qed.

Lemma capacity_rule_witness :
  (run (CapacityBoundary.request ["700000A"; "7000016"]) ReconfigVM_ideal
     (CapacityBoundary.vm 14)).1
  = FailJson (msg_disk_number 16 15) ∧
  ∀ a b,
    (run (CapacityBoundary.request ["7000016"]) ReconfigVM_ideal
       (CapacityBoundary.vm 14)).1
    ≠ FailJson (msg_disk_number a b).
Proof.
  split.
  - pose (P := CapacityBoundary.request ["700000A"; "7000016"]).
    pose (V := CapacityBoundary.vm 14).
    pose (s_c := (ensure_controllers P ReconfigVM_ideal (inventory_state P V)).2).
    pose (du' := default ∅
                   (place_disks (ctl_key_slot s_c)
                      (reserve_units (ctl_units s_c) (disk_units s_c))
                      (omap as_rdm (hardware_device (current_vm_obj s_c))))).
    refine (proj1 (proj1 (proj1 (proj2 (capacity_rule P ReconfigVM_ideal V))
                            false s_c du' _ _ _) _)).
    + reflexivity.
    + vm_compute; reflexivity.
    + vm_compute; reflexivity.
    + vm_compute; reflexivity.
  - pose (P := CapacityBoundary.request ["7000016"]).
    pose (V := CapacityBoundary.vm 14).
    pose (s_c := (ensure_controllers P ReconfigVM_ideal (inventory_state P V)).2).
    pose (du' := default ∅
                   (place_disks (ctl_key_slot s_c)
                      (reserve_units (ctl_units s_c) (disk_units s_c))
                      (omap as_rdm (hardware_device (current_vm_obj s_c))))).
    refine (proj2 (proj1 (proj2 (capacity_rule P ReconfigVM_ideal V))
                     false s_c du' _ _ _) _).
    + reflexivity.
    + vm_compute; reflexivity.
    + vm_compute; reflexivity.
    + vm_compute; discriminate.
Defined.

(** The boundary of the spec: fourteen disks and one new LUN fill the
    fifteenth unit. *)
Lemma capacity_boundary_attaches :
  submitted (run (CapacityBoundary.request ["7000016"]) ReconfigVM_ideal
               (CapacityBoundary.vm 14)).2
  = [[create_rdm_disk 1000 (lun_of_wwid "7000016") "ds1" "[ds1] vm/vm_RDM16.vmdk" 15]].
Proof. vm_compute; reflexivity. Qed.

(** C3 as the spec words it fails.  The machine has fifteen raw-mapped disks
    on its one allowed bus; both requested WWIDs (one LUN, written in upper
    and in lower case) are satisfied by one of them, so the number of
    requested-but-unsatisfied WWIDs is 0 and the sum equals capacity times
    buses, 15.  The code subtracts the one matching disk from the two
    requests and fails with 16 against 15. *)
Lemma capacity_counts_disks_not_wwids :
  length (omap as_rdm (hardware_device (CapacityBoundary.vm 15))) = 15%nat ∧
  (∀ w, w ∈ ["700000A"; "700000a"] →
     ∃ disk, disk ∈ omap as_rdm (hardware_device (CapacityBoundary.vm 15)) ∧
             wwid_in_uuid disk w = true) ∧
  ctl_max (inventory_state (CapacityBoundary.request ["700000A"; "700000a"])
             (CapacityBoundary.vm 15))
  * Z.of_nat (length (rdm_controller_bus (CapacityBoundary.request ["700000A"; "700000a"])))
  = 15 ∧
  (run (CapacityBoundary.request ["700000A"; "700000a"]) ReconfigVM_ideal
     (CapacityBoundary.vm 15)).1
  = FailJson (msg_disk_number 16 15).
Proof.
  split; [vm_compute; reflexivity|].
  split.
  - intros w Hw.
    exists {| rdm_device := rdm_disk_on 0 15 (lun_of_wwid "700000A");
              rdm_backing := {| lunUuid := uuid (lun_of_wwid "700000A");
                                deviceName := lun_deviceName (lun_of_wwid "700000A");
                                compatibilityMode := "physicalMode";
                                diskMode := "independent_persistent"; datastore := "ds1";
                                fileName := "[ds1] vm/vm_RDM.vmdk";
                                sharing := "sharingNone" |} |}.
    split.
    + apply elem_of_rdm_disks.
      exists (rdm_disk_on 0 15 (lun_of_wwid "700000A")). eexists.
      split; [|split; reflexivity].
      vm_compute. do 15 apply list_elem_of_further. apply list_elem_of_here.
    + repeat (apply elem_of_cons in Hw as [->|Hw]); [vm_compute; reflexivity..|].
      by apply elem_of_nil in Hw.
  - split; vm_compute; reflexivity.
Qed.

(** ** The inventory of a device list that has grown *)

Lemma slot_key_of_union devs (m : gmap Z Z) : slot_key_of devs m = slot_key_of devs ∅ ∪ m.
Proof.
  revert m. induction devs as [|d devs IH]; intros m.
  - unfold slot_key_of. simpl. by rewrite (left_id_L ∅ (∪)).
  - rewrite !slot_key_of_cons. destruct (is_scsi_controller d); [|apply IH].
    rewrite (IH (<[_:=_]> m)), (IH (<[_:=_]> ∅)).
    by rewrite insert_empty, <- (assoc_L (∪)), <- insert_union_singleton_l.
Qed.

Lemma key_slot_of_union devs (m : gmap Z Z) : key_slot_of devs m = key_slot_of devs ∅ ∪ m.
Proof.
  revert m. induction devs as [|d devs IH]; intros m.
  - unfold key_slot_of. simpl. by rewrite (left_id_L ∅ (∪)).
  - rewrite !key_slot_of_cons. destruct (is_scsi_controller d); [|apply IH].
    rewrite (IH (<[_:=_]> m)), (IH (<[_:=_]> ∅)).
    by rewrite insert_empty, <- (assoc_L (∪)), <- insert_union_singleton_l.
Qed.

Lemma units_of_union devs (m : gmap Z string) : units_of devs m = units_of devs ∅ ∪ m.
Proof.
  revert m. induction devs as [|d devs IH]; intros m.
  - unfold units_of. simpl. by rewrite (left_id_L ∅ (∪)).
  - rewrite !units_of_cons. destruct (dev_class d); try apply IH.
    rewrite (IH (<[_:=_]> m)), (IH (<[_:=_]> ∅)).
    by rewrite insert_empty, <- (assoc_L (∪)), <- insert_union_singleton_l.
Qed.

(** Taking the inventory of [l ++ n] on top of the inventory of [l] gives the
    inventory of [l ++ n]. *)
Lemma slot_key_of_again l n :
  slot_key_of (l ++ n) (slot_key_of l ∅) = slot_key_of (l ++ n) ∅.
Proof.
  rewrite slot_key_of_union, slot_key_of_app, (slot_key_of_union n).
  by rewrite <- (assoc_L (∪)), (idemp_L (∪)).
Qed.

Lemma key_slot_of_again l n :
  key_slot_of (l ++ n) (key_slot_of l ∅) = key_slot_of (l ++ n) ∅.
Proof.
  rewrite key_slot_of_union, key_slot_of_app, (key_slot_of_union n).
  by rewrite <- (assoc_L (∪)), (idemp_L (∪)).
Qed.

Lemma units_of_again l n :
  units_of (l ++ n) (units_of l ∅) = units_of (l ++ n) ∅.
Proof.
  rewrite units_of_union, units_of_app, (units_of_union n).
  by rewrite <- (assoc_L (∪)), (idemp_L (∪)).
Qed.

(** Devices that are no controllers do not show in the inventory. *)
Lemma slot_key_of_no_ctl devs m :
  Forall (λ d, is_scsi_controller d = false) devs → slot_key_of devs m = m.
Proof.
  induction 1 as [|d devs Hd _ IH]; [done|]. by rewrite slot_key_of_cons, Hd.
Qed.

Lemma key_slot_of_no_ctl devs m :
  Forall (λ d, is_scsi_controller d = false) devs → key_slot_of devs m = m.
Proof.
  induction 1 as [|d devs Hd _ IH]; [done|]. by rewrite key_slot_of_cons, Hd.
Qed.

Lemma units_of_no_ctl devs m :
  Forall (λ d, is_scsi_controller d = false) devs → units_of devs m = m.
Proof.
  induction 1 as [|d devs Hd _ IH]; [done|]. rewrite units_of_cons.
  unfold is_scsi_controller in Hd. by destruct (dev_class d).
Qed.

Lemma slot_key_of_lookup devs m b k :
  slot_key_of devs m !! b = Some k →
  (∃ d, d ∈ devs ∧ is_scsi_controller d = true ∧ busNumber d = b ∧ key d = k)
  ∨ m !! b = Some k.
Proof.
  revert m. induction devs as [|d devs IH]; intros m; [by right|].
  rewrite slot_key_of_cons. intros H.
  apply IH in H as [(d' & Hd' & ?)|H].
  - left. exists d'. split; [by right|done].
  - destruct (is_scsi_controller d) eqn:Hc; [|by right].
    destruct (decide (busNumber d = b)) as [Hb|Hb].
    + rewrite Hb, lookup_insert_eq in H. simplify_eq.
      left. exists d. split; [by left|done].
    + rewrite lookup_insert_ne in H by done. by right.
Qed.

(** With distinct controller keys, [ctl_key_slot] undoes [ctl_slot_key]. *)
Lemma key_slot_inverts_slot_key vm devs b k :
  controller_keys_distinct vm →
  (∀ d, d ∈ devs → d ∈ hardware_device vm) →
  slot_key_of devs ∅ !! b = Some k →
  key_slot_of devs ∅ !! k = Some b.
Proof.
  intros Hdist Hsub Hk.
  apply slot_key_of_lookup in Hk as [(d & Hd & Hs & Hb & Hkey)|Hk]; [|done].
  assert (is_Some (key_slot_of devs ∅ !! k)) as [b' Hb'].
  { apply key_slot_of_is_Some. left. by exists d. }
  rewrite Hb'. f_equal.
  apply key_slot_of_lookup in Hb' as [(d' & Hd' & Hs' & Hkey' & <-)|Hb']; [|done].
  rewrite <- Hb. apply Hdist; auto. congruence.
Qed.

(** No controller on a bus: [get_vm_ctl_n] and [ctl_units] agree. *)
Lemma get_vm_ctl_n_None vm b :
  units_of (hardware_device vm) ∅ !! b = None → get_vm_ctl_n vm b = None.
Proof.
  intros Hnone. unfold get_vm_ctl_n. apply head_None.
  apply filter_none. intros d Hd [Hs Hb].
  assert (is_Some (units_of (hardware_device vm) ∅ !! b)) as [? ?]; [|congruence].
  apply units_of_is_Some. left. by exists d.
Qed.

Lemma get_vm_ctl_n_units vm b :
  get_vm_ctl_n vm b = None ↔ units_of (hardware_device vm) ∅ !! b = None.
Proof.
  split; [|apply get_vm_ctl_n_None].
  unfold get_vm_ctl_n. intros Hhead.
  apply eq_None_not_Some. intros [(d & Hd & Hs & Hb)|[? ?]]%units_of_is_Some; [|done].
  assert (Hin : d ∈ filter (λ d, is_scsi_controller d = true ∧ busNumber d = b)
                      (hardware_device vm)).
  { by apply list_elem_of_filter. }
  destruct (filter _ (hardware_device vm)); [by apply elem_of_nil in Hin|done].
Qed.

(** ** The attach plan *)

Lemma attach_one_cases p luns rdms ds path sk cap du w spec du1 :
  attach_one p luns rdms ds path sk cap du w = Ok (spec, du1) →
  ∃ lun, find_lun luns w = Some lun ∧
    ((spec = [] ∧ du1 = du ∧
      (Exists (λ rdm, uuid lun = lunUuid (rdm_backing rdm)) rdms
       ∨ (¬ Exists (λ rdm, uuid lun = lunUuid (rdm_backing rdm)) rdms
          ∧ scan_ctls du (seqZ 0 (cap + 1)) (rdm_controller_bus p) = Ok None)))
     ∨ (∃ rdmid ctl bus_n units scsi_key,
          ¬ Exists (λ rdm, uuid lun = lunUuid (rdm_backing rdm)) rdms ∧
          scan_ctls du (seqZ 0 (cap + 1)) (rdm_controller_bus p) = Ok (Some (ctl, bus_n)) ∧
          du !! ctl = Some units ∧ sk !! ctl = Some scsi_key ∧
          spec = [create_rdm_disk scsi_key lun ds (rdm_file_name path rdmid) bus_n] ∧
          du1 = <[ctl := units ∪ {[bus_n]}]> du)).
Proof.
  unfold attach_one. destruct (find_lun luns w) as [lun|]; [|done].
  intros H. exists lun. split; [done|].
  case_bool_decide as Hex.
  { left. injection H as <- <-. auto. }
  destruct (WwnPattern.split1 (canonicalName lun)) as [rdmid|]; [|done].
  destruct (scan_ctls _ _ _) as [[[ctl bus_n]|]|m|e] eqn:Hscan; try done.
  - destruct (du !! ctl) as [units|] eqn:Hu; [|done].
    destruct (sk !! ctl) as [k|] eqn:Hk; [|done].
    injection H as <- <-. right. by exists rdmid, ctl, bus_n, units, k.
  - left. injection H as <- <-. auto.
Qed.

Lemma attach_plan_cons p luns rdms ds path sk cap du w wwids specs du' :
  attach_plan p luns rdms ds path sk cap du (w :: wwids) = Ok (specs, du') →
  ∃ spec du1 specs',
    attach_one p luns rdms ds path sk cap du w = Ok (spec, du1) ∧
    attach_plan p luns rdms ds path sk cap du1 wwids = Ok (specs', du') ∧
    specs = spec ++ specs'.
Proof.
  cbn [attach_plan].
  destruct (attach_one _ _ _ _ _ _ _ _ w) as [[spec du1]|m|e]; try done.
  destruct (attach_plan _ _ _ _ _ _ _ du1 wwids) as [[specs2 du2]|m|e] eqn:Hplan; try done.
  intros [= <- <-]. by exists spec, du1, specs2.
Qed.

(** Every spec of the plan attaches the LUN of a requested WWID that no disk
    carries yet. *)
Lemma attach_plan_specs p luns rdms ds path sk cap du wwids specs du' :
  attach_plan p luns rdms ds path sk cap du wwids = Ok (specs, du') →
  Forall (λ spec, ∃ w lun scsi_key rdm_file bus_n,
            w ∈ wwids ∧ find_lun luns w = Some lun ∧
            spec = create_rdm_disk scsi_key lun ds rdm_file bus_n) specs.
Proof.
  revert du specs. induction wwids as [|w wwids IH]; intros du specs.
  - simpl. intros [= <- <-]. constructor.
  - intros (spec & du1 & specs' & Hone & Hplan & ->)%attach_plan_cons.
    apply Forall_app. split.
    + apply attach_one_cases in Hone as (lun & Hlun & [(-> & _)|Hsome]); [constructor|].
      destruct Hsome as (rdmid & ctl & bus_n & units & k & _ & _ & _ & _ & -> & _).
      constructor; [|constructor]. exists w, lun, k, (rdm_file_name path rdmid), bus_n.
      split; [by left|done].
    + eapply Forall_impl; [by eapply IH|].
      intros spec' (w' & lun & k & f & u & Hw' & ?). exists w', lun, k, f, u.
      split; [by right|done].
Qed.

Lemma attach_plan_is_new p luns rdms ds path sk cap du wwids specs du' :
  attach_plan p luns rdms ds path sk cap du wwids = Ok (specs, du') →
  (∀ w, w ∈ wwids → w ∈ rdm_disk p) →
  Forall (is_new_attach p luns rdms) specs.
Proof.
  revert du specs. induction wwids as [|w wwids IH]; intros du specs Hplan Hsub.
  - simpl in Hplan. injection Hplan as <- <-. constructor.
  - apply attach_plan_cons in Hplan as (spec & du1 & specs' & Hone & Hrest & ->).
    apply Forall_app. split.
    + apply attach_one_cases in Hone as (lun & Hlun & [(-> & _)|Hsome]); [constructor|].
      destruct Hsome as (rdmid & ctl & bus_n & units & k & Hnot & _ & _ & _ & -> & _).
      constructor; [|constructor].
      exists w, lun. split_and!; [apply Hsub; by left|done|by eexists _, _, _, _|].
      intros rdm Hrdm Heq. apply Hnot, Exists_exists. by exists rdm.
    + eapply IH; [exact Hrest|]. intros w' Hw'. apply Hsub. by right.
Qed.

Lemma attach_plan_grows p luns rdms ds path sk cap du wwids specs du' :
  attach_plan p luns rdms ds path sk cap du wwids = Ok (specs, du') →
  occupancy_grows du du'.
Proof.
  revert du specs. induction wwids as [|w wwids IH]; intros du specs.
  - simpl. intros [= <- <-]. apply occupancy_grows_refl.
  - intros (spec & du1 & specs' & Hone & Hplan & ->)%attach_plan_cons.
    eapply occupancy_grows_trans; [|by eapply IH].
    apply attach_one_cases in Hone as (lun & Hlun & [(_ & -> & _)|Hsome]).
    + apply occupancy_grows_refl.
    + destruct Hsome as (rdmid & ctl & bus_n & units & k & _ & _ & Hu & _ & _ & ->).
      by apply occupancy_grows_insert.
Qed.

(** The disks that realize the specs of the plan are placed by
    [get_rdm_info] where the plan reserved their units. *)
Lemma attach_plan_place p luns rdms ds path sk ks cap du wwids specs du' new :
  attach_plan p luns rdms ds path sk cap du wwids = Ok (specs, du') →
  (∀ b k, b ∈ rdm_controller_bus p → sk !! b = Some k → ks !! k = Some b) →
  Forall2 spec_disk specs new →
  place_disks ks du new = Some du'.
Proof.
  intros Hplan Hinv. revert du specs new Hplan.
  induction wwids as [|w wwids IH]; intros du specs new.
  - simpl. intros [= <- <-] ->%Forall2_nil_inv_l. done.
  - intros (spec & du1 & specs' & Hone & Hplan & ->)%attach_plan_cons Hreal.
    apply attach_one_cases in Hone as (lun & Hlun & [(-> & -> & _)|Hsome]).
    + by eapply IH.
    + destruct Hsome as (rdmid & ctl & bus_n & units & k & _ & Hscan & Hu & Hk & -> & ->).
      simpl in Hreal. apply Forall2_cons_inv_l in Hreal as (rdm & new' & Hrdm & Hreal & ->).
      unfold spec_disk in Hrdm. simpl in Hrdm. destruct Hrdm as (Hck & Hun & _).
      simpl. rewrite Hck, Hun.
      apply scan_ctls_found in Hscan as (pre & post & Hlist & _).
      rewrite (Hinv ctl k); [|rewrite Hlist; set_solver|done].
      rewrite Hu. by eapply IH.
Qed.

Lemma scan_ctls_exhausted_mono du du' units ctls :
  scan_ctls du units ctls = Ok None → occupancy_grows du du' →
  scan_ctls du' units ctls = Ok None.
Proof.
  intros Hscan Hgrow. apply scan_ctls_exhausted. intros c Hc.
  assert (Hc' : scan_units du c units = Ok None).
  { clear Hgrow. induction ctls as [|c' ctls IH]; [by apply elem_of_nil in Hc|].
    simpl in Hscan.
    destruct (scan_units du c' units) as [[u|]|m|e] eqn:Hu; try done.
    apply elem_of_cons in Hc as [->|Hc]; [done|]. by apply IH. }
  apply scan_units_full in Hc' as [->|(occ & Hocc & Hall)]; [done|].
  destruct (Hgrow c occ Hocc) as (occ' & Hocc' & Hsub).
  apply (scan_units_full_inv _ _ _ occ'); [done|]. intros u Hu. apply Hsub, Hall, Hu.
Qed.

(** Once the LUNs of the plan's specs are mapped and the units it reserved
    are taken, the same requests build nothing. *)
Lemma attach_plan_again p luns rdms rdms' ds path sk cap du wwids specs du1 du2 :
  attach_plan p luns rdms ds path sk cap du wwids = Ok (specs, du1) →
  (∀ rdm, rdm ∈ rdms → rdm ∈ rdms') →
  (∀ spec scsi_key lun vm_ds rdm_file bus_n,
     spec ∈ specs → spec = create_rdm_disk scsi_key lun vm_ds rdm_file bus_n →
     ∃ rdm, rdm ∈ rdms' ∧ lunUuid (rdm_backing rdm) = uuid lun) →
  occupancy_grows du1 du2 →
  attach_plan p luns rdms' ds path sk cap du2 wwids = Ok ([], du2).
Proof.
  intros Hplan Hsub Hmapped Hgrow. revert du specs Hplan Hmapped.
  induction wwids as [|w wwids IH]; intros du specs; [done|].
  intros (spec & du' & specs' & Hone & Hplan & ->)%attach_plan_cons Hmapped.
  assert (Hrest : attach_plan p luns rdms' ds path sk cap du2 wwids = Ok ([], du2)).
  { eapply IH; [exact Hplan|]. intros. eapply Hmapped; [|done]. set_solver. }
  cbn [attach_plan].
  assert (Hone' : attach_one p luns rdms' ds path sk cap du2 w = Ok ([], du2));
    [|by rewrite Hone', Hrest].
  pose proof (attach_plan_grows _ _ _ _ _ _ _ _ _ _ _ Hplan) as Hg'.
  pose proof Hone as Hcases.
  apply attach_one_cases in Hcases as (lun & Hlun & Hcases).
  unfold attach_one. rewrite Hlun.
  case_bool_decide as Hex; [done|].
  assert (Hex0 : ¬ Exists (λ rdm, uuid lun = lunUuid (rdm_backing rdm)) rdms).
  { intros (rdm & Hrdm & Heq)%Exists_exists. apply Hex, Exists_exists.
    exists rdm. auto. }
  unfold attach_one in Hone. rewrite Hlun, bool_decide_false in Hone by done.
  destruct (WwnPattern.split1 (canonicalName lun)) as [rdmid|]; [|done].
  destruct Hcases as [(Hsp & Hdu & [?|[_ Hscan]])|Hsome]; [done| |].
  - rewrite (scan_ctls_exhausted_mono du du2); [done|done|].
    rewrite Hdu in Hg'. by eapply occupancy_grows_trans.
  - destruct Hsome as (rdmid' & ctl & bus_n & units & k & _ & _ & _ & _ & -> & _).
    destruct (Hmapped (create_rdm_disk k lun ds (rdm_file_name path rdmid') bus_n)
                k lun ds (rdm_file_name path rdmid') bus_n) as (rdm & Hrdm & Heq);
      [set_solver|done|].
    destruct Hex. apply Exists_exists. by exists rdm.
Qed.

(** The loop fails where the plan fails. *)
Lemma attach_body_fails p luns ds path w s :
  match attach_one p luns (rdm_disks s) ds path (ctl_slot_key s) (ctl_max s) (disk_units s) w with
  | Ok _ => True
  | FailJson m => (attach_body p luns ds path w s).1 = FailJson m
  | Raise e => (attach_body p luns ds path w s).1 = Raise e
  end.
Proof.
  unfold attach_one, attach_body, resolve_lun. rewrite bind_run.
  destruct (find_lun luns w) as [lun|]; [|done].
  cbn [ret]. rewrite bind_run. cbn [get].
  case_bool_decide; [done|].
  destruct (WwnPattern.split1 (canonicalName lun)) as [rdmid|]; [|done].
  rewrite create_rdm_run. unfold find_free_slot.
  destruct (scan_ctls _ _ _) as [[[ctl bus_n]|]|m|e]; try done.
  destruct (disk_units s !! ctl) as [units|]; [|done].
  by destruct (ctl_slot_key s !! ctl) as [k|].
Qed.

Lemma present_loop_fails p luns ds path wwids s :
  match attach_plan p luns (rdm_disks s) ds path (ctl_slot_key s) (ctl_max s)
          (disk_units s) wwids with
  | Ok _ => True
  | FailJson m => (for_each wwids (attach_body p luns ds path) s).1 = FailJson m
  | Raise e => (for_each wwids (attach_body p luns ds path) s).1 = Raise e
  end.
Proof.
  revert s. induction wwids as [|w wwids IH]; intros s; [done|].
  cbn [attach_plan for_each]. rewrite bind_run.
  pose proof (attach_body_fails p luns ds path w s) as Hf.
  destruct (attach_one _ _ _ _ _ _ _ _ w) as [[spec du1]|m|e] eqn:Hone.
  - rewrite (attach_body_ok _ _ _ _ _ _ _ _ Hone).
    specialize (IH (set_disk_units du1 (append_specs spec s))). simpl in IH.
    by destruct (attach_plan _ _ _ _ _ _ _ du1 wwids) as [[specs2 du2]|m|e].
  - destruct (attach_body p luns ds path w s) as [o s1]. simpl in Hf. by subst.
  - destruct (attach_body p luns ds path w s) as [o s1]. simpl in Hf. by subst.
Qed.

(** ** C8: when a requested LUN counts as already there *)

Lemma wwid_presented_exists (disk : RdmDisk) (requested : list string) :
  existsb (wwid_in_uuid disk) requested = true ↔
  ∃ w, w ∈ requested ∧
       0 ≤ PyStr.find (PyStr.lower (lunUuid (rdm_backing disk))) (PyStr.lower w).
Proof.
  rewrite existsb_exists. unfold wwid_in_uuid. split.
  - intros (w & Hw & H). exists w. split; [by apply list_elem_of_In|]. lia.
  - intros (w & Hw & H). exists w. split; [by apply list_elem_of_In|]. lia.
Qed.

Lemma attach_body_skip p luns vm_ds path w lun s :
  find_lun luns w = Some lun →
  lun_mapped (rdm_disks s) lun →
  attach_body p luns vm_ds path w s = (Ok tt, s).
Proof.
  intros Hlun (rdm & Hrdm & Heq).
  unfold attach_body, resolve_lun. rewrite bind_run, Hlun. cbn [ret].
  rewrite bind_run. cbn [get]. rewrite bool_decide_true; [done|].
  apply Exists_exists. by exists rdm.
Qed.

Lemma lun_mapped_Exists rdms lun :
  lun_mapped rdms lun ↔ Exists (λ rdm, uuid lun = lunUuid (rdm_backing rdm)) rdms.
Proof.
  rewrite Exists_exists. unfold lun_mapped.
  split; intros (rdm & ? & ?); by exists rdm.
Qed.

Lemma attach_body_unmatched p luns vm_ds path w lun s :
  find_lun luns w = Some lun →
  ¬ lun_mapped (rdm_disks s) lun →
  attach_body p luns vm_ds path w s
  = match WwnPattern.split1 (canonicalName lun) with
    | None => (Raise IndexError, s)
    | Some rdmid => create_rdm p lun vm_ds (rdm_file_name path rdmid) s
    end.
Proof.
  intros Hlun Hnot. unfold attach_body, resolve_lun. rewrite bind_run, Hlun. cbn [ret].
  rewrite bind_run. cbn [get].
  rewrite bool_decide_false by (by rewrite <- lun_mapped_Exists).
  by destruct (WwnPattern.split1 _).
Qed.

Lemma attach_body_attaches p luns vm_ds path w lun s rdmid ctl bus_n units scsi_key :
  find_lun luns w = Some lun →
  ¬ lun_mapped (rdm_disks s) lun →
  WwnPattern.split1 (canonicalName lun) = Some rdmid →
  find_free_slot p s = Ok (Some (ctl, bus_n)) →
  disk_units s !! ctl = Some units →
  ctl_slot_key s !! ctl = Some scsi_key →
  attach_body p luns vm_ds path w s
  = (Ok tt,
     append_specs [create_rdm_disk scsi_key lun vm_ds (rdm_file_name path rdmid) bus_n]
       (set_disk_units (<[ctl := units ∪ {[bus_n]}]> (disk_units s)) s)).
Proof.
  intros Hlun Hnot Hid Hslot Hunits Hkey.
  rewrite (attach_body_unmatched p luns vm_ds path w lun s Hlun Hnot), Hid.
  by rewrite create_rdm_run, Hslot, Hunits, Hkey.
Qed.

(** Unless the allocator has run out of slots, the plan holds an attach spec
    for every requested LUN that no disk carries. *)
Lemma attach_plan_complete p luns rdms ds path sk cap du wwids specs du' :
  attach_plan p luns rdms ds path sk cap du wwids = Ok (specs, du') →
  scan_ctls du' (seqZ 0 (cap + 1)) (rdm_controller_bus p) ≠ Ok None →
  ∀ w lun, w ∈ wwids → find_lun luns w = Some lun →
    ¬ lun_mapped rdms lun →
    ∃ spec, spec ∈ specs ∧ is_attach_of lun spec.
Proof.
  revert du specs. induction wwids as [|w0 wwids IH]; intros du specs Hplan Hfree w lun Hw.
  { by apply elem_of_nil in Hw. }
  apply attach_plan_cons in Hplan as (spec & du1 & specs' & Hone & Hrest & ->).
  intros Hlun Hnot.
  apply elem_of_cons in Hw as [->|Hw].
  - apply attach_one_cases in Hone as (lun0 & Hlun0 & Hcases).
    rewrite Hlun in Hlun0. injection Hlun0 as <-.
    destruct Hcases as [(_ & -> & [Hex|[_ Hscan]])|Hsome].
    + destruct Hnot. by apply lun_mapped_Exists.
    + destruct Hfree. eapply scan_ctls_exhausted_mono; [exact Hscan|].
      by eapply attach_plan_grows.
    + destruct Hsome as (rdmid & ctl & bus_n & units & k & _ & _ & _ & _ & -> & _).
      eexists. split; [apply elem_of_app; left; apply list_elem_of_here|].
      by eexists _, _, _, _.
  - destruct (IH du1 specs' Hrest Hfree w lun Hw Hlun Hnot) as (sp & Hsp & Hatt).
    exists sp. split; [|done]. apply elem_of_app. by right.
Qed.

(** C8, as the code has it.  Two tests are in use.  The capacity check of
    [get_rdm_info] counts a raw-mapped disk exactly when its LUN identifier
    contains one of the requested WWIDs, letter case ignored.  The attach loop
    of [configure_rdm_disks] goes by [lun_mapped]: is the [uuid] of the host
    LUN that the WWID names the LUN identifier of a raw-mapped disk?  If it
    is, the iteration leaves the helper as it is.  If it is not, the
    iteration goes on to the name of the mapping file and to [create_rdm],
    and as soon as the allocator has a free slot it appends the attach spec
    for that LUN on that slot; so, with a free slot, an iteration leaves the
    helper as it is if and only if the LUN is mapped.  Over the whole loop:
    every spec appended is an attach spec for the LUN of a requested WWID
    that is not mapped, and when the loop ends normally with a slot still
    free, a requested LUN has an attach spec among them if and only if it is
    not mapped. *)
Theorem satisfied_detection (p : Params) (vm : VirtualMachine) (s : Self)
    (h : HostSystem) (hs : list HostSystem) (ds : string) (dss : list string)
    (rdms : list RdmDisk) (du0 : gmap Z (gset Z)) :
  state p = present →
  host_view vm = Some (h :: hs) →
  vm_datastore vm = ds :: dss →
  place_disks (ctl_key_slot s) (reserve_units (ctl_units s) (disk_units s)) rdms = Some du0 →
  (get_rdm_info p rdms s).1
  = (if bool_decide
          (Z.of_nat (length rdms)
           + (Z.of_nat (length (rdm_disk p))
              - Z.of_nat (length (filter (λ disk, existsb (wwid_in_uuid disk) (rdm_disk p) = true)
                                    rdms)))
           > ctl_max s * Z.of_nat (length (rdm_controller_bus p)))
     then FailJson (msg_disk_number (all_disk p rdms) (free_bays p s))
     else Ok tt) ∧
  (∀ disk,
     existsb (wwid_in_uuid disk) (rdm_disk p) = true ↔
     ∃ w, w ∈ rdm_disk p ∧
          0 ≤ PyStr.find (PyStr.lower (lunUuid (rdm_backing disk))) (PyStr.lower w)) ∧
  (∀ w lun,
     w ∈ rdm_disk p → find_lun (scsiLun h) w = Some lun →
     (lun_mapped (rdm_disks s) lun →
      attach_body p (scsiLun h) ds (vmPathName vm) w s = (Ok tt, s)) ∧
     (¬ lun_mapped (rdm_disks s) lun →
      attach_body p (scsiLun h) ds (vmPathName vm) w s
      = match WwnPattern.split1 (canonicalName lun) with
        | None => (Raise IndexError, s)
        | Some rdmid => create_rdm p lun ds (rdm_file_name (vmPathName vm) rdmid) s
        end) ∧
     (∀ rdmid ctl bus_n units scsi_key,
        WwnPattern.split1 (canonicalName lun) = Some rdmid →
        find_free_slot p s = Ok (Some (ctl, bus_n)) →
        disk_units s !! ctl = Some units →
        ctl_slot_key s !! ctl = Some scsi_key →
        (¬ lun_mapped (rdm_disks s) lun →
         attach_body p (scsiLun h) ds (vmPathName vm) w s
         = (Ok tt,
            append_specs
              [create_rdm_disk scsi_key lun ds (rdm_file_name (vmPathName vm) rdmid) bus_n]
              (set_disk_units (<[ctl := units ∪ {[bus_n]}]> (disk_units s)) s))) ∧
        (attach_body p (scsiLun h) ds (vmPathName vm) w s = (Ok tt, s)
         ↔ lun_mapped (rdm_disks s) lun))) ∧
  (∃ specs,
     configspec (configure_rdm_disks p vm s).2 = configspec s ++ specs ∧
     (∀ spec, spec ∈ specs →
        ∃ w lun,
          w ∈ rdm_disk p ∧ find_lun (scsiLun h) w = Some lun ∧
          is_attach_of lun spec ∧
          ∀ rdm, rdm ∈ rdm_disks s → lunUuid (rdm_backing rdm) ≠ uuid lun) ∧
     ((configure_rdm_disks p vm s).1 = Ok tt →
      find_free_slot p (configure_rdm_disks p vm s).2 ≠ Ok None →
      ∀ w lun,
        w ∈ rdm_disk p → find_lun (scsiLun h) w = Some lun →
        ((∃ spec, spec ∈ specs ∧ is_attach_of lun spec)
         ↔ ¬ lun_mapped (rdm_disks s) lun))).
Proof.
  intros Hpresent Hhost Hds Hplace. split_and!.
  - rewrite (get_rdm_info_run p rdms s du0) by done. simpl.
    unfold all_disk, free_bays, count_presented.
    case_bool_decide as H1; case_bool_decide as H2; try done.
    + destruct H2. by destruct H1.
    + destruct H1. by split.
  - intros disk. apply wwid_presented_exists.
  - intros w lun _ Hlun. split_and!.
    + intros Hmapped. by apply attach_body_skip with lun.
    + intros Hnot. by apply attach_body_unmatched.
    + intros rdmid ctl bus_n units scsi_key Hid Hslot Hunits Hkey.
      assert (Hatt : ¬ lun_mapped (rdm_disks s) lun →
                 attach_body p (scsiLun h) ds (vmPathName vm) w s
                 = (Ok tt,
                    append_specs
                      [create_rdm_disk scsi_key lun ds (rdm_file_name (vmPathName vm) rdmid)
                         bus_n]
                      (set_disk_units (<[ctl := units ∪ {[bus_n]}]> (disk_units s)) s))).
      { intros Hnot. by apply attach_body_attaches. }
      split; [exact Hatt|]. split.
      * intros Hsame.
        destruct (decide (Exists (λ rdm, uuid lun = lunUuid (rdm_backing rdm)) (rdm_disks s)))
          as [Hex|Hex]; [by apply lun_mapped_Exists|].
        rewrite Hatt in Hsame by (by rewrite lun_mapped_Exists).
        injection Hsame as Hsame. apply (f_equal configspec) in Hsame.
        simpl in Hsame. apply (f_equal length) in Hsame.
        rewrite length_app in Hsame. simpl in Hsame. lia.
      * intros Hmapped. by apply attach_body_skip with lun.
  - rewrite (configure_present_run p vm s h hs ds dss) by done.
    pose proof (present_loop_fails p (scsiLun h) ds (vmPathName vm) (rdm_disk p) s) as Hfail.
    destruct (attach_plan p (scsiLun h) (rdm_disks s) ds (vmPathName vm) (ctl_slot_key s)
                (ctl_max s) (disk_units s) (rdm_disk p)) as [[specs du1]|m|e] eqn:Hplan.
    + rewrite (present_loop_ok p _ _ _ _ _ _ _ Hplan). exists specs.
      pose proof (attach_plan_is_new _ _ _ _ _ _ _ _ _ _ _ Hplan (λ w Hw, Hw)) as Hnew.
      rewrite Forall_forall in Hnew.
      split; [done|]. split; [exact Hnew|].
      intros _ Hfree w lun Hw Hlun. split.
      * intros (spec & Hspec & Hatt) (rdm & Hrdm & Heq).
        destruct (Hnew spec Hspec) as (w0 & lun0 & _ & _ & Hatt0 & Hfresh).
        destruct Hatt as (k & f & n & u & ->).
        destruct Hatt0 as (k0 & f0 & n0 & u0 & Hsame).
        apply (Hfresh rdm Hrdm). rewrite Heq.
        unfold create_rdm_disk in Hsame. by injection Hsame.
      * intros Hnot. by eapply attach_plan_complete.
    + destruct (present_loop_frame p (scsiLun h) ds (vmPathName vm) (rdm_disk p) s)
        as (specs & du' & Hst & _ & Hnew & _); [done|].
      exists specs. rewrite Hst. rewrite Forall_forall in Hnew.
      split; [done|]. split; [exact Hnew|].
      intros Hok. by rewrite Hfail in Hok.
    + destruct (present_loop_frame p (scsiLun h) ds (vmPathName vm) (rdm_disk p) s)
        as (specs & du' & Hst & _ & Hnew & _); [done|].
      exists specs. rewrite Hst. rewrite Forall_forall in Hnew.
      split; [done|]. split; [exact Hnew|].
      intros Hok. by rewrite Hfail in Hok.
Qed.

Lemma satisfied_detection_witness :
  attach_body SkipAndAttach.params (scsiLun SkipAndAttach.host) "ds1"
    (vmPathName SkipAndAttach.vm) "7000001" SkipAndAttach.self
  = (Ok tt, SkipAndAttach.self) ∧
  attach_body SkipAndAttach.params (scsiLun SkipAndAttach.host) "ds1"
    (vmPathName SkipAndAttach.vm) "7000016" SkipAndAttach.self
  ≠ (Ok tt, SkipAndAttach.self) ∧
  ∃ specs,
    configspec (configure_rdm_disks SkipAndAttach.params SkipAndAttach.vm
                  SkipAndAttach.self).2
    = configspec SkipAndAttach.self ++ specs ∧
    (∃ spec, spec ∈ specs ∧ is_attach_of (lun_of_wwid "7000016") spec) ∧
    ¬ (∃ spec, spec ∈ specs ∧ is_attach_of (lun_of_wwid "7000001") spec).
Proof.
  assert (Hmapped : lun_mapped (rdm_disks SkipAndAttach.self) (lun_of_wwid "7000001")).
  { apply lun_mapped_Exists. apply (bool_decide_eq_true_1 _). vm_compute; reflexivity. }
  assert (Hnot : ¬ lun_mapped (rdm_disks SkipAndAttach.self) (lun_of_wwid "7000016")).
  { rewrite lun_mapped_Exists. apply (bool_decide_eq_false_1 _). vm_compute; reflexivity. }
  assert (Hlun1 : find_lun (scsiLun SkipAndAttach.host) "7000001"
                  = Some (lun_of_wwid "7000001")) by (vm_compute; reflexivity).
  assert (Hlun16 : find_lun (scsiLun SkipAndAttach.host) "7000016"
                   = Some (lun_of_wwid "7000016")) by (vm_compute; reflexivity).
  assert (Hw1 : "7000001" ∈ rdm_disk SkipAndAttach.params) by (by left).
  assert (Hw16 : "7000016" ∈ rdm_disk SkipAndAttach.params) by (right; by left).
  destruct (satisfied_detection SkipAndAttach.params SkipAndAttach.vm SkipAndAttach.self
              SkipAndAttach.host [] "ds1" [] (rdm_disks SkipAndAttach.self)
              (default ∅
                 (place_disks (ctl_key_slot SkipAndAttach.self)
                    (reserve_units (ctl_units SkipAndAttach.self)
                       (disk_units SkipAndAttach.self))
                    (rdm_disks SkipAndAttach.self))))
    as (_ & _ & Hbody & specs & Hcs & _ & Hloop).
  - reflexivity.
  - reflexivity.
  - reflexivity.
  - vm_compute; reflexivity.
  - split_and!.
    + exact (proj1 (Hbody "7000001" (lun_of_wwid "7000001") Hw1 Hlun1) Hmapped).
    + intros Hsame. apply Hnot.
      refine (proj1 (proj2 (proj2 (proj2 (Hbody "7000016" (lun_of_wwid "7000016") Hw16 Hlun16))
                              "16" 0 14 (default ∅ (disk_units SkipAndAttach.self !! 0)) 1000
                              _ _ _ _)) Hsame).
      * vm_compute; reflexivity.
      * vm_compute; reflexivity.
      * vm_compute; reflexivity.
      * vm_compute; reflexivity.
    + exists specs. split; [exact Hcs|].
      assert (Hok : (configure_rdm_disks SkipAndAttach.params SkipAndAttach.vm
                       SkipAndAttach.self).1 = Ok tt).
      { vm_compute; reflexivity. }
      assert (Hfree : find_free_slot SkipAndAttach.params
                        (configure_rdm_disks SkipAndAttach.params SkipAndAttach.vm
                           SkipAndAttach.self).2
                      ≠ Ok None).
      { vm_compute. discriminate. }
      split.
      * exact (proj2 (Hloop Hok Hfree "7000016" (lun_of_wwid "7000016") Hw16 Hlun16) Hnot).
      * intros Hspec.
        exact (proj1 (Hloop Hok Hfree "7000001" (lun_of_wwid "7000001") Hw1 Hlun1)
                 Hspec Hmapped).
Defined.

(** C8 as the spec words it fails.  The requested WWID occurs in the LUN
    identifier of the mapped disk (whose own WWID begins with it), so it is
    satisfied by the substring test and the capacity check counts it; the
    attach loop compares [uuid]s, finds no disk for the requested LUN and
    builds an attach spec for it. *)
Lemma substring_satisfied_wwid_is_attached :
  (∃ disk, disk ∈ omap as_rdm (hardware_device PrefixLuns.vm) ∧
           wwid_in_uuid disk PrefixLuns.wwid_a = true) ∧
  count_presented (rdm_disk PrefixLuns.params)
    (omap as_rdm (hardware_device PrefixLuns.vm)) = 1 ∧
  submitted (run PrefixLuns.params ReconfigVM_ideal PrefixLuns.vm).2
  = [[create_rdm_disk 1000 (lun_of_wwid PrefixLuns.wwid_a) "ds1"
        "[ds1] vm/vm_RDMa1.vmdk" 1]].
Proof.
  split_and!.
  - destruct (omap as_rdm (hardware_device PrefixLuns.vm)) as [|disk l] eqn:Hl;
      [discriminate|].
    exists disk. split; [by left|].
    injection Hl as <- _. vm_compute; reflexivity.
  - vm_compute; reflexivity.
  - vm_compute; reflexivity.
Qed.

(** ** What the added devices look like *)

Lemma with_devices_id vm : with_devices vm (hardware_device vm) = vm.
Proof. by destruct vm. Qed.

Lemma realizes_controllers t (buses : list Z) added :
  Forall2 realizes (create_scsi_controller_bus t <$> buses) added →
  Forall (λ d, dev_class d = ScsiControllerDevice (scsi_class_of t) ∧ backing d = None) added ∧
  ∀ b, b ∈ buses → ∃ d, d ∈ added ∧ is_scsi_controller d = true ∧ busNumber d = b.
Proof.
  revert added. induction buses as [|b buses IH]; intros added.
  - intros ->%Forall2_nil_inv_l. split; [constructor|]. intros b Hb. by apply elem_of_nil in Hb.
  - rewrite fmap_cons. intros (d & added' & Hd & Hrest & ->)%Forall2_cons_inv_l.
    destruct (IH _ Hrest) as [Hall Hex].
    unfold realizes in Hd. simpl in Hd. destruct Hd as (Hc & Hb & Hn).
    split; [by constructor|].
    intros b' [->|Hb']%elem_of_cons.
    + exists d. split; [by left|]. unfold is_scsi_controller. by rewrite Hc.
    + destruct (Hex b' Hb') as (d' & Hd' & ?). exists d'. split; [by right|done].
Qed.

Lemma omap_as_rdm_no_backing (devs : list VirtualDevice) :
  Forall (λ d, backing d = None) devs → omap as_rdm devs = [].
Proof.
  induction 1 as [|d devs Hd _ IH]; [done|]. simpl. unfold as_rdm at 1. by rewrite Hd.
Qed.

(** The disks that realize attach specs: no controllers, one raw-mapped disk
    per spec, in the order of the specs. *)
Lemma realizes_disks specs added :
  Forall (λ spec, ∃ scsi_key lun vm_ds rdm_file bus_n,
            spec = create_rdm_disk scsi_key lun vm_ds rdm_file bus_n) specs →
  Forall2 realizes specs added →
  Forall (λ d, is_scsi_controller d = false) added ∧
  Forall2 spec_disk specs (omap as_rdm added).
Proof.
  intros Hspecs. revert added. induction Hspecs as [|spec specs Hs _ IH]; intros added.
  - intros ->%Forall2_nil_inv_l. split; constructor.
  - intros (d & added' & Hd & Hrest & ->)%Forall2_cons_inv_l.
    destruct (IH _ Hrest) as [Hno Hdisk].
    destruct Hs as (k & lun & ds & f & u & ->).
    unfold realizes in Hd. simpl in Hd. destruct Hd as (Hc & Hck & Hu & Hb).
    split; [by constructor|].
    simpl. unfold as_rdm at 1. rewrite Hb. constructor; [|done].
    unfold spec_disk. simpl. done.
Qed.

Lemma count_presented_app requested l1 l2 :
  count_presented requested (l1 ++ l2)
  = count_presented requested l1 + count_presented requested l2.
Proof. unfold count_presented. rewrite filter_app, length_app. lia. Qed.

Lemma count_presented_all requested (l : list RdmDisk) :
  (∀ rdm, rdm ∈ l → existsb (wwid_in_uuid rdm) requested = true) →
  count_presented requested l = Z.of_nat (length l).
Proof.
  intros Hall. induction l as [|rdm l IH]; [done|].
  rewrite count_presented_cons, Hall by left.
  rewrite IH by (intros; apply Hall; by right). simpl length. lia.
Qed.

Lemma place_disks_app ks du l1 l2 du1 :
  place_disks ks du l1 = Some du1 →
  place_disks ks du (l1 ++ l2) = place_disks ks du1 l2.
Proof.
  revert du. induction l1 as [|d l1 IH]; intros du; simpl.
  - by intros [= ->].
  - destruct (ks !! _) as [b|]; [|done]. destruct (du !! b) as [u|]; [|done]. apply IH.
Qed.

Lemma get_rdm_info_raises p rdms s :
  place_disks (ctl_key_slot s) (reserve_units (ctl_units s) (disk_units s)) rdms = None →
  (get_rdm_info p rdms s).1 = Raise KeyError.
Proof.
  intros Hplace. unfold get_rdm_info. rewrite bind_run. cbn [get].
  rewrite bind_run, for_each_modify.
  rewrite reserve_loop. fold (reserve_units (ctl_units s) (disk_units s)).
  rewrite bind_run.
  change (for_fold rdms 0 _) with (for_fold rdms 0 (place_body p)).
  edestruct (place_loop_raises p rdms 0) as (du' & ->); [exact Hplace|]. done.
Qed.

Lemma wrong_type_none p t (m : gmap Z string) :
  existsb (wrong_type p t) (map_to_list m) = false ↔
  ∀ b name, m !! b = Some name → b ∈ rdm_controller_bus p →
            PyStr.find name (scsi_type_str t) ≠ -1.
Proof.
  split.
  - intros Hex b name Hb Hin Hfind.
    assert (existsb (wrong_type p t) (map_to_list m) = true); [|congruence].
    apply existsb_exists. exists (b, name). split.
    + apply list_elem_of_In. by apply elem_of_map_to_list.
    + unfold wrong_type. simpl. rewrite bool_decide_true by done. by rewrite Hfind.
  - intros Hall. destruct (existsb _ _) eqn:Hex; [|done].
    apply existsb_exists in Hex as ([b name] & Hin & Hw).
    apply list_elem_of_In, elem_of_map_to_list in Hin.
    unfold wrong_type in Hw. simpl in Hw.
    apply andb_true_iff in Hw as [Hb Hf]. apply bool_decide_eq_true in Hb.
    apply Z.eqb_eq in Hf. by destruct (Hall b name).
Qed.

(** ** The first run, taken apart *)

Section FirstRun.
Variable p : Params.
Variable R : VirtualMachine → list VirtualDeviceSpec → TaskEnd * VirtualMachine.
Variable vm : VirtualMachine.
Hypothesis Hfaithful : faithful_additions R.

Lemma missing_ctls_complete b :
  b ∈ rdm_controller_bus p →
  units_of (hardware_device vm) ∅ !! b = None →
  b ∈ missing_ctls p (set_configspec [] (inventory_state p vm)).
Proof.
  intros Hb Hnone. destruct (inventory_state_fields p vm) as (_ & _ & _ & Hvm & _ & _ & _ & Hu & _).
  unfold missing_ctls. apply list_elem_of_filter. split; [|done].
  cbn [ctl_units current_vm_obj set_configspec]. rewrite Hu, Hvm.
  split; [done|]. by apply get_vm_ctl_n_None.
Qed.

Lemma type_test_after_creation added :
  existsb (wrong_type p (rdm_controller_type p))
    (map_to_list (units_of (hardware_device vm) ∅)) = false →
  Forall (λ d, dev_class d = ScsiControllerDevice (scsi_class_of (rdm_controller_type p))
               ∧ backing d = None) added →
  ∀ b name, units_of (hardware_device vm ++ added) ∅ !! b = Some name →
            b ∈ rdm_controller_bus p →
            PyStr.find name (scsi_type_str (rdm_controller_type p)) ≠ -1.
Proof.
  intros Hwrong Hadded b name Hname Hb.
  rewrite units_of_app in Hname.
  apply units_of_lookup in Hname as [(d & c & Hd & Hc & _ & ->)|Hname].
  - rewrite Forall_forall in Hadded. destruct (Hadded d Hd) as [Hc' _].
    rewrite Hc' in Hc. injection Hc as <-.
    intros Hfind. apply wrong_type_table in Hfind as [Hne _]. done.
  - by eapply wrong_type_none.
Qed.

Lemma controllers_ensured change_applied s_c :
  ensure_controllers p R (inventory_state p vm) = (Ok (inr change_applied), s_c) →
  ∃ added, controllers_in_place p vm added s_c ∧ change_detected s_c = change_applied.
Proof.
  rewrite ensure_controllers_run. cbv zeta.
  destruct (inventory_state_fields p vm)
    as (Hsub & Hcs & Hcd & Hvm & Hdu & Hsk & Hks & Hu & Hmax).
  rewrite Hu.
  destruct (existsb _ _) eqn:Hwrong; [done|].
  set (missing := missing_ctls p (set_configspec [] (inventory_state p vm))).
  set (specs := create_scsi_controller_bus (rdm_controller_type p) <$> missing).
  assert (Hcd2 : change_detected (append_specs specs (set_configspec [] (inventory_state p vm)))
                 = bool_decide (specs ≠ [])).
  { simpl. by rewrite Hcd. }
  rewrite Hcd2. case_bool_decide as Hspecs.
  - (* controllers were built and applied *)
    cbn [current_vm_obj configspec append_specs set_configspec set_change_detected app].
    rewrite Hvm.
    set (task := R vm specs).
    intros Hrun.
    assert (Hdone : taken_as_done task.1 = true ∧ change_applied = true ∧
              s_c = set_ctls (slot_key_of (hardware_device task.2) (slot_key_of (hardware_device vm) ∅))
                             (key_slot_of (hardware_device task.2) (key_slot_of (hardware_device vm) ∅))
                             (units_of (hardware_device task.2) (units_of (hardware_device vm) ∅))
                             (set_vm_submitted task.2
                                (submitted (inventory_state p vm) ++ [specs])
                                (append_specs specs (set_configspec [] (inventory_state p vm))))).
    { revert Hrun. cbn [ctl_slot_key ctl_key_slot ctl_units submitted set_vm_submitted
                         append_specs set_configspec set_change_detected].
      rewrite Hsk, Hks, Hu.
      destruct task.1 as [m|n|m|]; try done.
      - destruct m; [|done]. by intros [= <- <-].
      - by intros [= <- <-]. }
    destruct Hdone as (Hdone & -> & ->).
    destruct (Hfaithful vm specs Hdone) as (added & Hvm' & Hreal).
    { unfold specs. apply Forall_fmap, Forall_forall. by intros b _. }
    fold task in Hvm'.
    apply realizes_controllers in Hreal as [Hadded Hserved].
    exists added. split; [|done].
    unfold controllers_in_place. cbv zeta.
    cbn [current_vm_obj ctl_slot_key ctl_key_slot ctl_units disk_units ctl_max
           set_ctls set_vm_submitted append_specs set_configspec set_change_detected].
    rewrite Hvm'. cbn [hardware_device with_devices].
    rewrite slot_key_of_again, key_slot_of_again, units_of_again.
    split_and!; try done.
    intros b Hb. apply units_of_is_Some.
    destruct (units_of (hardware_device vm) ∅ !! b) as [n|] eqn:Hbus.
    + assert (is_Some (units_of (hardware_device vm) ∅ !! b)) as Hs by by eexists.
      apply units_of_is_Some in Hs as [(d & Hd & ?)|[? ?]]; [|done].
      left. exists d. split; [apply elem_of_app; by left|done].
    + destruct (Hserved b) as (d & Hd & ?); [by apply missing_ctls_complete|].
      left. exists d. split; [apply elem_of_app; by right|done].
    + by apply type_test_after_creation.
  - (* nothing to build *)
    assert (Hnil : specs = []) by (by destruct specs; [|destruct Hspecs]).
    rewrite Hnil, append_specs_nil. intros [= <- <-].
    exists []. split; [|by simpl].
    unfold controllers_in_place. cbv zeta.
    cbn [current_vm_obj ctl_slot_key ctl_key_slot ctl_units disk_units ctl_max set_configspec].
    rewrite app_nil_r, with_devices_id.
    split_and!; try done.
    + intros b Hb.
      destruct (units_of (hardware_device vm) ∅ !! b) as [n|] eqn:Hbus; [by eexists|].
      pose proof (missing_ctls_complete b Hb Hbus) as Hin.
      fold missing in Hin. unfold specs in Hnil.
      apply fmap_nil_inv in Hnil. rewrite Hnil in Hin. by apply elem_of_nil in Hin.
    + intros b name Hname Hb. by eapply wrong_type_none.
Qed.

End FirstRun.

Lemma ensure_controllers_early p R s early s' :
  ensure_controllers p R s = (Ok (inl early), s') → failed early = true.
Proof.
  rewrite ensure_controllers_run. cbv zeta.
  destruct (existsb _ _); [done|].
  destruct (change_detected _); [|done].
  destruct (R _ _).1 as [m|n|m|]; try done.
  destruct m; [done|]. by intros [= <- _].
Qed.

Lemma spec_disk_requested (Q : string → ScsiLun → Prop) specs new :
  Forall2 spec_disk specs new →
  Forall (λ spec, ∃ w lun scsi_key vm_ds rdm_file bus_n,
            Q w lun ∧ spec = create_rdm_disk scsi_key lun vm_ds rdm_file bus_n) specs →
  ∀ rdm, rdm ∈ new → ∃ w lun, Q w lun ∧ lunUuid (rdm_backing rdm) = uuid lun.
Proof.
  induction 1 as [|spec rdm' specs' new Hsd _ IH]; intros Hspecs rdm Hin;
    [by apply elem_of_nil in Hin|].
  apply Forall_cons in Hspecs as [(w & lun & k & ds & f & u & HQ & ->) Hspecs].
  apply elem_of_cons in Hin as [->|Hin]; [|by apply IH].
  exists w, lun. split; [done|].
  unfold spec_disk in Hsd. simpl in Hsd. destruct Hsd as (_ & _ & ->). done.
Qed.

Lemma spec_disk_mapped specs new scsi_key lun vm_ds rdm_file bus_n :
  Forall2 spec_disk specs new →
  create_rdm_disk scsi_key lun vm_ds rdm_file bus_n ∈ specs →
  ∃ rdm, rdm ∈ new ∧ lunUuid (rdm_backing rdm) = uuid lun.
Proof.
  induction 1 as [|spec rdm specs' new Hsd _ IH]; intros Hin;
    [by apply elem_of_nil in Hin|].
  apply elem_of_cons in Hin as [<-|Hin].
  - exists rdm. split; [by left|].
    unfold spec_disk in Hsd. simpl in Hsd. destruct Hsd as (_ & _ & ->). done.
  - destruct (IH Hin) as (rdm' & ? & ?). exists rdm'. split; [by right|done].
Qed.

Section SecondRun.
Variable p : Params.
Variable R : VirtualMachine → list VirtualDeviceSpec → TaskEnd * VirtualMachine.
Variable vm : VirtualMachine.
Variables (added_ctls added_disks : list VirtualDevice).
Variables (h : HostSystem) (hs : list HostSystem) (ds : string) (dss : list string).
Variables (duA du1 : gmap Z (gset Z)) (specs : list VirtualDeviceSpec).

Let devs := hardware_device vm ++ added_ctls.
Let rdms0 := omap as_rdm (hardware_device vm).
Let vm1 := with_devices vm (devs ++ added_disks).
Let cap := ctl_max (inventory_state p vm).

Hypothesis Hpresent : state p = present.
Hypothesis Hadded :
  Forall (λ d, dev_class d = ScsiControllerDevice (scsi_class_of (rdm_controller_type p))
               ∧ backing d = None) added_ctls.
Hypothesis Hserved : ∀ b, b ∈ rdm_controller_bus p → is_Some (units_of devs ∅ !! b).
Hypothesis Htypes :
  ∀ b name, units_of devs ∅ !! b = Some name → b ∈ rdm_controller_bus p →
            PyStr.find name (scsi_type_str (rdm_controller_type p)) ≠ -1.
Hypothesis Hhost : host_view vm = Some (h :: hs).
Hypothesis Hds : vm_datastore vm = ds :: dss.
Hypothesis Hplace :
  place_disks (key_slot_of devs ∅) (reserve_units (units_of devs ∅) ∅) rdms0 = Some duA.
Hypothesis Hroom :
  ¬ (all_disk p rdms0 > cap * Z.of_nat (length (rdm_controller_bus p))).
Hypothesis Hplan :
  attach_plan p (scsiLun h) rdms0 ds (vmPathName vm) (slot_key_of devs ∅) cap duA (rdm_disk p)
  = Ok (specs, du1).
Hypothesis Hreal : Forall2 realizes specs added_disks.
Hypothesis Hembed : uuids_embed_wwids p vm.
Hypothesis Hkeys : controller_keys_distinct vm1.

Lemma added_disks_shape :
  Forall (λ d, is_scsi_controller d = false) added_disks ∧
  Forall2 spec_disk specs (omap as_rdm added_disks).
Proof.
  apply realizes_disks; [|done].
  eapply Forall_impl; [by eapply attach_plan_specs|].
  intros spec (w & lun & k & f & u & _ & _ & ->). by eexists _, _, _, _, _.
Qed.

Lemma second_inventory :
  slot_key_of (hardware_device vm1) ∅ = slot_key_of devs ∅ ∧
  key_slot_of (hardware_device vm1) ∅ = key_slot_of devs ∅ ∧
  units_of (hardware_device vm1) ∅ = units_of devs ∅.
Proof.
  destruct added_disks_shape as [Hno _]. unfold vm1. cbn [hardware_device with_devices].
  rewrite slot_key_of_app, key_slot_of_app, units_of_app.
  by rewrite slot_key_of_no_ctl, key_slot_of_no_ctl, units_of_no_ctl.
Qed.

Lemma second_rdm_disks :
  omap as_rdm (hardware_device vm1) = rdms0 ++ omap as_rdm added_disks.
Proof.
  unfold vm1, devs, rdms0. cbn [hardware_device with_devices].
  rewrite !omap_app. rewrite (omap_as_rdm_no_backing added_ctls), app_nil_r; [done|].
  eapply Forall_impl; [exact Hadded|]. by intros d [_ ?].
Qed.

Lemma second_ctl_max : ctl_max (inventory_state p vm1) = cap.
Proof.
  unfold cap.
  destruct (inventory_state_fields p vm1) as (_ & _ & _ & _ & _ & _ & _ & _ & ->).
  by destruct (inventory_state_fields p vm) as (_ & _ & _ & _ & _ & _ & _ & _ & ->).
Qed.

(** Each disk that the first run added carries the LUN of a requested WWID. *)
Lemma added_disks_requested rdm :
  rdm ∈ omap as_rdm added_disks →
  ∃ w lun, (w ∈ rdm_disk p ∧ find_lun (scsiLun h) w = Some lun) ∧
           lunUuid (rdm_backing rdm) = uuid lun.
Proof.
  destruct added_disks_shape as [_ Hdisk].
  apply (spec_disk_requested _ specs); [done|].
  eapply Forall_impl; [by eapply attach_plan_specs|].
  intros spec (w & lun & k & f & u & Hw & Hlun & ->). by eexists w, lun, k, ds, f, u.
Qed.

Lemma specs_are_mapped spec scsi_key lun vm_ds rdm_file bus_n :
  spec ∈ specs → spec = create_rdm_disk scsi_key lun vm_ds rdm_file bus_n →
  ∃ rdm, rdm ∈ omap as_rdm (hardware_device vm1) ∧ lunUuid (rdm_backing rdm) = uuid lun.
Proof.
  destruct added_disks_shape as [_ Hdisk]. rewrite second_rdm_disks.
  intros Hin ->.
  destruct (spec_disk_mapped _ _ _ _ _ _ _ Hdisk Hin) as (rdm & Hrdm & Heq).
  exists rdm. split; [apply elem_of_app; by right|done].
Qed.

Lemma second_count :
  all_disk p (omap as_rdm (hardware_device vm1)) = all_disk p rdms0.
Proof.
  unfold all_disk. rewrite second_rdm_disks, length_app, count_presented_app.
  rewrite (count_presented_all _ (omap as_rdm added_disks)); [lia|].
  intros rdm (w & lun & [Hw Hlun] & Heq)%added_disks_requested.
  apply wwid_presented_exists. exists w. split; [done|]. rewrite Heq.
  by eapply Hembed.
Qed.

Lemma second_place :
  place_disks (key_slot_of devs ∅) (reserve_units (units_of devs ∅) ∅)
    (omap as_rdm (hardware_device vm1)) = Some du1.
Proof.
  rewrite second_rdm_disks, (place_disks_app _ _ _ _ duA) by done.
  destruct added_disks_shape as [_ Hdisk].
  eapply attach_plan_place; [exact Hplan| |exact Hdisk].
  intros b k _ Hk. apply (key_slot_inverts_slot_key vm1 devs); [done| |done].
  intros d Hd. unfold vm1. cbn [hardware_device with_devices]. apply elem_of_app. by left.
Qed.

Lemma second_run :
  run p R vm1
  = (Ok {| changed := false; failed := false; msg := None; instance := Some vm1 |},
     set_facts (Some vm1)
       (set_disk_units du1 (disks_listed (set_configspec [] (inventory_state p vm1))))).
Proof.
  destruct (inventory_state_fields p vm1)
    as (Hsub & Hcs & Hcd & Hvm & Hdu & Hsk & Hks & Hu & Hmax).
  destruct second_inventory as (Hsk1 & Hks1 & Hu1).
  rewrite Hsk1 in Hsk. rewrite Hks1 in Hks. rewrite Hu1 in Hu.
  rewrite run_inventory, Hpresent, bind_run.
  (* the controller pass finds nothing to do *)
  assert (Hens : ensure_controllers p R (inventory_state p vm1)
                 = (Ok (inr false), set_configspec [] (inventory_state p vm1))).
  { rewrite ensure_controllers_run. cbv zeta. rewrite Hu.
    replace (existsb _ _) with false by (symmetry; by apply wrong_type_none).
    replace (missing_ctls p (set_configspec [] (inventory_state p vm1))) with (@nil Z).
    2:{ symmetry. apply filter_none. intros b Hb [Hnone _].
        cbn [ctl_units set_configspec] in Hnone. rewrite Hu in Hnone.
        destruct (Hserved b Hb) as [? ?]. congruence. }
    rewrite fmap_nil, append_specs_nil. cbn [change_detected set_configspec].
    by rewrite Hcd. }
  rewrite Hens. rewrite configure_disks_run.
  set (s := disks_listed (set_configspec [] (inventory_state p vm1))).
  assert (Hrdms : rdm_disks s = omap as_rdm (hardware_device vm1)).
  { unfold s, disks_listed. cbn [rdm_disks set_rdm_disks current_vm_obj set_configspec].
    by rewrite Hvm. }
  assert (Hs_sk : ctl_slot_key s = slot_key_of devs ∅) by done.
  assert (Hs_ks : ctl_key_slot s = key_slot_of devs ∅) by done.
  assert (Hs_u : ctl_units s = units_of devs ∅) by done.
  assert (Hs_du : disk_units s = ∅) by done.
  assert (Hs_max : ctl_max s = cap).
  { unfold s, disks_listed. cbn [ctl_max set_rdm_disks set_configspec]. apply second_ctl_max. }
  assert (Hs_cd : change_detected s = false) by done.
  assert (Hs_cs : configspec s = []) by done.
  assert (Hs_vm : current_vm_obj s = vm1) by done.
  (* the capacity check sees the same total as in the first run *)
  rewrite bind_run, (get_rdm_info_run p _ s du1).
  2:{ rewrite Hrdms, Hs_ks, Hs_u, Hs_du. apply second_place. }
  rewrite bool_decide_false.
  2:{ rewrite Hrdms, second_count. unfold free_bays. rewrite Hs_max. by intros [? _]. }
  (* every requested LUN is skipped or still finds no room *)
  rewrite bind_run. cbn [current_vm_obj set_configspec]. rewrite Hvm.
  rewrite (configure_present_run p vm1 _ h hs ds dss) by done.
  rewrite (present_loop_ok p _ _ _ _ _ [] du1).
  2:{ cbn [rdm_disks ctl_slot_key ctl_max disk_units set_disk_units].
      rewrite Hrdms, Hs_sk, Hs_max.
      eapply attach_plan_again; [exact Hplan| | |apply occupancy_grows_refl].
      - intros rdm Hrdm. rewrite second_rdm_disks. apply elem_of_app. by left.
      - apply specs_are_mapped. }
  rewrite append_specs_nil.
  rewrite finish_unchanged by done.
  cbn [current_vm_obj set_disk_units]. by rewrite Hs_vm.
Qed.

End SecondRun.

Lemma first_run_summary p R vm r1 :
  state p = present →
  faithful_additions R →
  (run p R vm).1 = Ok r1 → failed r1 = false →
  ∃ added_ctls added_disks h hs ds dss duA du1 specs,
    let devs := hardware_device vm ++ added_ctls in
    let rdms0 := omap as_rdm (hardware_device vm) in
    let cap := ctl_max (inventory_state p vm) in
    Forall (λ d, dev_class d = ScsiControllerDevice (scsi_class_of (rdm_controller_type p))
                 ∧ backing d = None) added_ctls ∧
    (∀ b, b ∈ rdm_controller_bus p → is_Some (units_of devs ∅ !! b)) ∧
    (∀ b name, units_of devs ∅ !! b = Some name → b ∈ rdm_controller_bus p →
               PyStr.find name (scsi_type_str (rdm_controller_type p)) ≠ -1) ∧
    host_view vm = Some (h :: hs) ∧
    vm_datastore vm = ds :: dss ∧
    place_disks (key_slot_of devs ∅) (reserve_units (units_of devs ∅) ∅) rdms0 = Some duA ∧
    ¬ (all_disk p rdms0 > cap * Z.of_nat (length (rdm_controller_bus p))) ∧
    attach_plan p (scsiLun h) rdms0 ds (vmPathName vm) (slot_key_of devs ∅) cap duA (rdm_disk p)
    = Ok (specs, du1) ∧
    Forall2 realizes specs added_disks ∧
    current_vm_obj (run p R vm).2 = with_devices vm (devs ++ added_disks).
Proof.
  intros Hpresent Hfaithful Hrun Hok.
  rewrite run_inventory, Hpresent, bind_run in Hrun |- *.
  destruct (ensure_controllers p R (inventory_state p vm)) as [[[early|ca]|m|e] s_c] eqn:Hens;
    try done.
  { apply ensure_controllers_early in Hens. simpl in Hrun. injection Hrun as <-. congruence. }
  destruct (controllers_ensured p R vm Hfaithful ca s_c Hens)
    as (added_ctls & (Hvm_c & Hadded & Hserved & Htypes & Hsk & Hks & Hu & Hdu & Hmax) & Hcd).
  exists added_ctls.
  set (devs := hardware_device vm ++ added_ctls) in *.
  rewrite configure_disks_run in Hrun |- *.
  set (s := disks_listed s_c) in *.
  assert (Hrdms : rdm_disks s = omap as_rdm (hardware_device vm)).
  { unfold s, disks_listed. cbn [rdm_disks set_rdm_disks]. rewrite Hvm_c.
    cbn [hardware_device with_devices]. unfold devs. rewrite omap_app.
    rewrite (omap_as_rdm_no_backing added_ctls), app_nil_r; [done|].
    eapply Forall_impl; [exact Hadded|]. by intros d [_ ?]. }
  assert (Hs_vm : current_vm_obj s = with_devices vm devs) by done.
  assert (Hs_cd : change_detected s = ca) by done.
  assert (Hs_max : ctl_max s = ctl_max (inventory_state p vm)) by done.
  (* get_rdm_info *)
  destruct (place_disks (ctl_key_slot s) (reserve_units (ctl_units s) (disk_units s))
              (rdm_disks s)) as [duA|] eqn:Hplace.
  2:{ apply (get_rdm_info_raises p) in Hplace. rewrite bind_run in Hrun.
      destruct (get_rdm_info p (rdm_disks s) s) as [o s2]. simpl in Hplace. by subst o. }
  rewrite bind_run, (get_rdm_info_run p _ s duA) in Hrun |- * by done.
  case_bool_decide as Hroom; [done|].
  assert (Hroom' : ¬ (all_disk p (omap as_rdm (hardware_device vm))
                      > ctl_max (inventory_state p vm)
                        * Z.of_nat (length (rdm_controller_bus p)))).
  { intros Hgt. apply Hroom. split; [|done]. rewrite Hrdms. unfold free_bays.
    by rewrite Hs_max. }
  (* configure_rdm_disks *)
  rewrite bind_run in Hrun |- *.
  replace (current_vm_obj s_c) with (with_devices vm devs) in Hrun |- * by done.
  destruct (host_view vm) as [[|h hs]|] eqn:Hhost.
  { unfold configure_rdm_disks, get_host_by_vm in Hrun. cbn [host_view with_devices] in Hrun.
    by rewrite Hhost, bind_run in Hrun. }
  2:{ unfold configure_rdm_disks, get_host_by_vm in Hrun. cbn [host_view with_devices] in Hrun.
      by rewrite Hhost, bind_run in Hrun. }
  destruct (vm_datastore vm) as [|ds dss] eqn:Hds.
  { unfold configure_rdm_disks, get_host_by_vm, get_datastore_by_vm in Hrun.
    cbn [host_view vm_datastore with_devices] in Hrun.
    by rewrite Hhost, Hds, !bind_run in Hrun. }
  rewrite (configure_present_run p _ _ h hs ds dss) in Hrun |- * by done.
  cbn [vmPathName with_devices] in Hrun |- *.
  set (s2 := set_disk_units duA s) in *.
  pose proof (present_loop_fails p (scsiLun h) ds (vmPathName vm) (rdm_disk p) s2) as Hfails.
  destruct (attach_plan p (scsiLun h) (rdm_disks s2) ds (vmPathName vm) (ctl_slot_key s2)
              (ctl_max s2) (disk_units s2) (rdm_disk p)) as [[specs du1]|m|e] eqn:Hplan.
  2:{ destruct (for_each _ _ s2) as [o s3]. simpl in Hfails. by subst o. }
  2:{ destruct (for_each _ _ s2) as [o s3]. simpl in Hfails. by subst o. }
  clear Hfails.
  rewrite (present_loop_ok p _ _ _ _ _ specs du1) in Hrun |- * by exact Hplan.
  pose proof (attach_plan_specs _ _ _ _ _ _ _ _ _ _ _ Hplan) as Hshape.
  (* finish *)
  set (s3 := set_disk_units du1 (append_specs specs s2)) in *.
  assert (Hs3_cs : configspec s3 = specs) by done.
  assert (Hs3_vm : current_vm_obj s3 = with_devices vm devs) by done.
  assert (Hfacts :
    ∃ added_disks, Forall2 realizes specs added_disks ∧
      current_vm_obj (finish R ca s3).2 = with_devices vm (devs ++ added_disks)).
  { destruct (change_detected s3) eqn:Hcd3.
    - rewrite (finish_changed R ca s3 Hcd3) in Hrun |- *. cbv zeta in Hrun |- *.
      rewrite Hs3_cs, Hs3_vm in Hrun |- *.
      set (task := R (with_devices vm devs) specs) in *.
      assert (Hdone : taken_as_done task.1 = true).
      { destruct task.1 as [m|n|m|]; try done. destruct m; [done|].
        cbn [truthy] in Hrun. simpl in Hrun. injection Hrun as <-. done. }
      destruct (Hfaithful (with_devices vm devs) specs Hdone) as (added_disks & Hvm' & Hreal).
      { eapply Forall_impl; [exact Hshape|].
        by intros spec (w & lun & k & f & u & _ & _ & ->). }
      fold task in Hvm'. exists added_disks. split; [done|].
      destruct task.1 as [m|n|m|]; try done.
      destruct m; [|done]. done.
    - rewrite (finish_unchanged R ca s3 Hcd3). exists [].
      assert (Hnil : specs = []).
      { unfold s3 in Hcd3. simpl in Hcd3. apply orb_false_iff in Hcd3 as [_ Hcd3].
        apply bool_decide_eq_false in Hcd3. destruct specs; [done|]. by destruct Hcd3. }
      rewrite Hnil. split; [constructor|]. simpl. by rewrite app_nil_r. }
  destruct Hfacts as (added_disks & Hreal & Hvm1).
  exists added_disks, h, hs, ds, dss, duA, du1, specs. cbv zeta.
  split_and!; try done.
  - rewrite <- Hu, <- Hks, <- Hdu, <- Hrdms. exact Hplace.
  - rewrite <- Hsk, <- Hmax, <- Hrdms. exact Hplan.
Qed.

(** ** C5: a second [present] run *)

(** C5, as the code has it.  Let a [present] run end without failure on a
    vSphere that really adds what it is asked to add, let the [uuid] of every
    requested LUN contain its WWID, and let the controllers of the machine
    left by that run have distinct keys.  Then a second run with the same
    parameters on that machine builds no change at all: its disk change list
    is empty, nothing is handed to vSphere, the machine stays as it is, and
    the result is [changed = False], [failed = False]. *)
Theorem present_is_idempotent (p : Params)
    (R : VirtualMachine → list VirtualDeviceSpec → TaskEnd * VirtualMachine)
    (vm : VirtualMachine) (r1 : Result) :
  state p = present →
  faithful_additions R →
  (run p R vm).1 = Ok r1 →
  failed r1 = false →
  uuids_embed_wwids p vm →
  controller_keys_distinct (current_vm_obj (run p R vm).2) →
  let vm1 := current_vm_obj (run p R vm).2 in
  (run p R vm1).1
  = Ok {| changed := false; failed := false; msg := None; instance := Some vm1 |} ∧
  configspec (run p R vm1).2 = [] ∧
  submitted (run p R vm1).2 = [] ∧
  current_vm_obj (run p R vm1).2 = vm1.
Proof.
  intros Hpresent Hfaithful Hrun Hok Hembed Hkeys vm1.
  destruct (first_run_summary p R vm r1 Hpresent Hfaithful Hrun Hok)
    as (added_ctls & added_disks & h & hs & ds & dss & duA & du1 & specs & Hfacts).
  cbv zeta in Hfacts.
  destruct Hfacts as (Hadded & Hserved & Htypes & Hhost & Hds & Hplace & Hroom & Hplan
                      & Hreal & Hvm1).
  unfold vm1. rewrite Hvm1 in Hkeys |- *.
  rewrite (second_run p R vm added_ctls added_disks h hs ds dss duA du1 specs); try done.
  destruct (inventory_state_fields p
              (with_devices vm ((hardware_device vm ++ added_ctls) ++ added_disks)))
    as (Hsub & _ & _ & Hvm & _).
  simpl. by rewrite Hsub, Hvm.
Qed.

Lemma apply_additions devs changes :
  Forall is_addition changes →
  ∃ added, foldl apply_spec devs changes = devs ++ added ∧ Forall2 realizes changes added.
Proof.
  intros Hall. revert devs. induction Hall as [|spec changes [Hop Hdev] _ IH]; intros devs.
  - exists []. simpl. by rewrite app_nil_r.
  - simpl. unfold apply_spec at 2. rewrite Hop.
    destruct (IH (devs ++ realize spec)) as (added & -> & Hreal).
    unfold realize.
    destruct (device spec) as [cls ? ck u bus ? ? ?|k ck u b|] eqn:Hd; [| |done].
    + eexists (_ :: added). rewrite <- app_assoc. split; [reflexivity|].
      constructor; [|done]. unfold realizes. rewrite Hd. simpl. done.
    + eexists (_ :: added). rewrite <- app_assoc. split; [reflexivity|].
      constructor; [|done]. unfold realizes. rewrite Hd. simpl. done.
Qed.

Lemma ReconfigVM_ideal_faithful : faithful_additions ReconfigVM_ideal.
Proof.
  intros vm changes _ Hall. unfold ReconfigVM_ideal. simpl.
  destruct (apply_additions (hardware_device vm) changes Hall) as (added & -> & Hreal).
  by exists added.
Qed.

Lemma keys_distinct_b_sound vm :
  keys_distinct_b (hardware_device vm) = true → controller_keys_distinct vm.
Proof.
  unfold keys_distinct_b. rewrite forallb_forall.
  intros Hall c1 c2 H1 H2 Hs1 Hs2 Hk.
  specialize (Hall c1 (proj1 (list_elem_of_In _ _) H1)).
  rewrite forallb_forall in Hall.
  specialize (Hall c2 (proj1 (list_elem_of_In _ _) H2)).
  rewrite Hs1, Hs2, Hk, Z.eqb_refl in Hall. simpl in Hall. by apply Z.eqb_eq.
Qed.

Lemma uuids_embed_b_sound p vm : uuids_embed_b p vm = true → uuids_embed_wwids p vm.
Proof.
  unfold uuids_embed_b. intros Hall h hs w lun Hhost Hw Hlun.
  rewrite Hhost, forallb_forall in Hall.
  specialize (Hall w (proj1 (list_elem_of_In _ _) Hw)).
  rewrite Hlun in Hall. lia.
Qed.

Lemma present_is_idempotent_witness :
  (run ScenarioA.params ReconfigVM_ideal ScenarioA.vm).1
  = Ok {| changed := true; failed := false; msg := None;
          instance := Some ScenarioA.vm_after |} ∧
  (run ScenarioA.params ReconfigVM_ideal ScenarioA.vm_after).1
  = Ok {| changed := false; failed := false; msg := None;
          instance := Some ScenarioA.vm_after |} ∧
  configspec (run ScenarioA.params ReconfigVM_ideal ScenarioA.vm_after).2 = [] ∧
  submitted (run ScenarioA.params ReconfigVM_ideal ScenarioA.vm_after).2 = [] ∧
  current_vm_obj (run ScenarioA.params ReconfigVM_ideal ScenarioA.vm_after).2
  = ScenarioA.vm_after.
Proof.
  split; [vm_compute; reflexivity|].
  apply (present_is_idempotent ScenarioA.params ReconfigVM_ideal ScenarioA.vm
           {| changed := true; failed := false; msg := None;
              instance := Some ScenarioA.vm_after |}).
  - reflexivity.
  - exact ReconfigVM_ideal_faithful.
  - vm_compute; reflexivity.
  - reflexivity.
  - apply uuids_embed_b_sound. vm_compute; reflexivity.
  - apply keys_distinct_b_sound. vm_compute; reflexivity.
Defined.

(** C5 as the spec words it fails.  The first run maps eight LUNs on the one
    allowed bus and ends well.  In the second run the capacity check finds
    none of the eight WWIDs in the LUN identifiers of the eight disks, counts
    eight disks and eight new ones against fifteen units, and fails. *)
Lemma second_present_run_fails :
  (run ForeignUuids.params ReconfigVM_ideal ForeignUuids.vm).1
  = Ok {| changed := true; failed := false; msg := None;
          instance := Some ForeignUuids.vm_after |} ∧
  length (omap as_rdm (hardware_device ForeignUuids.vm_after)) = 8%nat ∧
  (run ForeignUuids.params ReconfigVM_ideal ForeignUuids.vm_after).1
  = FailJson (msg_disk_number 16 15).
Proof. split_and!; vm_compute; reflexivity. Qed.

(** ** More about the inventory of controllers *)

Lemma slot_key_of_other devs (m : gmap Z Z) b :
  (∀ d, d ∈ devs → is_scsi_controller d = true → busNumber d ≠ b) →
  slot_key_of devs m !! b = m !! b.
Proof.
  revert m. induction devs as [|d devs IH]; intros m Hno; [done|].
  rewrite slot_key_of_cons.
  destruct (is_scsi_controller d) eqn:Hd.
  - rewrite IH by (intros d' Hd'; apply Hno; by right).
    apply lookup_insert_ne. apply Hno; [by left|done].
  - apply IH. intros d' Hd'. apply Hno. by right.
Qed.

Lemma key_slot_of_other devs (m : gmap Z Z) k :
  (∀ d, d ∈ devs → is_scsi_controller d = true → key d ≠ k) →
  key_slot_of devs m !! k = m !! k.
Proof.
  revert m. induction devs as [|d devs IH]; intros m Hno; [done|].
  rewrite key_slot_of_cons.
  destruct (is_scsi_controller d) eqn:Hd.
  - rewrite IH by (intros d' Hd'; apply Hno; by right).
    apply lookup_insert_ne. apply Hno; [by left|done].
  - apply IH. intros d' Hd'. apply Hno. by right.
Qed.

Lemma units_of_other devs (m : gmap Z string) b :
  (∀ d, d ∈ devs → is_scsi_controller d = true → busNumber d ≠ b) →
  units_of devs m !! b = m !! b.
Proof.
  revert m. induction devs as [|d devs IH]; intros m Hno; [done|].
  rewrite units_of_cons.
  destruct (dev_class d) as [c| |] eqn:Hd.
  - rewrite IH by (intros d' Hd'; apply Hno; by right).
    apply lookup_insert_ne. apply Hno; [by left|]. unfold is_scsi_controller. by rewrite Hd.
  - apply IH. intros d' Hd'. apply Hno. by right.
  - apply IH. intros d' Hd'. apply Hno. by right.
Qed.

(** The entry of a bus comes from the last controller on it. *)
Lemma units_of_last devs b n :
  units_of devs ∅ !! b = Some n →
  ∃ pre d post c,
    devs = pre ++ d :: post ∧ dev_class d = ScsiControllerDevice c ∧ busNumber d = b ∧
    (∀ d', d' ∈ post → is_scsi_controller d' = true → busNumber d' ≠ b) ∧
    n = ctl_unit_name c.
Proof.
  induction devs as [|x devs IH] using rev_ind; [done|].
  rewrite units_of_app. intros Hn.
  destruct (decide (is_scsi_controller x = true ∧ busNumber x = b)) as [[Hx Hb]|Hx].
  - unfold is_scsi_controller in Hx. destruct (dev_class x) as [c| |] eqn:Hc; try done.
    exists devs, x, [], c. split_and!; try done.
    + intros d' Hd'. by apply elem_of_nil in Hd'.
    + rewrite units_of_cons, Hc, Hb in Hn. cbn in Hn.
      rewrite lookup_insert_eq in Hn. by injection Hn.
  - rewrite units_of_other in Hn.
    2:{ intros d' ->%list_elem_of_singleton Hs Hb. by apply Hx. }
    destruct (IH Hn) as (pre & d & post & c & -> & Hc & Hb & Hpost & ->).
    exists pre, d, (post ++ [x]), c. split_and!; try done.
    + by rewrite <- app_assoc.
    + intros d' [Hd'| ->%list_elem_of_singleton]%elem_of_app Hs Hb'; [by eapply Hpost|].
      by apply Hx.
Qed.

(** X1.  [vm_get_ctls] records the last SCSI controller of each bus: for a
    controller that no later device of the list shares its bus with, the
    helper afterwards holds its [key] in [ctl_slot_key] and its lower-cased
    class name in [ctl_units].  The entries of a bus on which the machine has
    no SCSI controller stay as they were (the dictionaries are never
    cleared). *)
Theorem vm_get_ctls_last_controller_wins (vm : VirtualMachine) (s : Self)
    (pre post : list VirtualDevice) (d : VirtualDevice) (c : ScsiClass) :
  hardware_device vm = pre ++ d :: post →
  dev_class d = ScsiControllerDevice c →
  (∀ d', d' ∈ post → is_scsi_controller d' = true → busNumber d' ≠ busNumber d) →
  let s' := (vm_get_ctls vm s).2 in
  ctl_slot_key s' !! busNumber d = Some (key d) ∧
  ctl_units s' !! busNumber d = Some (ctl_unit_name c) ∧
  (∀ b, (∀ d', d' ∈ hardware_device vm → is_scsi_controller d' = true → busNumber d' ≠ b) →
        ctl_slot_key s' !! b = ctl_slot_key s !! b ∧ ctl_units s' !! b = ctl_units s !! b).
Proof.
  intros Hdevs Hc Hpost s'. unfold s'. rewrite vm_get_ctls_run.
  cbn [snd ctl_slot_key ctl_units set_ctls]. rewrite Hdevs.
  split_and!.
  - rewrite slot_key_of_app, slot_key_of_cons.
    replace (is_scsi_controller d) with true by (unfold is_scsi_controller; by rewrite Hc).
    rewrite (slot_key_of_other post _ _ Hpost). apply lookup_insert_eq.
  - rewrite units_of_app, units_of_cons, Hc.
    rewrite (units_of_other post _ _ Hpost). apply lookup_insert_eq.
  - intros b Hb.
    by rewrite (slot_key_of_other _ _ _ Hb), (units_of_other _ _ _ Hb).
Qed.

Lemma vm_get_ctls_last_controller_wins_witness :
  let s' := (vm_get_ctls TwoOnBusOne.vm (new_self TwoOnBusOne.vm)).2 in
  ctl_slot_key s' !! 1 = Some 1007 ∧
  ctl_units s' !! 1 = Some "paravirtualscsicontroller" ∧
  ctl_slot_key s' !! 2 = None.
Proof.
  pose proof (vm_get_ctls_last_controller_wins TwoOnBusOne.vm
                (new_self TwoOnBusOne.vm)
                [TwoOnBusOne.buslogic] []
                TwoOnBusOne.paravirtual ParaVirtualSCSIController) as H.
  destruct H as (H1 & H2 & H3).
  - reflexivity.
  - reflexivity.
  - intros d' Hd'. by apply elem_of_nil in Hd'.
  - split; [exact H1|]. split; [exact H2|].
    destruct (H3 2) as [H _]; [|exact H].
    intros d' Hd' _. simpl in Hd'.
    repeat (apply elem_of_cons in Hd' as [->|Hd']); try discriminate.
    by apply elem_of_nil in Hd'.
Defined.

Lemma slot_key_of_is_Some devs (m : gmap Z Z) b :
  (∃ d, d ∈ devs ∧ is_scsi_controller d = true ∧ busNumber d = b) →
  is_Some (slot_key_of devs m !! b).
Proof.
  induction devs as [|x devs IH] using rev_ind; intros (d & Hd & Hs & Hb).
  { by apply elem_of_nil in Hd. }
  rewrite slot_key_of_app, slot_key_of_cons.
  destruct (is_scsi_controller x) eqn:Hx; cbn.
  - destruct (decide (busNumber x = b)) as [<-|Hne].
    + rewrite lookup_insert_eq. by eexists.
    + rewrite lookup_insert_ne by done. apply IH.
      apply elem_of_app in Hd as [Hd| ->%list_elem_of_singleton]; [by exists d|done].
  - apply IH. apply elem_of_app in Hd as [Hd| ->%list_elem_of_singleton]; [by exists d|].
    congruence.
Qed.

Lemma slot_key_inverts_key_slot devs b k :
  (∀ c1 c2, c1 ∈ devs → c2 ∈ devs →
            is_scsi_controller c1 = true → is_scsi_controller c2 = true →
            busNumber c1 = busNumber c2 → key c1 = key c2) →
  key_slot_of devs ∅ !! k = Some b →
  slot_key_of devs ∅ !! b = Some k.
Proof.
  intros Hdist Hk.
  apply key_slot_of_lookup in Hk as [(d & Hd & Hs & Hkey & Hb)|Hk]; [|done].
  destruct (slot_key_of_is_Some devs ∅ b) as [k' Hk']; [by exists d|].
  rewrite Hk'. f_equal.
  apply slot_key_of_lookup in Hk' as [(d2 & Hd2 & Hs2 & Hb2 & <-)|Hk']; [|done].
  rewrite <- Hkey. apply Hdist; try done. congruence.
Qed.

(** X2.  After [vm_get_ctls] on a fresh helper, [ctl_key_slot] inverts
    [ctl_slot_key] when two SCSI controllers with the same key sit on the same
    bus, and [ctl_slot_key] inverts [ctl_key_slot] when two SCSI controllers
    on the same bus have the same key. *)
Theorem ctl_maps_round_trip (vm : VirtualMachine) (b k : Z) :
  let s := (vm_get_ctls vm (new_self vm)).2 in
  (controller_keys_distinct vm →
   ctl_slot_key s !! b = Some k → ctl_key_slot s !! k = Some b) ∧
  ((∀ c1 c2, c1 ∈ hardware_device vm → c2 ∈ hardware_device vm →
             is_scsi_controller c1 = true → is_scsi_controller c2 = true →
             busNumber c1 = busNumber c2 → key c1 = key c2) →
   ctl_key_slot s !! k = Some b → ctl_slot_key s !! b = Some k).
Proof.
  intros s. unfold s. rewrite vm_get_ctls_run.
  cbn [snd ctl_slot_key ctl_key_slot set_ctls new_self]. split.
  - intros Hkeys Hb. by apply (key_slot_inverts_slot_key vm).
  - intros Hbuses Hk. by apply slot_key_inverts_key_slot.
Qed.

Lemma ctl_maps_round_trip_witness :
  ctl_slot_key (vm_get_ctls ScenarioC.vm (new_self ScenarioC.vm)).2 !! 3 = Some 1003 ∧
  ctl_key_slot (vm_get_ctls ScenarioC.vm (new_self ScenarioC.vm)).2 !! 1003 = Some 3.
Proof.
  split; [vm_compute; reflexivity|].
  apply (proj1 (ctl_maps_round_trip ScenarioC.vm 3 1003)).
  - apply keys_distinct_b_sound. vm_compute; reflexivity.
  - vm_compute; reflexivity.
Defined.

(** ** When the type guard fires *)

Lemma finish_no_type_failure R change_applied s :
  (finish R change_applied s).1 ≠ FailJson msg_wrong_controller_type.
Proof.
  destruct (change_detected s) eqn:Hcd.
  - rewrite (finish_changed R change_applied s Hcd). cbv zeta.
    destruct (R _ _).1 as [m|n|m|]; try done. by destruct (truthy (Some m)).
  - by rewrite (finish_unchanged R change_applied s Hcd).
Qed.

Lemma configure_disks_no_type_failure p R change_applied s :
  (configure_disks p R change_applied s).1 ≠ FailJson msg_wrong_controller_type.
Proof.
  rewrite configure_disks_run, bind_run.
  set (s1 := disks_listed s).
  destruct (get_rdm_info_frame p (rdm_disks s1) s1) as (du' & _ & Hout).
  destruct (get_rdm_info p (rdm_disks s1) s1) as [[[]|m|e] s2]; simpl in Hout.
  - rewrite bind_run.
    assert (Hc : (configure_rdm_disks p (current_vm_obj s) s2).1
                 ≠ FailJson msg_wrong_controller_type).
    { destruct (state p) eqn:Hst.
      - by destruct (configure_present_frame p (current_vm_obj s) s2 Hst)
          as (? & ? & _ & _ & _ & _ & ?).
      - by destruct (configure_absent_frame p (current_vm_obj s) s2 Hst) as (? & _ & _ & ?). }
    destruct (configure_rdm_disks p _ s2) as [[[]|m|e] s3]; simpl in Hc |- *; try done.
    + apply finish_no_type_failure.
    + intros [= ->]. by apply Hc.
  - simpl. destruct Hout as [?|[?|(Hm & _)]]; try done. injection Hm as ->. done.
  - done.
Qed.

(** X3.  A run ends in the wrong-controller-type failure exactly when [state]
    is [present] and the last SCSI controller on some bus of
    [rdm_controller_bus] is of another class than the requested type stands
    for, an LSI Logic SAS controller with [lsilogic] requested excepted. *)
Theorem type_guard_fires_exactly (p : Params)
    (R : VirtualMachine → list VirtualDeviceSpec → TaskEnd * VirtualMachine)
    (vm : VirtualMachine) :
  (run p R vm).1 = FailJson msg_wrong_controller_type ↔
  state p = present ∧
  ∃ pre d post c,
    hardware_device vm = pre ++ d :: post ∧
    dev_class d = ScsiControllerDevice c ∧
    busNumber d ∈ rdm_controller_bus p ∧
    (∀ d', d' ∈ post → is_scsi_controller d' = true → busNumber d' ≠ busNumber d) ∧
    c ≠ scsi_class_of (rdm_controller_type p) ∧
    ¬ (c = VirtualLsiLogicSASController ∧ rdm_controller_type p = lsilogic).
Proof.
  destruct (inventory_state_fields p vm) as (Hsub & _ & _ & Hvm & _ & _ & _ & Hu & _).
  split.
  - intros Hrun. destruct (state p) eqn:Hst.
    + split; [done|].
      rewrite run_inventory, Hst, bind_run, ensure_controllers_run in Hrun. cbv zeta in Hrun.
      destruct (existsb _ _) eqn:Hwrong.
      * apply existsb_exists in Hwrong as ([b name] & Hin & Hw).
        apply list_elem_of_In, elem_of_map_to_list in Hin. rewrite Hu in Hin.
        unfold wrong_type in Hw. apply andb_prop in Hw as [Hb Hfind]. simpl in Hb, Hfind.
        apply bool_decide_eq_true in Hb. apply Z.eqb_eq in Hfind.
        apply units_of_last in Hin as (pre & d & post & c & Hdevs & Hc & Hbus & Hpost & ->).
        apply wrong_type_table in Hfind as [Hne Hsas].
        exists pre, d, post, c. subst b. by split_and!.
      * exfalso. revert Hrun.
        destruct (change_detected _).
        -- destruct (R _ _).1 as [m|n|m|]; try done.
           ++ destruct (truthy (Some m)); [done|]. apply configure_disks_no_type_failure.
           ++ apply configure_disks_no_type_failure.
        -- apply configure_disks_no_type_failure.
    + exfalso. by destruct (run_absent_post p R vm Hst) as (_ & _ & ?).
  - intros (Hst & pre & d & post & c & Hdevs & Hc & Hbus & Hpost & Hne & Hsas).
    rewrite run_inventory, Hst, bind_run.
    unfold ensure_controllers. rewrite bind_run. cbn [modify]. rewrite bind_run.
    rewrite (ctl_check_types_fails p _ _ (busNumber d) (ctl_unit_name c)); [done| |done|].
    + cbn [ctl_units set_configspec]. rewrite Hu, Hdevs.
      rewrite units_of_app, units_of_cons, Hc, (units_of_other post _ _ Hpost).
      apply lookup_insert_eq.
    + by apply wrong_type_table.
Qed.

Lemma type_guard_fires_exactly_witness :
  (run MixedControllers.present_paravirtual_1 ReconfigVM_ideal MixedControllers.vm).1
  = FailJson msg_wrong_controller_type.
Proof.
  apply (proj2 (type_guard_fires_exactly MixedControllers.present_paravirtual_1
                  ReconfigVM_ideal MixedControllers.vm)).
  split; [reflexivity|].
  exists [], MixedControllers.buslogic_on_1, [MixedControllers.sas_on_2],
    VirtualBusLogicController.
  split_and!; try done.
  - by left.
  - intros d' ->%list_elem_of_singleton _. discriminate.
  - intros [? _]. discriminate.
Defined.

(** ** Disks that [get_rdm_info] cannot place *)

Lemma place_disks_unknown ks du rdms rdm :
  rdm ∈ rdms → ks !! controllerKey (rdm_device rdm) = None →
  place_disks ks du rdms = None.
Proof.
  intros Hin Hnone. revert du.
  induction rdms as [|x rdms IH]; intros du; [by apply elem_of_nil in Hin|].
  simpl. apply elem_of_cons in Hin as [<-|Hin].
  - by rewrite Hnone.
  - destruct (ks !! controllerKey (rdm_device x)) as [ctl_n|] eqn:Hx; [|done].
    destruct (du !! ctl_n) eqn:Hy; [|done]. by apply IH.
Qed.

(** X4.  In an [absent] run on a machine with a raw-mapped disk whose
    [controllerKey] is the key of none of its SCSI controllers,
    [get_rdm_info] raises [KeyError], whether or not that disk is asked for:
    nothing is handed to vSphere and [main] reports the exception through
    [fail_json]. *)
Theorem rdm_off_scsi_controller_raises (p : Params)
    (R : VirtualMachine → list VirtualDeviceSpec → TaskEnd * VirtualMachine)
    (vm : VirtualMachine) (d : VirtualDevice) (b : RawDiskMappingVer1BackingInfo) :
  state p = absent →
  d ∈ hardware_device vm →
  backing d = Some b →
  (∀ c, c ∈ hardware_device vm → is_scsi_controller c = true → key c ≠ controllerKey d) →
  (run p R vm).1 = Raise KeyError ∧
  submitted (run p R vm).2 = [] ∧
  main p R (Some vm) = exit_fail_json (msg_failed_with_exception KeyError).
Proof.
  intros Habsent Hd Hb Hno.
  destruct (inventory_state_fields p vm) as (Hsub & _ & _ & Hvm & Hdu & _ & Hks & Hu & _).
  assert (Hrun : (run p R vm).1 = Raise KeyError ∧ submitted (run p R vm).2 = []).
  { rewrite run_absent, configure_disks_run, bind_run by done.
    set (s1 := disks_listed (inventory_state p vm)).
    destruct (get_rdm_info_frame p (rdm_disks s1) s1) as (du' & Hst & _).
    pose proof (get_rdm_info_raises p (rdm_disks s1) s1) as Hraise.
    destruct (get_rdm_info p (rdm_disks s1) s1) as [o s2]. simpl in Hst, Hraise.
    rewrite Hraise.
    - subst s2. split; [done|]. simpl. exact Hsub.
    - apply (place_disks_unknown _ _ _ {| rdm_device := d; rdm_backing := b |}).
      + unfold s1, disks_listed. cbn [rdm_disks set_rdm_disks current_vm_obj set_configspec].
        rewrite Hvm. apply elem_of_rdm_disks. by exists d, b.
      + unfold s1, disks_listed. cbn [ctl_key_slot set_rdm_disks set_configspec rdm_device].
        rewrite Hks. apply eq_None_not_Some.
        intros [(c & Hc & Hs & Hk)|[? ?]]%key_slot_of_is_Some; [|done].
        by apply (Hno c). }
  destruct Hrun as [Hout Hlog]. split_and!; try done.
  unfold main. by rewrite Hout.
Qed.

Lemma rdm_off_scsi_controller_raises_witness :
  rdm_disk ForeignController.params = [] ∧
  (run ForeignController.params ReconfigVM_ideal ForeignController.vm).1 = Raise KeyError ∧
  submitted (run ForeignController.params ReconfigVM_ideal ForeignController.vm).2 = [] ∧
  main ForeignController.params ReconfigVM_ideal (Some ForeignController.vm)
  = exit_fail_json (msg_failed_with_exception KeyError).
Proof.
  split; [reflexivity|].
  destruct (backing ForeignController.disk) as [b|] eqn:Hb; [|discriminate].
  apply (rdm_off_scsi_controller_raises ForeignController.params ReconfigVM_ideal
           ForeignController.vm ForeignController.disk b).
  - reflexivity.
  - unfold ForeignController.vm. simpl. set_solver.
  - exact Hb.
  - intros c Hc Hs. simpl in Hc.
    repeat (apply elem_of_cons in Hc as [->|Hc]); try discriminate.
    by apply elem_of_nil in Hc.
Defined.

(** ** A host or a datastore that cannot be read *)

(** X5.  In an [absent] run on a machine whose raw-mapped disks all hang off
    SCSI controllers: when the list view of the host is [None] the run fails
    with the no-read-permission-on-host message; when the view is empty it
    raises [IndexError]; when the host can be read and the machine has no
    datastore it fails with the datastore message.  In each case no change
    has been built and nothing has been handed to vSphere. *)
Theorem unreadable_host_or_datastore (p : Params)
    (R : VirtualMachine → list VirtualDeviceSpec → TaskEnd * VirtualMachine)
    (vm : VirtualMachine) :
  state p = absent →
  rdm_controllers_known vm →
  (host_view vm = None → (run p R vm).1 = FailJson msg_no_host_permission) ∧
  (host_view vm = Some [] → (run p R vm).1 = Raise IndexError) ∧
  (∀ h hs, host_view vm = Some (h :: hs) → vm_datastore vm = [] →
           (run p R vm).1 = FailJson msg_no_datastore_permission) ∧
  (host_view vm = None ∨ host_view vm = Some [] ∨ vm_datastore vm = [] →
   submitted (run p R vm).2 = [] ∧ configspec (run p R vm).2 = []).
Proof.
  intros Habsent Hknown.
  destruct (inventory_state_fields p vm) as (Hsub & _ & _ & Hvm & Hdu & _ & Hks & Hu & _).
  destruct (place_disks_known vm Hknown) as [du' Hplace].
  set (s1 := disks_listed (inventory_state p vm)).
  assert (Hrun : run p R vm
                 = bind (configure_rdm_disks p vm) (λ _, finish R false) (set_disk_units du' s1)).
  { rewrite run_absent, configure_disks_run, bind_run by done. fold s1.
    rewrite (get_rdm_info_run p _ _ du').
    - rewrite bool_decide_false by (intros [_ ?]; congruence). by rewrite Hvm.
    - unfold s1, disks_listed.
      cbn [rdm_disks ctl_key_slot ctl_units disk_units set_rdm_disks set_configspec
             current_vm_obj].
      by rewrite Hvm, Hks, Hu, Hdu. }
  rewrite Hrun, bind_run. unfold configure_rdm_disks, get_host_by_vm, get_datastore_by_vm.
  split_and!.
  - intros ->. by rewrite bind_run.
  - intros ->. by rewrite bind_run.
  - intros h hs -> ->. by rewrite !bind_run.
  - intros Hcase. destruct (host_view vm) as [[|h hs]|] eqn:Hh.
    + rewrite bind_run. simpl. by rewrite Hsub.
    + destruct Hcase as [?|[?|Hds]]; try done. rewrite Hds, !bind_run. simpl. by rewrite Hsub.
    + rewrite bind_run. simpl. by rewrite Hsub.
Qed.

Lemma unreadable_host_or_datastore_witness :
  (run NoDatastore.params ReconfigVM_ideal NoDatastore.vm).1
  = FailJson msg_no_datastore_permission.
Proof.
  refine (proj1 (proj2 (proj2 (unreadable_host_or_datastore NoDatastore.params
                                 ReconfigVM_ideal NoDatastore.vm _ _))) _ _ _ _).
  - reflexivity.
  - intros d b Hd Hb. simpl in Hd.
    repeat (apply elem_of_cons in Hd as [->|Hd]); try discriminate.
    by apply elem_of_nil in Hd.
  - reflexivity.
  - reflexivity.
Defined.

(** ** How the end of a task is reported *)

(** X6.  How [main] reports the end of the task of an [absent] run that has
    a disk to detach.  A task that succeeds, and also one that ends in the
    state [error] with an empty message, gives [exit_json] with
    [changed = True], [failed = False] and the machine as vSphere shows it;
    an error with a message gives [exit_json] (not [fail_json]) with
    [changed = True], [failed = True] and that message;
    [vim.fault.RestrictedVersion] gives [fail_json] with its own message; any
    other fault is caught by the handler of [main].  The one change list is
    submitted in every case. *)
Theorem task_end_reporting (p : Params)
    (R : VirtualMachine → list VirtualDeviceSpec → TaskEnd * VirtualMachine)
    (vm : VirtualMachine) (h : HostSystem) (hs : list HostSystem)
    (ds : string) (dss : list string)
    (wwid : string) (lun : ScsiLun) (d : VirtualDevice) (b : RawDiskMappingVer1BackingInfo) :
  state p = absent →
  host_view vm = Some (h :: hs) →
  vm_datastore vm = ds :: dss →
  rdm_controllers_known vm →
  (∀ w, w ∈ rdm_disk p → is_Some (find_lun (scsiLun h) w)) →
  wwid ∈ rdm_disk p →
  find_lun (scsiLun h) wwid = Some lun →
  d ∈ hardware_device vm →
  backing d = Some b →
  lunUuid b = uuid lun →
  ∃ changes,
    submitted (run p R vm).2 = [changes] ∧
    main p R (Some vm)
    = match (R vm changes).1 with
      | TaskSuccess | TaskError EmptyString =>
          exit_json {| changed := true; failed := false; msg := None;
                       instance := Some (R vm changes).2 |}
      | TaskError m =>
          exit_json {| changed := true; failed := true; msg := Some m; instance := None |}
      | RestrictedVersion m => exit_fail_json (msg_from (msg_restricted_version m))
      | OtherFault name => exit_fail_json (msg_failed_with_exception (Fault name))
      end.
Proof.
  intros Habsent Hhost Hds Hknown Hres Hw Hlun Hd Hb Hmatch.
  unfold main.
  destruct (run_absent_resolved p R vm Habsent h hs ds dss Hhost Hds Hknown Hres)
    as (du' & ->).
  set (plan := (detach_plan (scsiLun h) (omap as_rdm (hardware_device vm)) (rdm_disk p)).1).
  assert (Hin : remove_rdm_disk d ∈ plan).
  { apply (detach_plan_elem _ _ _ wwid lun {| rdm_device := d; rdm_backing := b |});
      try done.
    apply elem_of_rdm_disks. by exists d, b. }
  destruct (inventory_state_fields p vm) as (Hsub & Hcs & Hcd & Hvm & _).
  exists plan. rewrite finish_changed.
  2:{ simpl. rewrite bool_decide_true; [by rewrite orb_true_r|].
      intros Hnil. rewrite Hnil in Hin. by apply elem_of_nil in Hin. }
  cbv zeta.
  cbn [current_vm_obj configspec append_specs set_disk_units disks_listed set_rdm_disks
         set_configspec set_change_detected app].
  rewrite Hvm.
  destruct (R vm plan).1 as [m|n|m|]; try destruct m; simpl; by rewrite Hsub.
Qed.

Lemma task_end_reporting_witness :
  ∃ changes,
    submitted (run ScenarioC.params (ReconfigVM_failing "") ScenarioC.vm).2 = [changes] ∧
    main ScenarioC.params (ReconfigVM_failing "") (Some ScenarioC.vm)
    = exit_json {| changed := true; failed := false; msg := None;
                   instance := Some ScenarioC.vm |}.
Proof.
  destruct (backing ScenarioC.disk) as [b|] eqn:Hb; [|discriminate].
  eapply (task_end_reporting ScenarioC.params (ReconfigVM_failing "") ScenarioC.vm
            _ [] "ds1" [] ScenarioC.wwid (lun_of_wwid ScenarioC.wwid) ScenarioC.disk b).
  - reflexivity.
  - reflexivity.
  - reflexivity.
  - intros d b' Hd Hb'. exists (paravirtual_controller 3).
    unfold ScenarioC.vm in *. simpl in Hd.
    repeat (apply elem_of_cons in Hd as [->|Hd]); try discriminate.
    + split; [set_solver|]. split; reflexivity.
    + by apply elem_of_nil in Hd.
  - intros w ->%list_elem_of_singleton. vm_compute. by eexists.
  - by left.
  - vm_compute. reflexivity.
  - unfold ScenarioC.vm. simpl. set_solver.
  - exact Hb.
  - injection Hb as <-. reflexivity.
Defined.

(** ** The result and the submissions *)

Lemma truthy_nonempty m : truthy (Some m) = true → m ≠ EmptyString.
Proof. by destruct m. Qed.

Lemma finish_matches R ca s r vm0 :
  (ca = false ↔ submitted s = []) →
  (submitted s = [] → current_vm_obj s = vm0) →
  (finish R ca s).1 = Ok r →
  result_matches vm0 r (finish R ca s).2.
Proof.
  intros Hca Hvm. unfold result_matches.
  destruct (change_detected s) eqn:Hcd.
  - rewrite (finish_changed R ca s Hcd). cbv zeta.
    destruct (R _ _).1 as [m|n|m|]; try done.
    + destruct (truthy (Some m)) eqn:Hm; intros [= <-]; simpl.
      * split_and!; try done.
        -- split; [done|]. by intros [? ?]%app_eq_nil.
        -- by intros [? ?]%app_eq_nil.
        -- intros _. split_and!; try done. exists m. split; [done|by apply truthy_nonempty].
      * split_and!; try done.
        -- split; [done|]. by intros [? ?]%app_eq_nil.
        -- by intros [? ?]%app_eq_nil.
    + intros [= <-]; simpl. split_and!; try done.
      * split; [done|]. by intros [? ?]%app_eq_nil.
      * by intros [? ?]%app_eq_nil.
  - rewrite (finish_unchanged R ca s Hcd). intros [= <-]; simpl.
    split_and!; try done.
Qed.

Lemma configure_disks_state p R ca s :
  ∃ du specs,
    let s3 := set_disk_units du (append_specs specs (disks_listed s)) in
    configure_disks p R ca s = finish R ca s3
    ∨ ((configure_disks p R ca s).2 = s3 ∧ ∀ r, (configure_disks p R ca s).1 ≠ Ok r).
Proof.
  rewrite configure_disks_run, bind_run.
  set (s1 := disks_listed s).
  destruct (get_rdm_info_frame p (rdm_disks s1) s1) as (du' & Hst & _).
  destruct (get_rdm_info p (rdm_disks s1) s1) as [[[]|m|e] s2]; simpl in Hst; subst s2.
  - rewrite bind_run.
    assert (∃ du specs, (configure_rdm_disks p (current_vm_obj s) (set_disk_units du' s1)).2
                        = set_disk_units du (append_specs specs s1)) as (du & specs & Hc).
    { destruct (state p) eqn:Hstate.
      - destruct (configure_present_frame p (current_vm_obj s) (set_disk_units du' s1) Hstate)
          as (specs & du & Hc & _).
        exists du, specs. by rewrite Hc.
      - destruct (configure_absent_frame p (current_vm_obj s) (set_disk_units du' s1) Hstate)
          as (specs & Hc & _).
        exists du', specs. by rewrite Hc. }
    exists du, specs. cbv zeta.
    destruct (configure_rdm_disks p _ _) as [[[]|m|e] s3]; simpl in Hc; subst s3.
    + by left.
    + right. by split.
    + right. by split.
  - exists du', []. right. rewrite append_specs_nil. by split.
  - exists du', []. right. rewrite append_specs_nil. by split.
Qed.

Lemma configure_disks_matches p R ca s r vm0 :
  (ca = false ↔ submitted s = []) →
  (submitted s = [] → current_vm_obj s = vm0) →
  (configure_disks p R ca s).1 = Ok r →
  result_matches vm0 r (configure_disks p R ca s).2.
Proof.
  intros Hca Hvm Hrun.
  destruct (configure_disks_state p R ca s) as (du & specs & [Heq|[_ Hno]]).
  - rewrite Heq in Hrun |- *. by apply finish_matches.
  - by destruct (Hno r).
Qed.

(** X7.  Whenever [reconfigure_vm] returns a dictionary: [changed] is [False]
    exactly when no change list has been handed to vSphere, and then the
    machine is the one the run started from; a failed result has
    [changed = True], no [instance] and a non-empty message; a result that is
    not failed has no message and the current machine as [instance]. *)
Theorem result_reflects_submissions (p : Params)
    (R : VirtualMachine → list VirtualDeviceSpec → TaskEnd * VirtualMachine)
    (vm : VirtualMachine) (r : Result) :
  (run p R vm).1 = Ok r →
  (changed r = false ↔ submitted (run p R vm).2 = []) ∧
  (submitted (run p R vm).2 = [] → current_vm_obj (run p R vm).2 = vm) ∧
  (failed r = true →
     changed r = true ∧ instance r = None ∧ ∃ m, msg r = Some m ∧ m ≠ EmptyString) ∧
  (failed r = false →
     msg r = None ∧ instance r = Some (current_vm_obj (run p R vm).2)).
Proof.
  change (_ ∧ _) with (result_matches vm r (run p R vm).2).
  destruct (inventory_state_fields p vm) as (Hsub & Hcs & Hcd & Hvm & _).
  rewrite run_inventory. destruct (state p) eqn:Hst; rewrite bind_run.
  - rewrite ensure_controllers_run. cbv zeta.
    destruct (existsb _ _); [done|].
    set (s2 := append_specs _ (set_configspec [] (inventory_state p vm))).
    assert (Hsub2 : submitted s2 = []) by done.
    assert (Hvm2 : current_vm_obj s2 = vm) by done.
    destruct (change_detected s2).
    + destruct (R _ _).1 as [m|n|m|]; try done.
      * destruct (truthy (Some m)) eqn:Hm.
        -- intros [= <-]. unfold result_matches. simpl.
           split_and!; try done.
           ++ split; [done|]. by intros [? ?]%app_eq_nil.
           ++ by intros [? ?]%app_eq_nil.
           ++ intros _. split_and!; try done. exists m. split; [done|by apply truthy_nonempty].
        -- apply configure_disks_matches; simpl.
           ++ split; [done|]. by intros [? ?]%app_eq_nil.
           ++ by intros [? ?]%app_eq_nil.
      * apply configure_disks_matches; simpl.
        -- split; [done|]. by intros [? ?]%app_eq_nil.
        -- by intros [? ?]%app_eq_nil.
    + by apply configure_disks_matches.
  - by apply configure_disks_matches.
Qed.

Lemma result_reflects_submissions_witness :
  (run ScenarioC.params (ReconfigVM_failing "disk is locked") ScenarioC.vm).1
  = Ok {| changed := true; failed := true; msg := Some "disk is locked"; instance := None |} ∧
  submitted (run ScenarioC.params (ReconfigVM_failing "disk is locked") ScenarioC.vm).2 ≠ [].
Proof.
  split; [vm_compute; reflexivity|].
  pose proof (result_reflects_submissions ScenarioC.params
                (ReconfigVM_failing "disk is locked") ScenarioC.vm
                {| changed := true; failed := true; msg := Some "disk is locked";
                   instance := None |}) as H.
  destruct H as (Hch & _ & _ & _); [vm_compute; reflexivity|].
  intros Hnil. apply Hch in Hnil. discriminate.
Defined.

(** ** What a [present] run submits *)

Lemma find_lun_Some luns w lun :
  find_lun luns w = Some lun →
  lun ∈ luns ∧ canonicalName lun = "naa." +:+ PyStr.lower w.
Proof.
  unfold find_lun. intros Hhead.
  assert (Hin : lun ∈ filter (λ l, canonicalName l = "naa." +:+ PyStr.lower w) luns).
  { destruct (filter _ luns) as [|x l]; [done|]. injection Hhead as ->. by left. }
  apply list_elem_of_filter in Hin as [? ?]. done.
Qed.

Lemma ensure_controllers_disk_units p R s :
  disk_units (ensure_controllers p R s).2 = disk_units s.
Proof.
  rewrite ensure_controllers_run. cbv zeta.
  destruct (existsb _ _); [done|].
  destruct (change_detected _); [|done].
  destruct (R _ _).1 as [m|n|m|]; try done.
  by destruct (truthy (Some m)).
Qed.

(** The disk pass of a [present] run either submits nothing or submits the
    attach plan. *)
Lemma present_disk_pass p R ca s :
  state p = present →
  submitted (configure_disks p R ca s).2 = submitted s
  ∨ ∃ h hs ds dss du0 specs du1,
      host_view (current_vm_obj s) = Some (h :: hs) ∧
      vm_datastore (current_vm_obj s) = ds :: dss ∧
      place_disks (ctl_key_slot s) (reserve_units (ctl_units s) (disk_units s))
        (omap as_rdm (hardware_device (current_vm_obj s))) = Some du0 ∧
      attach_plan p (scsiLun h) (omap as_rdm (hardware_device (current_vm_obj s))) ds
        (vmPathName (current_vm_obj s)) (ctl_slot_key s) (ctl_max s) du0 (rdm_disk p)
      = Ok (specs, du1) ∧
      submitted (configure_disks p R ca s).2 = submitted s ++ [specs].
Proof.
  intros Hpresent. rewrite configure_disks_run, bind_run.
  set (s1 := disks_listed s).
  set (rdms := omap as_rdm (hardware_device (current_vm_obj s))).
  assert (Hrdms : rdm_disks s1 = rdms) by done.
  destruct (place_disks (ctl_key_slot s) (reserve_units (ctl_units s) (disk_units s)) rdms)
    as [du0|] eqn:Hplace.
  2:{ left. destruct (get_rdm_info_frame p (rdm_disks s1) s1) as (du' & Hst & _).
      rewrite (surjective_pairing (get_rdm_info p (rdm_disks s1) s1)).
      rewrite (get_rdm_info_raises p (rdm_disks s1) s1) by (by rewrite Hrdms).
      by rewrite Hst. }
  rewrite (get_rdm_info_run p _ _ du0) by (by rewrite Hrdms).
  case_bool_decide; [by left|].
  rewrite bind_run.
  set (s2 := set_disk_units du0 s1).
  destruct (host_view (current_vm_obj s)) as [[|h hs]|] eqn:Hh.
  - left. unfold configure_rdm_disks, get_host_by_vm. by rewrite Hh, bind_run.
  - destruct (vm_datastore (current_vm_obj s)) as [|ds dss] eqn:Hds.
    + left. unfold configure_rdm_disks, get_host_by_vm, get_datastore_by_vm.
      by rewrite Hh, Hds, !bind_run.
    + rewrite (configure_present_run p _ s2 h hs ds dss) by done.
      pose proof (present_loop_fails p (scsiLun h) ds (vmPathName (current_vm_obj s))
                    (rdm_disk p) s2) as Hfail.
      destruct (attach_plan p (scsiLun h) (rdm_disks s2) ds (vmPathName (current_vm_obj s))
                  (ctl_slot_key s2) (ctl_max s2) (disk_units s2) (rdm_disk p))
        as [[specs du1]|m|e] eqn:Hplan.
      * rewrite (present_loop_ok p _ _ _ _ _ _ _ Hplan).
        set (s3 := set_disk_units du1 (append_specs specs s2)).
        destruct (change_detected s3) eqn:Hcd.
        -- right. exists h, hs, ds, dss, du0, specs, du1. split_and!; try done.
           rewrite (finish_changed R ca s3 Hcd). cbv zeta.
           destruct (R _ _).1 as [m|n|m|]; try done. by destruct (truthy (Some m)).
        -- left. by rewrite (finish_unchanged R ca s3 Hcd).
      * left.
        destruct (present_loop_frame p (scsiLun h) ds (vmPathName (current_vm_obj s))
                    (rdm_disk p) s2) as (specs & du' & Hst & _); [done|].
        destruct (for_each _ _ s2) as [o s3]. simpl in Hfail, Hst. by subst.
      * left.
        destruct (present_loop_frame p (scsiLun h) ds (vmPathName (current_vm_obj s))
                    (rdm_disk p) s2) as (specs & du' & Hst & _); [done|].
        destruct (for_each _ _ s2) as [o s3]. simpl in Hfail, Hst. by subst.
  - left. unfold configure_rdm_disks, get_host_by_vm. by rewrite Hh, bind_run.
Qed.

(** The change lists of a [present] run: at most one list of controllers,
    then at most one attach plan. *)
Lemma present_run_log p R vm :
  state p = present →
  ∃ log1 log2,
    submitted (run p R vm).2 = log1 ++ log2 ∧
    (log1 = []
     ∨ log1 = [create_scsi_controller_bus (rdm_controller_type p)
                 <$> missing_ctls p (set_configspec [] (inventory_state p vm))]) ∧
    (log2 = []
     ∨ ∃ luns rdms ds path sk ks units du0 specs du1,
         log2 = [specs] ∧
         place_disks ks (reserve_units units ∅) rdms = Some du0 ∧
         attach_plan p luns rdms ds path sk (ctl_max (inventory_state p vm)) du0 (rdm_disk p)
         = Ok (specs, du1)).
Proof.
  intros Hpresent.
  destruct (inventory_state_fields p vm) as (Hsub & Hcs & Hcd & Hvm & Hdu & _).
  rewrite run_inventory, Hpresent, bind_run.
  pose proof (ensure_controllers_disk_units p R (inventory_state p vm)) as Hdu_c.
  destruct (ensure_controllers_frame p R (inventory_state p vm)) as [Hmax_c _].
  rewrite Hdu in Hdu_c.
  revert Hdu_c Hmax_c.
  rewrite ensure_controllers_run. cbv zeta.
  set (s1 := set_configspec [] (inventory_state p vm)).
  set (ctl_specs := create_scsi_controller_bus (rdm_controller_type p) <$> missing_ctls p s1).
  set (s2 := append_specs ctl_specs s1).
  assert (Hcs2 : configspec s2 = ctl_specs) by done.
  assert (Hsub2 : submitted s2 = []) by done.
  assert (Hdisk : ∀ ca s_c log1,
            disk_units s_c = ∅ → ctl_max s_c = ctl_max (inventory_state p vm) →
            submitted s_c = log1 →
            ∃ log2, submitted (configure_disks p R ca s_c).2 = log1 ++ log2 ∧
              (log2 = []
               ∨ ∃ luns rdms ds path sk ks units du0 specs du1,
                   log2 = [specs] ∧
                   place_disks ks (reserve_units units ∅) rdms = Some du0 ∧
                   attach_plan p luns rdms ds path sk (ctl_max (inventory_state p vm)) du0
                     (rdm_disk p) = Ok (specs, du1))).
  { intros ca s_c log1 Hdu' Hmax' Hlog.
    destruct (present_disk_pass p R ca s_c Hpresent)
      as [->|(h & hs & ds & dss & du0 & specs & du1 & _ & _ & Hplace & Hplan & ->)].
    - exists []. rewrite app_nil_r. by split; [|left].
    - exists [specs]. rewrite Hlog. split; [done|]. right.
      rewrite Hdu' in Hplace. rewrite Hmax' in Hplan.
      by exists (scsiLun h), (omap as_rdm (hardware_device (current_vm_obj s_c))), ds,
        (vmPathName (current_vm_obj s_c)), (ctl_slot_key s_c), (ctl_key_slot s_c),
        (ctl_units s_c), du0, specs, du1. }
  destruct (existsb _ _).
  { intros _ _. exists [], []. simpl. rewrite Hsub. by split_and!; [|left|left]. }
  destruct (change_detected s2).
  - rewrite Hcs2, Hsub2. cbn [app].
    destruct (R (current_vm_obj s2) ctl_specs).1 as [m|n|m|].
    + intros _ _. exists [ctl_specs], []. simpl. by split_and!; [|right|left].
    + intros _ _. exists [ctl_specs], []. simpl. by split_and!; [|right|left].
    + destruct (truthy (Some m)).
      * intros _ _. exists [ctl_specs], []. simpl. by split_and!; [|right|left].
      * intros Hdu' Hmax'. cbv beta iota.
        lazymatch goal with
        | |- context [configure_disks p R true ?s] =>
            destruct (Hdisk true s [ctl_specs] Hdu' Hmax' eq_refl) as (log2 & Hlog & Hshape)
        end.
        exists [ctl_specs], log2. split; [exact Hlog|]. by split; [right|].
    + intros Hdu' Hmax'. cbv beta iota.
      lazymatch goal with
      | |- context [configure_disks p R true ?s] =>
          destruct (Hdisk true s [ctl_specs] Hdu' Hmax' eq_refl) as (log2 & Hlog & Hshape)
      end.
      exists [ctl_specs], log2. split; [exact Hlog|]. by split; [right|].
  - intros Hdu' Hmax'.
    destruct (Hdisk false s2 [] Hdu' Hmax' Hsub2) as (log2 & Hlog & Hshape).
    exists [], log2. split; [exact Hlog|]. by split; [left|].
Qed.

(** The two passes of a [present] run: the controllers that are missing on
    the machine, then the attach plan worked out on the machine that the
    first pass has left. *)
Lemma present_run_passes p R vm :
  state p = present →
  let ctl_specs := create_scsi_controller_bus (rdm_controller_type p)
                     <$> filter (λ b, get_vm_ctl_n vm b = None) (rdm_controller_bus p) in
  let vm' := if bool_decide (ctl_specs = []) then vm else (R vm ctl_specs).2 in
  ∃ log1 log2,
    submitted (run p R vm).2 = log1 ++ log2 ∧
    (log1 = [] ∨ log1 = [ctl_specs]) ∧
    (log2 = []
     ∨ ∃ h hs ds sk cap du0 specs du1,
         log2 = [specs] ∧
         host_view vm' = Some (h :: hs) ∧
         attach_plan p (scsiLun h) (omap as_rdm (hardware_device vm')) ds (vmPathName vm')
           sk cap du0 (rdm_disk p) = Ok (specs, du1)).
Proof.
  intros Hpresent ctl_specs vm'.
  destruct (inventory_state_fields p vm) as (Hsub & Hcs & Hcd & Hvm & _ & _ & _ & Hu & _).
  set (s1 := set_configspec [] (inventory_state p vm)).
  assert (Hm : missing_ctls p s1
               = filter (λ b, get_vm_ctl_n vm b = None) (rdm_controller_bus p)).
  { unfold missing_ctls. apply list_filter_iff. intros b.
    cbn [ctl_units current_vm_obj s1 set_configspec]. rewrite Hu, Hvm.
    rewrite get_vm_ctl_n_units. tauto. }
  assert (Hdisk : ∀ ca s_c log1,
            current_vm_obj s_c = vm' → submitted s_c = log1 →
            ∃ log2, submitted (configure_disks p R ca s_c).2 = log1 ++ log2 ∧
              (log2 = []
               ∨ ∃ h hs ds sk cap du0 specs du1,
                   log2 = [specs] ∧
                   host_view vm' = Some (h :: hs) ∧
                   attach_plan p (scsiLun h) (omap as_rdm (hardware_device vm')) ds
                     (vmPathName vm') sk cap du0 (rdm_disk p) = Ok (specs, du1))).
  { intros ca s_c log1 Hvm_c Hlog.
    destruct (present_disk_pass p R ca s_c Hpresent)
      as [->|(h & hs & ds & dss & du0 & specs & du1 & Hh & _ & _ & Hplan & ->)].
    - exists []. rewrite app_nil_r. by split; [|left].
    - exists [specs]. rewrite Hlog. split; [done|]. right.
      rewrite Hvm_c in Hh, Hplan.
      by exists h, hs, ds, (ctl_slot_key s_c), (ctl_max s_c), du0, specs, du1. }
  rewrite run_inventory, Hpresent, bind_run, ensure_controllers_run. cbv zeta.
  fold s1. rewrite Hm. fold ctl_specs.
  destruct (existsb _ _).
  { exists [], []. simpl. rewrite Hsub. by split_and!; [|left|left]. }
  set (s2 := append_specs ctl_specs s1).
  assert (Hvm2 : current_vm_obj s2 = vm) by done.
  assert (Hcs2 : configspec s2 = ctl_specs).
  { unfold s2, s1. simpl. done. }
  assert (Hsub2 : submitted s2 = []) by done.
  assert (Hcd2 : change_detected s2 = bool_decide (ctl_specs ≠ [])).
  { unfold s2, s1. simpl. by rewrite Hcd. }
  rewrite Hcd2, Hvm2, Hcs2, Hsub2. cbn [app].
  case_bool_decide as Hne.
  - assert (Hvm' : vm' = (R vm ctl_specs).2).
    { unfold vm'. by rewrite bool_decide_false. }
    destruct (R vm ctl_specs).1 as [m|n|m|] eqn:Hend.
    + exists [ctl_specs], []. simpl. by split_and!; [|right|left].
    + exists [ctl_specs], []. simpl. by split_and!; [|right|left].
    + destruct (truthy (Some m)).
      * exists [ctl_specs], []. simpl. by split_and!; [|right|left].
      * cbv beta iota.
        lazymatch goal with
        | |- context [configure_disks p R true ?s] =>
            destruct (Hdisk true s [ctl_specs]) as (log2 & Hlog & Hshape);
              [by rewrite Hvm'|done|]
        end.
        exists [ctl_specs], log2. split; [exact Hlog|]. by split; [right|].
    + cbv beta iota.
      lazymatch goal with
      | |- context [configure_disks p R true ?s] =>
          destruct (Hdisk true s [ctl_specs]) as (log2 & Hlog & Hshape);
            [by rewrite Hvm'|done|]
      end.
      exists [ctl_specs], log2. split; [exact Hlog|]. by split; [right|].
  - assert (Hvm' : vm' = vm).
    { unfold vm'. by rewrite bool_decide_true. }
    destruct (Hdisk false s2 []) as (log2 & Hlog & Hshape); [by rewrite Hvm'|done|].
    exists [], log2. split; [exact Hlog|]. by split; [left|].
Qed.

(** X8.  A [present] run hands at most two change lists to vSphere, and every
    operation in them is an [add]: either a controller of the requested type
    for a bus of [rdm_controller_bus] on which the machine has no SCSI
    controller, or a raw-mapped disk for a LUN that [find_lun] returns for a
    requested WWID on the LUN list of the host and that no device maps yet.
    Host and devices are those of the machine the disk pass reads: the
    machine of the request when no controller is missing, and otherwise the
    one vSphere shows once the controllers have been asked for. *)
Theorem present_run_only_adds (p : Params)
    (R : VirtualMachine → list VirtualDeviceSpec → TaskEnd * VirtualMachine)
    (vm : VirtualMachine) :
  state p = present →
  let ctl_specs := create_scsi_controller_bus (rdm_controller_type p)
                     <$> filter (λ b, get_vm_ctl_n vm b = None) (rdm_controller_bus p) in
  let vm' := if bool_decide (ctl_specs = []) then vm else (R vm ctl_specs).2 in
  (length (submitted (run p R vm).2) ≤ 2)%nat ∧
  ∀ changes spec, changes ∈ submitted (run p R vm).2 → spec ∈ changes →
    operation spec = op_add ∧
    ((∃ b, spec = create_scsi_controller_bus (rdm_controller_type p) b ∧
           b ∈ rdm_controller_bus p ∧
           ∀ d, d ∈ hardware_device vm → is_scsi_controller d = true → busNumber d ≠ b)
     ∨ (∃ h hs w lun,
          host_view vm' = Some (h :: hs) ∧
          w ∈ rdm_disk p ∧ find_lun (scsiLun h) w = Some lun ∧
          is_attach_of lun spec ∧
          ∀ d b, d ∈ hardware_device vm' → backing d = Some b → lunUuid b ≠ uuid lun)).
Proof.
  intros Hpresent ctl_specs vm'.
  destruct (present_run_passes p R vm Hpresent) as (log1 & log2 & -> & Hlog1 & Hlog2).
  fold ctl_specs in Hlog1. fold vm' in Hlog2.
  split.
  - rewrite length_app.
    destruct Hlog1 as [->| ->];
      destruct Hlog2 as [->|(? & ? & ? & ? & ? & ? & ? & ? & -> & _)]; simpl; lia.
  - intros changes spec [Hin|Hin]%elem_of_app Hspec.
    + destruct Hlog1 as [->| ->]; [by apply elem_of_nil in Hin|].
      apply list_elem_of_singleton in Hin as ->.
      apply list_elem_of_fmap in Hspec as (b & -> & Hb).
      split; [done|]. left. exists b. split; [done|].
      apply list_elem_of_filter in Hb as [Hnone Hb].
      split; [done|]. intros d Hd Hs Hbus.
      apply get_vm_ctl_n_units in Hnone.
      assert (is_Some (units_of (hardware_device vm) ∅ !! b)) as [? ?]; [|congruence].
      apply units_of_is_Some. left. by exists d.
    + destruct Hlog2 as [->|(h & hs & ds & sk & cap & du0 & specs & du1
                             & -> & Hh & Hplan)]; [by apply elem_of_nil in Hin|].
      apply list_elem_of_singleton in Hin as ->.
      pose proof (attach_plan_is_new _ _ _ _ _ _ _ _ _ _ _ Hplan (λ w Hw, Hw)) as Hnew.
      rewrite Forall_forall in Hnew.
      destruct (Hnew spec Hspec) as (w & lun & Hw & Hlun & Hatt & Hfresh).
      split; [by destruct Hatt as (? & ? & ? & ? & ->)|].
      right. exists h, hs, w, lun. split_and!; try done.
      intros d b Hd Hb.
      apply (Hfresh {| rdm_device := d; rdm_backing := b |}).
      apply elem_of_rdm_disks. by exists d, b.
Qed.

Lemma present_run_only_adds_witness :
  submitted (run ScenarioA.params ReconfigVM_ideal ScenarioA.vm).2
  = [ [create_scsi_controller_bus paravirtual 1; create_scsi_controller_bus paravirtual 2];
      [create_rdm_disk 1001 (lun_of_wwid "60002AC0000000000000006A000123FD") "ds1"
         "[ds1] vm/vm_RDM6a000123fd.vmdk" 0;
       create_rdm_disk 1001 (lun_of_wwid "60002AC0000000000000006B000123FD") "ds1"
         "[ds1] vm/vm_RDM6b000123fd.vmdk" 1;
       create_rdm_disk 1001 (lun_of_wwid "60002AC0000000000000006C000123FD") "ds1"
         "[ds1] vm/vm_RDM6c000123fd.vmdk" 2;
       create_rdm_disk 1001 (lun_of_wwid "60002AC0000000000000006D000123FD") "ds1"
         "[ds1] vm/vm_RDM6d000123fd.vmdk" 3] ] ∧
  (length (submitted (run ScenarioA.params ReconfigVM_ideal ScenarioA.vm).2) ≤ 2)%nat ∧
  ∀ changes spec,
    changes ∈ submitted (run ScenarioA.params ReconfigVM_ideal ScenarioA.vm).2 →
    spec ∈ changes →
    operation spec = op_add ∧
    ((∃ b, spec = create_scsi_controller_bus paravirtual b ∧ b ∈ [1; 2] ∧
           ∀ d, d ∈ hardware_device ScenarioA.vm → is_scsi_controller d = true →
                busNumber d ≠ b)
     ∨ (∃ h hs w lun,
          host_view (with_devices ScenarioA.vm
                       [paravirtual_controller 1; paravirtual_controller 2])
          = Some (h :: hs) ∧
          w ∈ ScenarioA.wwids ∧ find_lun (scsiLun h) w = Some lun ∧
          is_attach_of lun spec ∧
          ∀ d b, d ∈ [paravirtual_controller 1; paravirtual_controller 2] →
                 backing d = Some b → lunUuid b ≠ uuid lun)).
Proof.
  split; [vm_compute; reflexivity|].
  apply (present_run_only_adds ScenarioA.params ReconfigVM_ideal ScenarioA.vm).
  reflexivity.
Defined.

(** ** The unit numbers that are handed out *)

Lemma reserve_units_seven units c o :
  reserve_units units ∅ !! c = Some o → 7 ∈ o.
Proof.
  rewrite reserve_units_lookup. destruct (units !! c); [|done].
  intros [= <-]. set_solver.
Qed.

Lemma place_disks_seven ks du rdms du' :
  (∀ c o, du !! c = Some o → 7 ∈ o) →
  place_disks ks du rdms = Some du' →
  ∀ c o, du' !! c = Some o → 7 ∈ o.
Proof.
  revert du. induction rdms as [|x rdms IH]; intros du Hinv; simpl.
  - by intros [= <-].
  - destruct (ks !! _) as [ctl_n|]; [|done].
    destruct (du !! ctl_n) as [units|] eqn:Hu; [|done].
    apply IH. intros c o. destruct (decide (c = ctl_n)) as [->|Hne].
    + rewrite lookup_insert_eq. intros [= <-]. specialize (Hinv _ _ Hu). set_solver.
    + rewrite lookup_insert_ne by done. apply Hinv.
Qed.

Lemma attach_plan_units p luns rdms ds path sk cap du wwids specs du' :
  (∀ c o, du !! c = Some o → 7 ∈ o) →
  attach_plan p luns rdms ds path sk cap du wwids = Ok (specs, du') →
  Forall (λ spec, ∃ scsi_key lun rdm_file bus_n,
            spec = create_rdm_disk scsi_key lun ds rdm_file bus_n ∧
            0 ≤ bus_n ≤ cap ∧ bus_n ≠ 7) specs.
Proof.
  revert du specs. induction wwids as [|w wwids IH]; intros du specs Hinv Hplan.
  - simpl in Hplan. injection Hplan as <- <-. constructor.
  - apply attach_plan_cons in Hplan as (spec & du1 & specs' & Hone & Hrest & ->).
    apply attach_one_cases in Hone as (lun & Hlun & [(-> & -> & _)|Hsome]).
    + simpl. by eapply IH.
    + destruct Hsome as (rdmid & ctl & bus_n & units & k & _ & Hscan & Hu & _ & -> & ->).
      apply scan_ctls_found in Hscan as (_ & _ & _ & Hscan & _).
      apply scan_units_found in Hscan as (occ & upre & upost & Hocc & Hunits & Hfree & _).
      assert (Hrange : 0 ≤ bus_n ≤ cap).
      { apply elem_of_seqZ_range. rewrite Hunits. set_solver. }
      rewrite Hu in Hocc. injection Hocc as <-. constructor.
      * exists k, lun, (rdm_file_name path rdmid), bus_n.
        split; [done|]. split; [exact Hrange|].
        intros Heq. apply Hfree. rewrite Heq. by eapply Hinv.
      * eapply IH; [|exact Hrest].
        intros c o. destruct (decide (c = ctl)) as [->|Hne].
        -- rewrite lookup_insert_eq. intros [= <-].
           apply elem_of_union. left. by eapply Hinv.
        -- rewrite lookup_insert_ne by done. apply Hinv.
Qed.

(** X9.  Every disk that a [present] run asks vSphere to add has a unit
    number between 0 and [ctl_max] (15, or 64 for [paravirtual] on hardware
    version 14 or later) that is not 7, the temporary key [-100 - unit] and
    the file operation [create]. *)
Theorem attached_units_in_range (p : Params)
    (R : VirtualMachine → list VirtualDeviceSpec → TaskEnd * VirtualMachine)
    (vm : VirtualMachine) (changes : list VirtualDeviceSpec) (spec : VirtualDeviceSpec)
    (k ck u : Z) (b : RawDiskMappingVer1BackingInfo) :
  state p = present →
  changes ∈ submitted (run p R vm).2 →
  spec ∈ changes →
  device spec = NewRdmDisk k ck u b →
  0 ≤ u ≤ (if bool_decide (14 ≤ hw_version vm ∧ rdm_controller_type p = paravirtual)
           then 64 else 15) ∧
  u ≠ 7 ∧
  k = -100 - u ∧
  fileOperation spec = Some file_create.
Proof.
  intros Hpresent Hin Hspec Hdev.
  destruct (present_run_log p R vm Hpresent) as (log1 & log2 & Hlog & Hlog1 & Hlog2).
  destruct (inventory_state_fields p vm) as (_ & _ & _ & _ & _ & _ & _ & _ & Hmax).
  rewrite Hlog in Hin. apply elem_of_app in Hin as [Hin|Hin].
  - destruct Hlog1 as [->| ->]; [by apply elem_of_nil in Hin|].
    apply list_elem_of_singleton in Hin as ->.
    apply list_elem_of_fmap in Hspec as (bus & -> & _). discriminate.
  - destruct Hlog2 as [->|(luns & rdms & ds & path & sk & ks & units & du0 & specs & du1
                           & -> & Hplace & Hplan)]; [by apply elem_of_nil in Hin|].
    apply list_elem_of_singleton in Hin as ->.
    apply attach_plan_units in Hplan.
    + rewrite Forall_forall in Hplan.
      destruct (Hplan spec Hspec) as (k' & lun & f & u' & -> & Hrange & Hne).
      simpl in Hdev. injection Hdev as <- <- <- <-. by rewrite <- Hmax.
    + eapply place_disks_seven; [|exact Hplace]. apply reserve_units_seven.
Qed.

Lemma attached_units_in_range_witness :
  0 ≤ 15 ≤ 15 ∧ 15 ≠ 7 ∧ -115 = -100 - 15 ∧
  fileOperation (create_rdm_disk 1000 (lun_of_wwid "7000016") "ds1" "[ds1] vm/vm_RDM16.vmdk" 15)
  = Some file_create.
Proof.
  eapply (attached_units_in_range (CapacityBoundary.request ["7000016"]) ReconfigVM_ideal
            (CapacityBoundary.vm 14)
            [create_rdm_disk 1000 (lun_of_wwid "7000016") "ds1" "[ds1] vm/vm_RDM16.vmdk" 15]
            (create_rdm_disk 1000 (lun_of_wwid "7000016") "ds1" "[ds1] vm/vm_RDM16.vmdk" 15)
            (-115) 1000 15).
  - reflexivity.
  - vm_compute. left.
  - left.
  - reflexivity.
Defined.

(** ** After a [present] run that went well *)

Lemma realized_disks p luns rdms specs added :
  Forall (is_new_attach p luns rdms) specs →
  Forall2 realizes specs added →
  Forall (λ d, is_scsi_controller d = false ∧
               ∃ bk w lun,
                 backing d = Some bk ∧ w ∈ rdm_disk p ∧ find_lun luns w = Some lun ∧
                 lunUuid bk = uuid lun ∧ deviceName bk = lun_deviceName lun ∧
                 compatibilityMode bk = "physicalMode" ∧
                 diskMode bk = "independent_persistent" ∧
                 ∀ rdm, rdm ∈ rdms → lunUuid (rdm_backing rdm) ≠ uuid lun) added.
Proof.
  intros Hnew Hreal. induction Hreal as [|spec d specs added Hd _ IH]; [constructor|].
  apply Forall_cons in Hnew as [Hspec Hnew]. constructor; [|by apply IH].
  destruct Hspec as (w & lun & Hw & Hlun & (k & ds & f & u & ->) & Hfresh).
  unfold realizes in Hd. simpl in Hd. destruct Hd as (Hs & _ & _ & Hb).
  split; [done|]. eexists _, w, lun. split; [exact Hb|]. by split_and!.
Qed.

(** X10.  After a [present] run that ends without failure on a vSphere that
    adds what it is asked to add, the machine has its former devices,
    followed by new controllers of the requested type, followed by new disks;
    every bus of [rdm_controller_bus] carries a SCSI controller; every new
    disk maps, in physical mode and independent-persistent, a LUN that
    [find_lun] returns for a requested WWID on the LUN list of the machine's
    host, and that no device of the machine mapped before. *)
Theorem present_run_postcondition (p : Params)
    (R : VirtualMachine → list VirtualDeviceSpec → TaskEnd * VirtualMachine)
    (vm : VirtualMachine) (r : Result) :
  state p = present →
  faithful_additions R →
  (run p R vm).1 = Ok r →
  failed r = false →
  ∃ h hs added_ctls added_disks,
    host_view vm = Some (h :: hs) ∧
    hardware_device (current_vm_obj (run p R vm).2)
    = hardware_device vm ++ added_ctls ++ added_disks ∧
    Forall (λ d, dev_class d = ScsiControllerDevice (scsi_class_of (rdm_controller_type p))
                 ∧ backing d = None) added_ctls ∧
    (∀ b, b ∈ rdm_controller_bus p →
          ∃ d, d ∈ hardware_device vm ++ added_ctls ∧ is_scsi_controller d = true
               ∧ busNumber d = b) ∧
    Forall (λ d, is_scsi_controller d = false ∧
                 ∃ bk w lun,
                   backing d = Some bk ∧ w ∈ rdm_disk p ∧
                   find_lun (scsiLun h) w = Some lun ∧
                   canonicalName lun = "naa." +:+ PyStr.lower w ∧
                   lunUuid bk = uuid lun ∧ deviceName bk = lun_deviceName lun ∧
                   compatibilityMode bk = "physicalMode" ∧
                   diskMode bk = "independent_persistent" ∧
                   ∀ d0 b0, d0 ∈ hardware_device vm → backing d0 = Some b0 →
                            lunUuid b0 ≠ uuid lun) added_disks.
Proof.
  intros Hpresent Hfaithful Hrun Hok.
  destruct (first_run_summary p R vm r Hpresent Hfaithful Hrun Hok)
    as (added_ctls & added_disks & h & hs & ds & dss & duA & du1 & specs & Hfacts).
  cbv zeta in Hfacts.
  destruct Hfacts as (Hadded & Hserved & _ & Hhost & _ & _ & _ & Hplan & Hreal & Hvm1).
  exists h, hs, added_ctls, added_disks. rewrite Hvm1. cbn [hardware_device with_devices].
  split_and!.
  - exact Hhost.
  - by rewrite app_assoc.
  - exact Hadded.
  - intros b Hb.
    destruct (proj1 (units_of_is_Some _ _ _) (Hserved b Hb)) as [Hd|[? ?]]; [exact Hd|done].
  - pose proof (attach_plan_is_new _ _ _ _ _ _ _ _ _ _ _ Hplan (λ w Hw, Hw)) as Hnew.
    eapply Forall_impl; [exact (realized_disks _ _ _ _ _ Hnew Hreal)|].
    intros d (Hs & bk & w & lun & Hb & Hw & Hlun & Hrest). split; [done|].
    exists bk, w, lun. destruct Hrest as (? & ? & ? & ? & Hfresh).
    split_and!; try done.
    + by apply find_lun_Some in Hlun as [_ ?].
    + intros d0 b0 Hd0 Hb0.
      apply (Hfresh {| rdm_device := d0; rdm_backing := b0 |}).
      apply elem_of_rdm_disks. by exists d0, b0.
Qed.

Lemma present_run_postcondition_witness :
  omap (λ d, lunUuid <$> backing d) (hardware_device ScenarioA.vm_after)
  = (λ w, uuid (lun_of_wwid w)) <$> ScenarioA.wwids ∧
  ∃ h hs added_ctls added_disks,
    host_view ScenarioA.vm = Some (h :: hs) ∧
    hardware_device ScenarioA.vm_after
    = hardware_device ScenarioA.vm ++ added_ctls ++ added_disks ∧
    Forall (λ d, dev_class d = ScsiControllerDevice ParaVirtualSCSIController
                 ∧ backing d = None) added_ctls ∧
    (∀ b, b ∈ [1; 2] →
          ∃ d, d ∈ hardware_device ScenarioA.vm ++ added_ctls ∧ is_scsi_controller d = true
               ∧ busNumber d = b) ∧
    Forall (λ d, is_scsi_controller d = false ∧
                 ∃ bk w lun,
                   backing d = Some bk ∧ w ∈ ScenarioA.wwids ∧
                   find_lun (scsiLun h) w = Some lun ∧
                   canonicalName lun = "naa." +:+ PyStr.lower w ∧
                   lunUuid bk = uuid lun ∧ deviceName bk = lun_deviceName lun ∧
                   compatibilityMode bk = "physicalMode" ∧
                   diskMode bk = "independent_persistent" ∧
                   ∀ d0 b0, d0 ∈ hardware_device ScenarioA.vm → backing d0 = Some b0 →
                            lunUuid b0 ≠ uuid lun) added_disks.
Proof.
  split; [vm_compute; reflexivity|].
  apply (present_run_postcondition ScenarioA.params ReconfigVM_ideal ScenarioA.vm
           {| changed := true; failed := false; msg := None;
              instance := Some ScenarioA.vm_after |}).
  - reflexivity.
  - exact ReconfigVM_ideal_faithful.
  - vm_compute; reflexivity.
  - reflexivity.
Defined.

(** ** No two raw-mapped disks in one place *)

Lemma place_disks_grows ks du rdms du' :
  place_disks ks du rdms = Some du' → occupancy_grows du du'.
Proof.
  revert du. induction rdms as [|x rdms IH]; intros du; simpl.
  - intros [= <-]. apply occupancy_grows_refl.
  - destruct (ks !! _) as [ctl_n|]; [|done].
    destruct (du !! ctl_n) as [units|] eqn:Hu; [|done].
    intros Hrest. eapply occupancy_grows_trans; [|by apply IH].
    by apply occupancy_grows_insert.
Qed.

Lemma covered_mono ks du du' rdm :
  occupancy_grows du du' → covered ks du rdm → covered ks du' rdm.
Proof.
  intros Hgrow (b & o & Hb & Ho & Hu).
  destruct (Hgrow b o Ho) as (o' & Ho' & Hsub).
  exists b, o'. split_and!; [done|done|set_solver].
Qed.

Lemma place_disks_covers ks du rdms du' :
  place_disks ks du rdms = Some du' →
  ∀ rdm, rdm ∈ rdms → covered ks du' rdm.
Proof.
  revert du. induction rdms as [|x rdms IH]; intros du Hplace rdm Hin.
  { by apply elem_of_nil in Hin. }
  simpl in Hplace.
  destruct (ks !! controllerKey (rdm_device x)) as [ctl_n|] eqn:Hk; [|done].
  destruct (du !! ctl_n) as [units|] eqn:Hu; [|done].
  apply elem_of_cons in Hin as [Heq|Hin]; [subst rdm|by eapply IH].
  apply (covered_mono ks (<[ctl_n := units ∪ {[unitNumber (rdm_device x)]}]> du)).
  - by eapply place_disks_grows.
  - exists ctl_n, (units ∪ {[unitNumber (rdm_device x)]}).
    split_and!; [done|apply lookup_insert_eq|set_solver].
Qed.

(** The disks of an attach plan take places that were free, each a place of
    its own. *)
Lemma attach_plan_fresh p luns rdms ds path sk ks cap du wwids specs du' new :
  attach_plan p luns rdms ds path sk cap du wwids = Ok (specs, du') →
  (∀ b k, b ∈ rdm_controller_bus p → sk !! b = Some k → ks !! k = Some b) →
  Forall2 spec_disk specs new →
  NoDup (rdm_slot <$> new) ∧
  ∀ rdm rdm0, rdm ∈ new → covered ks du rdm0 → rdm_slot rdm0 ≠ rdm_slot rdm.
Proof.
  intros Hplan Hinv. revert du specs new Hplan.
  induction wwids as [|w wwids IH]; intros du specs new Hplan Hnew.
  - simpl in Hplan. injection Hplan as <- <-. apply Forall2_nil_inv_l in Hnew as ->.
    split; [constructor|]. intros rdm rdm0 Hin. by apply elem_of_nil in Hin.
  - apply attach_plan_cons in Hplan as (spec & du1 & specs' & Hone & Hrest & ->).
    apply attach_one_cases in Hone as (lun & Hlun & [(-> & -> & _)|Hsome]).
    + by eapply IH.
    + destruct Hsome as (rdmid & ctl & bus_n & units & k & _ & Hscan & Hu & Hk & -> & ->).
      apply scan_ctls_found in Hscan as (cpre & cpost & Hlist & Hscan & _).
      apply scan_units_found in Hscan as (occ & upre & upost & Hocc & _ & Hfree & _).
      rewrite Hu in Hocc. injection Hocc as <-.
      assert (Hks : ks !! k = Some ctl).
      { apply Hinv; [|done]. rewrite Hlist. apply elem_of_app. right. by left. }
      simpl in Hnew. apply Forall2_cons_inv_l in Hnew as (r & new' & Hr & Hnew' & ->).
      unfold spec_disk in Hr. simpl in Hr. destruct Hr as (Hck & Hunit & _).
      destruct (IH _ _ _ Hrest Hnew') as [Hnodup Hfresh].
      assert (Hcov : covered ks (<[ctl := units ∪ {[bus_n]}]> du) r).
      { exists ctl, (units ∪ {[bus_n]}). rewrite Hck, Hunit.
        split_and!; [done|apply lookup_insert_eq|].
        apply elem_of_union. right. by apply elem_of_singleton. }
      split.
      * rewrite fmap_cons. constructor; [|done].
        intros (r' & Heq & Hr')%list_elem_of_fmap. by apply (Hfresh r' r Hr' Hcov).
      * intros rdm rdm0 [->|Hin]%elem_of_cons Hcov0.
        -- intros Heq. unfold rdm_slot in Heq. injection Heq as Hck0 Hunit0.
           destruct Hcov0 as (b0 & o0 & Hb0 & Ho0 & Hin0).
           rewrite Hck0, Hck, Hks in Hb0. injection Hb0 as <-.
           rewrite Hu in Ho0. injection Ho0 as <-.
           apply Hfree. by rewrite <- Hunit, <- Hunit0.
        -- apply Hfresh; [done|].
           eapply covered_mono; [|exact Hcov0]. by apply occupancy_grows_insert.
Qed.

(** X11.  A [present] run never puts two raw-mapped disks in one place: if no
    two raw-mapped disks of the machine shared controller key and unit number
    before a run that ends without failure (on a vSphere that adds what it is
    asked to add, the controllers of the resulting machine having distinct
    keys), then none do afterwards. *)
Theorem present_keeps_slots_distinct (p : Params)
    (R : VirtualMachine → list VirtualDeviceSpec → TaskEnd * VirtualMachine)
    (vm : VirtualMachine) (r : Result) :
  state p = present →
  faithful_additions R →
  (run p R vm).1 = Ok r →
  failed r = false →
  controller_keys_distinct (current_vm_obj (run p R vm).2) →
  NoDup (rdm_slots vm) →
  NoDup (rdm_slots (current_vm_obj (run p R vm).2)).
Proof.
  intros Hpresent Hfaithful Hrun Hok Hkeys Hold.
  destruct (first_run_summary p R vm r Hpresent Hfaithful Hrun Hok)
    as (added_ctls & added_disks & h & hs & ds & dss & duA & du1 & specs & Hfacts).
  cbv zeta in Hfacts.
  destruct Hfacts as (Hadded & _ & _ & _ & _ & Hplace & _ & Hplan & Hreal & Hvm1).
  rewrite Hvm1 in Hkeys |- *.
  set (devs := hardware_device vm ++ added_ctls) in *.
  destruct (realizes_disks specs added_disks) as [_ Hnew]; [|done|].
  { eapply Forall_impl; [exact (attach_plan_specs _ _ _ _ _ _ _ _ _ _ _ Hplan)|].
    intros spec (w & lun & k & f & u & _ & _ & ->). by eexists _, _, _, _, _. }
  destruct (attach_plan_fresh _ _ _ _ _ _ (key_slot_of devs ∅) _ _ _ _ _
              (omap as_rdm added_disks) Hplan) as [Hnodup Hfresh]; [|done|].
  { intros b k _ Hk.
    apply (key_slot_inverts_slot_key (with_devices vm (devs ++ added_disks))); [done| |done].
    intros d Hd. simpl. apply elem_of_app. by left. }
  unfold rdm_slots. cbn [hardware_device with_devices]. unfold devs.
  rewrite !omap_app, (omap_as_rdm_no_backing added_ctls), app_nil_r, fmap_app.
  2:{ eapply Forall_impl; [exact Hadded|]. by intros d [_ ?]. }
  apply NoDup_app. split_and!; [done| |done].
  intros slot (r0 & -> & Hr0)%list_elem_of_fmap (r1 & Heq & Hr1)%list_elem_of_fmap.
  apply (Hfresh r1 r0 Hr1); [|done].
  by eapply place_disks_covers.
Qed.

Lemma present_keeps_slots_distinct_witness :
  rdm_slots ScenarioA.vm_after = [(1001, 0); (1001, 1); (1001, 2); (1001, 3)] ∧
  NoDup (rdm_slots ScenarioA.vm_after).
Proof.
  split; [vm_compute; reflexivity|].
  apply (present_keeps_slots_distinct ScenarioA.params ReconfigVM_ideal ScenarioA.vm
           {| changed := true; failed := false; msg := None;
              instance := Some ScenarioA.vm_after |}).
  - reflexivity.
  - exact ReconfigVM_ideal_faithful.
  - vm_compute; reflexivity.
  - reflexivity.
  - apply keys_distinct_b_sound. vm_compute; reflexivity.
  - vm_compute. constructor.
Defined.

(** ** What [get_rdm_info] records as taken *)

Lemma place_disks_lookup ks du rdms du' b o0 :
  place_disks ks du rdms = Some du' →
  du !! b = Some o0 →
  ∃ o, du' !! b = Some o ∧
       ∀ u, u ∈ o ↔ u ∈ o0 ∨ ∃ rdm, rdm ∈ rdms ∧
                                     ks !! controllerKey (rdm_device rdm) = Some b ∧
                                     unitNumber (rdm_device rdm) = u.
Proof.
  revert du o0. induction rdms as [|x rdms IH]; intros du o0; simpl.
  - intros [= <-] Hb. exists o0. split; [done|]. intros u. split; [by left|].
    intros [?|(rdm & Hin & _)]; [done|]. by apply elem_of_nil in Hin.
  - destruct (ks !! controllerKey (rdm_device x)) as [ctl_n|] eqn:Hk; [|done].
    destruct (du !! ctl_n) as [units|] eqn:Hu; [|done].
    intros Hrest Hb.
    destruct (decide (ctl_n = b)) as [->|Hne].
    + rewrite Hu in Hb. injection Hb as ->.
      destruct (IH _ (o0 ∪ {[unitNumber (rdm_device x)]}) Hrest) as (o & Ho & Hiff).
      { apply lookup_insert_eq. }
      exists o. split; [done|]. intros u. rewrite Hiff, elem_of_union, elem_of_singleton.
      split.
      * intros [[?| ->]|(rdm & Hin & ? & ?)]; [by left| |].
        -- right. exists x. split; [by left|done].
        -- right. exists rdm. split; [by right|done].
      * intros [?|(rdm & [->|Hin]%elem_of_cons & Hks & Hunit)].
        -- left. by left.
        -- left. by right.
        -- right. by exists rdm.
    + destruct (IH _ o0 Hrest) as (o & Ho & Hiff).
      { by rewrite lookup_insert_ne. }
      exists o. split; [done|]. intros u. rewrite Hiff. split.
      * intros [?|(rdm & Hin & ? & ?)]; [by left|].
        right. exists rdm. split; [by right|done].
      * intros [?|(rdm & [->|Hin]%elem_of_cons & Hks & Hunit)]; [by left| |].
        -- congruence.
        -- right. by exists rdm.
Qed.

(** X12.  Unless it raises [KeyError], [get_rdm_info] leaves as taken, on
    every bus of [ctl_units], exactly the unit 7 and the unit numbers of the
    disks of [rdms] whose controller sits on that bus; what was in
    [disk_units] for that bus before is dropped. *)
Theorem get_rdm_info_occupancy (p : Params) (rdms : list RdmDisk) (s : Self)
    (b : Z) (name : string) :
  (get_rdm_info p rdms s).1 ≠ Raise KeyError →
  ctl_units s !! b = Some name →
  ∃ o, disk_units (get_rdm_info p rdms s).2 !! b = Some o ∧
       ∀ u, u ∈ o ↔
            u = 7 ∨ ∃ rdm, rdm ∈ rdms ∧
                           ctl_key_slot s !! controllerKey (rdm_device rdm) = Some b ∧
                           unitNumber (rdm_device rdm) = u.
Proof.
  intros Hno Hb.
  destruct (place_disks (ctl_key_slot s) (reserve_units (ctl_units s) (disk_units s)) rdms)
    as [du'|] eqn:Hplace.
  2:{ destruct Hno. by apply get_rdm_info_raises. }
  rewrite (get_rdm_info_run p rdms s du' Hplace). cbn [snd disk_units set_disk_units].
  destruct (place_disks_lookup _ _ _ _ b {[7]} Hplace) as (o & Ho & Hiff).
  { by rewrite reserve_units_lookup, Hb. }
  exists o. split; [done|]. intros u. rewrite Hiff. by rewrite elem_of_singleton.
Qed.

Lemma get_rdm_info_occupancy_witness :
  ∃ o, disk_units (get_rdm_info OrdinaryDisk.params (rdm_disks OrdinaryDisk.self)
                     OrdinaryDisk.self).2 !! 0 = Some o ∧
       (0 ∈ o) ∧ (7 ∈ o) ∧ (1 ∉ o).
Proof.
  destruct (get_rdm_info_occupancy OrdinaryDisk.params (rdm_disks OrdinaryDisk.self)
              OrdinaryDisk.self 0 "paravirtualscsicontroller")
    as (o & Ho & Hiff).
  - vm_compute. discriminate.
  - vm_compute. reflexivity.
  - exists o. split; [exact Ho|]. split_and!.
    + apply Hiff. right.
      destruct (rdm_disks OrdinaryDisk.self) as [|rdm l] eqn:Hl; [discriminate|].
      exists rdm. split; [by left|].
      injection Hl as <- _. split; vm_compute; reflexivity.
    + apply Hiff. by left.
    + intros [Heq|(rdm & Hin & _ & Hunit)]%Hiff; [discriminate|].
      revert Hin Hunit. vm_compute.
      intros Hin. apply elem_of_cons in Hin as [->|Hin]; [discriminate|].
      by apply elem_of_nil in Hin.
Defined.

(** ** An [absent] run does not look at the controller options *)

Lemma run_absent_observed p R vm :
  state p = absent →
  observed (run p R vm) = absent_observed (rdm_disk p) R vm.
Proof.
  intros Habsent. unfold observed, absent_observed. cbv zeta.
  destruct (inventory_state_fields p vm) as (Hsub & Hcs & Hcd & Hvm & Hdu & _ & Hks & Hu & _).
  rewrite run_absent, configure_disks_run, bind_run by done.
  set (s1 := disks_listed (inventory_state p vm)).
  assert (Hrdms : rdm_disks s1 = omap as_rdm (hardware_device vm)).
  { unfold s1, disks_listed. cbn [rdm_disks set_rdm_disks current_vm_obj set_configspec].
    by rewrite Hvm. }
  assert (Hplace_eq :
    place_disks (ctl_key_slot s1) (reserve_units (ctl_units s1) (disk_units s1)) (rdm_disks s1)
    = place_disks (key_slot_of (hardware_device vm) ∅)
        (reserve_units (units_of (hardware_device vm) ∅) ∅)
        (omap as_rdm (hardware_device vm))).
  { rewrite Hrdms. unfold s1, disks_listed.
    cbn [ctl_key_slot ctl_units disk_units set_rdm_disks set_configspec].
    by rewrite Hks, Hu, Hdu. }
  destruct (place_disks (key_slot_of _ _) _ _) as [du'|] eqn:Hplace.
  2:{ destruct (get_rdm_info_frame p (rdm_disks s1) s1) as (du' & Hst & _).
      rewrite (surjective_pairing (get_rdm_info p (rdm_disks s1) s1)).
      rewrite (get_rdm_info_raises p (rdm_disks s1) s1) by done.
      rewrite Hst. simpl. by rewrite Hsub, Hvm. }
  rewrite (get_rdm_info_run p _ _ du') by done.
  rewrite bool_decide_false by (intros [_ ?]; congruence).
  rewrite bind_run, Hvm.
  set (s2 := set_disk_units du' s1).
  destruct (host_view vm) as [[|h hs]|] eqn:Hh.
  - unfold configure_rdm_disks, get_host_by_vm. rewrite Hh, bind_run. simpl.
    by rewrite Hsub, Hvm.
  - destruct (vm_datastore vm) as [|ds dss] eqn:Hds.
    + unfold configure_rdm_disks, get_host_by_vm, get_datastore_by_vm.
      rewrite Hh, Hds, !bind_run. simpl. by rewrite Hsub, Hvm.
    + rewrite (configure_absent_run p vm s2 h hs ds dss) by done.
      change (rdm_disks s2) with (rdm_disks s1). rewrite Hrdms.
      set (plan := detach_plan (scsiLun h) (omap as_rdm (hardware_device vm)) (rdm_disk p)).
      destruct plan.2 as [w|].
      * simpl. by rewrite Hsub, Hvm.
      * set (s3 := append_specs plan.1 s2).
        assert (Hcd3 : change_detected s3 = bool_decide (plan.1 ≠ [])).
        { unfold s3. simpl. by rewrite Hcd. }
        case_bool_decide as Hplan.
        -- rewrite (finish_changed R false s3 Hcd3). cbv zeta.
           assert (Hcs3 : configspec s3 = plan.1) by done.
           assert (Hvm3 : current_vm_obj s3 = vm) by done.
           assert (Hsub3 : submitted s3 = []) by done.
           rewrite Hcs3, Hvm3, Hsub3.
           destruct (R vm plan.1).1 as [m|n|m|]; try done.
           by destruct (truthy (Some m)).
        -- rewrite (finish_unchanged R false s3 Hcd3). simpl. by rewrite Hsub, Hvm.
  - unfold configure_rdm_disks, get_host_by_vm. rewrite Hh, bind_run. simpl.
    by rewrite Hsub, Hvm.
Qed.

(** X13.  An [absent] run does not look at [rdm_controller_type] or
    [rdm_controller_bus]: two [absent] requests with the same WWIDs have the
    same outcome, hand the same change lists to vSphere and leave the same
    machine. *)
Theorem absent_ignores_controller_options (p p' : Params)
    (R : VirtualMachine → list VirtualDeviceSpec → TaskEnd * VirtualMachine)
    (vm : VirtualMachine) :
  state p = absent →
  state p' = absent →
  rdm_disk p = rdm_disk p' →
  (run p R vm).1 = (run p' R vm).1 ∧
  submitted (run p R vm).2 = submitted (run p' R vm).2 ∧
  current_vm_obj (run p R vm).2 = current_vm_obj (run p' R vm).2.
Proof.
  intros Hp Hp' Hdisks.
  pose proof (run_absent_observed p R vm Hp) as H1.
  pose proof (run_absent_observed p' R vm Hp') as H2.
  rewrite <- Hdisks, <- H1 in H2. unfold observed in H2.
  by injection H2 as -> -> ->.
Qed.

Lemma absent_ignores_controller_options_witness :
  submitted (run OtherOptions.params ReconfigVM_ideal ScenarioC.vm).2
  = [[remove_rdm_disk ScenarioC.disk]].
Proof.
  destruct (absent_ignores_controller_options ScenarioC.params OtherOptions.params
              ReconfigVM_ideal ScenarioC.vm) as (_ & <- & _).
  - reflexivity.
  - reflexivity.
  - reflexivity.
  - vm_compute. reflexivity.
Defined.

(** ** After an [absent] run that went well *)

Lemma removed_keys_elem changes spec k ck u :
  spec ∈ changes → device spec = DiskRef k ck u → k ∈ removed_keys changes.
Proof.
  intros Hin Hdev. apply list_elem_of_omap. exists spec. split; [done|]. by rewrite Hdev.
Qed.

Lemma detach_plan_keys luns rdms wwids k :
  k ∈ removed_keys (detach_plan luns rdms wwids).1 →
  ∃ rdm, rdm ∈ rdms ∧ key (rdm_device rdm) = k.
Proof.
  intros (spec & Hin & Hk)%list_elem_of_omap.
  induction wwids as [|w wwids IH]; simpl in Hin; [by apply elem_of_nil in Hin|].
  destruct (find_lun luns w) as [lun|]; simpl in Hin; [|by apply elem_of_nil in Hin].
  apply elem_of_app in Hin as [Hin|Hin]; [|by apply IH].
  unfold detach_for in Hin. apply list_elem_of_fmap in Hin as (rdm & -> & Hrdm).
  apply list_elem_of_filter in Hrdm as [_ Hrdm].
  exists rdm. split; [done|]. simpl in Hk. by injection Hk.
Qed.

Lemma detach_plan_all_resolved luns rdms wwids :
  (detach_plan luns rdms wwids).2 = None →
  ∀ w, w ∈ wwids → is_Some (find_lun luns w).
Proof.
  induction wwids as [|w0 wwids IH]; intros Hnone w Hw; [by apply elem_of_nil in Hw|].
  simpl in Hnone. destruct (find_lun luns w0) as [lun|] eqn:Hlun; [|done].
  simpl in Hnone. apply elem_of_cons in Hw as [->|Hw]; [by rewrite Hlun|by apply IH].
Qed.

Lemma filter_keeps_all {A} (P : A → Prop) `{!∀ x, Decision (P x)} (l : list A) :
  (∀ x, x ∈ l → P x) → filter P l = l.
Proof.
  induction l as [|x l IH]; intros Hall; [done|].
  rewrite filter_cons_True by (apply Hall; by left).
  f_equal. apply IH. intros y Hy. apply Hall. by right.
Qed.

(** X14.  After an [absent] run that ends without failure on a vSphere that
    removes what it is asked to remove, no device of the machine maps the LUN
    of a requested WWID and no device has been added; and, when no raw-mapped
    device has the key of a SCSI controller, a second [absent] run with the
    same parameters reports [changed = False] and hands nothing to
    vSphere. *)
Theorem absent_removes_all_and_settles (p : Params)
    (R : VirtualMachine → list VirtualDeviceSpec → TaskEnd * VirtualMachine)
    (vm : VirtualMachine) (r : Result) (h : HostSystem) (hs : list HostSystem) :
  state p = absent →
  faithful_removals R →
  (run p R vm).1 = Ok r →
  failed r = false →
  host_view vm = Some (h :: hs) →
  let vm1 := current_vm_obj (run p R vm).2 in
  (∀ w lun d b,
     w ∈ rdm_disk p → find_lun (scsiLun h) w = Some lun →
     d ∈ hardware_device vm1 → backing d = Some b → lunUuid b ≠ uuid lun) ∧
  (∀ d, d ∈ hardware_device vm1 → d ∈ hardware_device vm) ∧
  ((∀ c d b, c ∈ hardware_device vm → d ∈ hardware_device vm →
             is_scsi_controller c = true → backing d = Some b → key c ≠ key d) →
   (run p R vm1).1
   = Ok {| changed := false; failed := false; msg := None; instance := Some vm1 |} ∧
   submitted (run p R vm1).2 = []).
Proof.
  intros Habsent Hfaithful Hrun Hok Hhost vm1.
  set (devs := hardware_device vm).
  set (rdms := omap as_rdm devs).
  set (plan := detach_plan (scsiLun h) rdms (rdm_disk p)).
  (* the first run, read off *)
  assert (Hfirst :
    is_Some (place_disks (key_slot_of devs ∅) (reserve_units (units_of devs ∅) ∅) rdms) ∧
    vm_datastore vm ≠ [] ∧ plan.2 = None ∧
    vm1 = with_devices vm (filter (λ d, key d ∉ removed_keys plan.1) devs)).
  { pose proof (run_absent_observed p R vm Habsent) as Hobs.
    unfold observed, absent_observed in Hobs. cbv zeta in Hobs.
    fold devs rdms in Hobs. rewrite Hhost in Hobs. fold plan in Hobs.
    destruct (place_disks _ _ rdms) as [du'|].
    2:{ injection Hobs as Ho _ _. congruence. }
    destruct (vm_datastore vm) as [|ds dss]; [injection Hobs as Ho _ _; congruence|].
    destruct plan.2 as [w|] eqn:Hres; [injection Hobs as Ho _ _; congruence|].
    split; [by eexists|]. split; [discriminate|]. split; [done|]. unfold vm1.
    case_bool_decide as Hplan.
    - injection Hobs as Ho _ ->. rewrite Hrun in Ho.
      apply Hfaithful; [|apply detach_plan_is_detach].
      destruct (R vm plan.1).1 as [m|n|m|]; try done. unfold taken_as_done.
      destruct m; [done|]. simpl in Ho. injection Ho as ->. done.
    - injection Hobs as _ _ ->.
      assert (Hnil : plan.1 = []) by (destruct plan.1; [done|by destruct Hplan]).
      rewrite Hnil. rewrite filter_keeps_all; [by destruct vm|].
      intros d _ Hin. by apply elem_of_nil in Hin. }
  destruct Hfirst as (Hplaced & Hds & Hres & Hvm1).
  pose proof (detach_plan_all_resolved _ _ _ Hres) as Hresolved.
  assert (Hgone : ∀ w lun d b,
            w ∈ rdm_disk p → find_lun (scsiLun h) w = Some lun →
            d ∈ hardware_device vm1 → backing d = Some b → lunUuid b ≠ uuid lun).
  { intros w lun d b Hw Hlun Hd Hb Hmatch.
    rewrite Hvm1 in Hd. cbn [hardware_device with_devices] in Hd.
    apply list_elem_of_filter in Hd as [Hkey Hd]. apply Hkey.
    apply (removed_keys_elem _ (remove_rdm_disk d) _ (controllerKey d) (unitNumber d));
      [|done].
    apply (detach_plan_elem _ _ _ w lun {| rdm_device := d; rdm_backing := b |}); try done.
    apply elem_of_rdm_disks. by exists d, b. }
  split; [exact Hgone|]. split.
  { intros d Hd. rewrite Hvm1 in Hd. cbn [hardware_device with_devices] in Hd.
    by apply list_elem_of_filter in Hd as [_ ?]. }
  intros Hkeys.
  (* the second run *)
  assert (Hknown1 : rdm_controllers_known vm1).
  { intros d b Hd Hb. rewrite Hvm1 in Hd |- *. cbn [hardware_device with_devices] in Hd |- *.
    apply list_elem_of_filter in Hd as [_ Hd].
    destruct Hplaced as [du' Hplace].
    destruct (place_disks_covers _ _ _ _ Hplace {| rdm_device := d; rdm_backing := b |})
      as (bus & _ & Hbus & _); [apply elem_of_rdm_disks; by exists d, b|].
    simpl in Hbus.
    apply key_slot_of_lookup in Hbus as [(c & Hc & Hs & Hk & _)|Hbus]; [|done].
    exists c. split; [|done].
    apply list_elem_of_filter. split; [|done].
    intros (rdm & Hrdm & Hkey)%detach_plan_keys.
    apply elem_of_rdm_disks in Hrdm as (d' & b' & Hd' & Hb' & ->).
    by apply (Hkeys c d' b'). }
  pose proof (run_absent_observed p R vm1 Habsent) as Hobs.
  unfold observed, absent_observed in Hobs. cbv zeta in Hobs.
  destruct (place_disks_known vm1 Hknown1) as [du1 Hplace1].
  rewrite Hplace1 in Hobs.
  assert (Hhost1 : host_view vm1 = Some (h :: hs)) by (by rewrite Hvm1).
  rewrite Hhost1 in Hobs.
  destruct (vm_datastore vm1) as [|ds dss] eqn:Hds1; [by rewrite Hvm1 in Hds1|].
  rewrite detach_plan_resolved, detach_plan_nil in Hobs; [| |done].
  2:{ intros w lun rdm Hw Hlun (d & b & Hd & Hb & ->)%elem_of_rdm_disks. simpl.
      by eapply Hgone. }
  rewrite bool_decide_false in Hobs by (by intros []).
  by injection Hobs as -> -> _.
Qed.

Lemma removed_keys_cons spec changes :
  removed_keys (spec :: changes)
  = match device spec with
    | DiskRef k _ _ => k :: removed_keys changes
    | _ => removed_keys changes
    end.
Proof. unfold removed_keys. cbn [omap list_omap]. by destruct (device spec). Qed.

Lemma apply_removals devs changes :
  Forall is_detach changes →
  foldl apply_spec devs changes = filter (λ d, key d ∉ removed_keys changes) devs.
Proof.
  intros Hall. revert devs.
  induction Hall as [|spec changes [Hop (k & ck & u & Hdev)] _ IH]; intros devs.
  - simpl. symmetry. apply filter_keeps_all. intros d _ Hin. by apply elem_of_nil in Hin.
  - cbn [foldl]. rewrite IH. unfold apply_spec. rewrite Hop, Hdev.
    rewrite list_filter_filter. apply list_filter_iff. intros d.
    rewrite removed_keys_cons, Hdev, not_elem_of_cons. tauto.
Qed.

Lemma ReconfigVM_ideal_removes : faithful_removals ReconfigVM_ideal.
Proof.
  intros vm changes _ Hall. unfold ReconfigVM_ideal. simpl.
  by rewrite apply_removals.
Qed.

Lemma absent_removes_all_and_settles_witness :
  let vm1 := current_vm_obj (run ScenarioC.params ReconfigVM_ideal ScenarioC.vm).2 in
  omap as_rdm (hardware_device vm1) = [] ∧
  (run ScenarioC.params ReconfigVM_ideal vm1).1
  = Ok {| changed := false; failed := false; msg := None; instance := Some vm1 |} ∧
  submitted (run ScenarioC.params ReconfigVM_ideal vm1).2 = [].
Proof.
  intros vm1. split; [vm_compute; reflexivity|].
  refine (proj2 (proj2 (absent_removes_all_and_settles ScenarioC.params ReconfigVM_ideal
                          ScenarioC.vm
                          {| changed := true; failed := false; msg := None;
                             instance := Some vm1 |}
                          {| scsiLun := [lun_of_wwid ScenarioC.wwid] |} [] _ _ _ _ _)) _).
  - reflexivity.
  - exact ReconfigVM_ideal_removes.
  - vm_compute; reflexivity.
  - reflexivity.
  - reflexivity.
  - intros c d b Hc Hd Hs Hb. simpl in Hc, Hd.
    repeat (apply elem_of_cons in Hc as [->|Hc]); try discriminate;
      try (by apply elem_of_nil in Hc);
      repeat (apply elem_of_cons in Hd as [->|Hd]); try discriminate;
      by apply elem_of_nil in Hd.
Defined.

(** ** The name of the mapping file *)

Lemma string_app_cons (c : ascii) (s t : string) : String c s +:+ t = String c (s +:+ t).
Proof. reflexivity. Qed.

Lemma string_app_nil_l (t : string) : "" +:+ t = t.
Proof. reflexivity. Qed.

Lemma string_app_nil_r (s : string) : s +:+ "" = s.
Proof. induction s as [|c s IH]; [done|]. by rewrite string_app_cons, IH. Qed.

Lemma startswith_refl (s t : string) : PyStr.startswith s (s +:+ t) = true.
Proof.
  induction s as [|c s IH]; [done|].
  rewrite string_app_cons. cbn [PyStr.startswith]. by rewrite Ascii.eqb_refl.
Qed.

Lemma find_from_bound i s sub : PyStr.find_from i s sub = -1 ∨ i ≤ PyStr.find_from i s sub.
Proof.
  revert i. induction s as [|c s IH]; intros i; cbn [PyStr.find_from].
  - destruct (PyStr.startswith sub ""); [right; lia|by left].
  - destruct (PyStr.startswith sub (String c s)); [right; lia|].
    destruct (IH (i + 1)) as [?|?]; [by left|right; lia].
Qed.

Lemma skip_rest old new (s : string) :
  PyStr.replace_aux old new (String.length s) s = "".
Proof. induction s as [|c s IH]; [done|]. cbn [String.length PyStr.replace_aux]. exact IH. Qed.

Lemma replace_aux_at_end old new base i :
  old ≠ "" → 0 ≤ i →
  PyStr.find_from i (base +:+ old) old = i + Z.of_nat (String.length base) →
  PyStr.replace_aux old new 0 (base +:+ old) = base +:+ new.
Proof.
  intros Hold. revert i. induction base as [|a base IH]; intros i Hi Hfind.
  - rewrite !string_app_nil_l.
    destruct old as [|c old']; [done|]. cbn [PyStr.replace_aux].
    rewrite <- (string_app_nil_r (String c old')) at 2.
    rewrite startswith_refl.
    change (Nat.pred (String.length (String c old'))) with (String.length old').
    by rewrite skip_rest, string_app_nil_r.
  - rewrite !string_app_cons in *. cbn [PyStr.replace_aux PyStr.find_from String.length] in *.
    destruct (PyStr.startswith old (String a (base +:+ old))) eqn:Hs; [lia|].
    f_equal. apply (IH (i + 1)); lia.
Qed.

Lemma replace_aux_absent old new s i :
  old ≠ "" → 0 ≤ i → PyStr.find_from i s old = -1 → PyStr.replace_aux old new 0 s = s.
Proof.
  intros Hold. revert i. induction s as [|a s IH]; intros i Hi Hfind; [done|].
  cbn [PyStr.replace_aux PyStr.find_from] in *.
  destruct (PyStr.startswith old (String a s)); [lia|].
  f_equal. apply (IH (i + 1)); [lia|done].
Qed.

(** X15.  When [.vmx] occurs in the path of the machine's configuration file
    only as its ending, the mapping file of a LUN is named by that path with
    the ending replaced by [_RDM<rdmid>.vmdk]; when [.vmx] does not occur in
    the path, the name of the mapping file is the path itself. *)
Theorem rdm_file_beside_vmx (base rdmid : string) :
  (PyStr.find (base +:+ ".vmx") ".vmx" = Z.of_nat (String.length base) →
   rdm_file_name (base +:+ ".vmx") rdmid = base +:+ "_RDM" +:+ rdmid +:+ ".vmdk") ∧
  (PyStr.find base ".vmx" = -1 → rdm_file_name base rdmid = base).
Proof.
  unfold rdm_file_name, PyStr.replace, PyStr.find. split.
  - intros Hfind. by apply (replace_aux_at_end _ _ _ 0).
  - intros Hfind. by apply (replace_aux_absent _ _ _ 0).
Qed.

Lemma rdm_file_beside_vmx_witness :
  rdm_file_name "[ds1] web.01/web.01.vmx" "6a000123fd"
  = "[ds1] web.01/web.01_RDM6a000123fd.vmdk".
Proof.
  apply (proj1 (rdm_file_beside_vmx "[ds1] web.01/web.01" "6a000123fd")).
  vm_compute. reflexivity.
Defined.

(** ** The part of the canonical name that goes into the file name *)

Lemma after_last_zeros_none_from (i : Z) (s : string) :
  0 ≤ i → PyStr.find_from i s "0000" = -1 → WwnPattern.after_last_zeros s = None.
Proof.
  revert i. induction s as [|c s IH]; intros i Hi Hfind; [done|].
  cbn [WwnPattern.after_last_zeros PyStr.find_from] in *.
  destruct (PyStr.startswith "0000" (String c s)) eqn:Hs; rewrite ?Hs in Hfind; [lia|].
  rewrite (IH (i + 1)) by (lia || done). by destruct (WwnPattern.is_id_char c).
Qed.

Lemma after_last_zeros_none (s : string) :
  PyStr.find s "0000" = -1 → WwnPattern.after_last_zeros s = None.
Proof. by apply after_last_zeros_none_from. Qed.

Lemma after_last_zeros_tail (mid r : string) :
  id_chars mid = true →
  PyStr.find ("000" +:+ r) "0000" = -1 →
  WwnPattern.after_last_zeros (mid +:+ "0000" +:+ r) = Some r.
Proof.
  intros Hmid Hr. induction mid as [|a mid IH].
  - change ("" +:+ "0000" +:+ r) with (String "0" ("000" +:+ r)).
    cbn [WwnPattern.after_last_zeros].
    rewrite (after_last_zeros_none _ Hr).
    change (WwnPattern.is_id_char "0") with true. cbv iota.
    change (String "0" ("000" +:+ r)) with ("0000" +:+ r).
    by rewrite startswith_refl.
  - cbn [id_chars] in Hmid. apply andb_prop in Hmid as [Ha Hmid].
    rewrite string_app_cons. cbn [WwnPattern.after_last_zeros]. rewrite Ha.
    by rewrite (IH Hmid).
Qed.

(** X16.  For a canonical name [naa.<c><mid>0000<r>] whose characters [c] and
    [mid] are in [[0-9a-z]] and in which no run of four zeros begins after the
    one shown, [re.split(wwn_id_patt, name)[1]] is [r]: only what follows the
    last four zeros goes into the name of the mapping file.  For a name
    [naa.<c><mid>] where [mid] contains no four zeros in a row, the index [1]
    raises [IndexError]. *)
Theorem rdmid_is_tail_after_last_zeros (c : ascii) (mid r : string) :
  (WwnPattern.is_id_char c = true → id_chars mid = true →
   PyStr.find ("000" +:+ r) "0000" = -1 →
   WwnPattern.split1 ("naa." +:+ String c mid +:+ "0000" +:+ r) = Some r) ∧
  (PyStr.find mid "0000" = -1 →
   WwnPattern.split1 ("naa." +:+ String c mid) = None).
Proof.
  split.
  - intros Hc Hmid Hr. unfold WwnPattern.split1.
    change ("naa." +:+ String c mid +:+ "0000" +:+ r)
      with (String "n" (String "a" (String "a" (String "."
              (String c (mid +:+ "0000" +:+ r)))))).
    cbn [PyStr.startswith PyStr.drop]. rewrite !Ascii.eqb_refl, Hc.
    by apply after_last_zeros_tail.
  - intros Hmid. unfold WwnPattern.split1.
    change ("naa." +:+ String c mid)
      with (String "n" (String "a" (String "a" (String "." (String c mid))))).
    cbn [PyStr.startswith PyStr.drop]. rewrite !Ascii.eqb_refl.
    rewrite (after_last_zeros_none _ Hmid). by destruct (WwnPattern.is_id_char c).
Qed.

Lemma rdmid_is_tail_after_last_zeros_witness :
  WwnPattern.split1 "naa.60002ac0000000000000006a000123fd" = Some "6a000123fd" ∧
  WwnPattern.split1 "naa.50002ac0000xyz00000000006a000123fd" = Some "6a000123fd".
Proof.
  split.
  - apply (proj1 (rdmid_is_tail_after_last_zeros "6" "0002ac000000000000" "6a000123fd"));
      vm_compute; reflexivity.
  - apply (proj1 (rdmid_is_tail_after_last_zeros "5" "0002ac0000xyz000000" "6a000123fd"));
      vm_compute; reflexivity.
Defined.

(** ** The controllers that are created *)

(** X17.  In a [present] run that passes the type guard, when [get_vm_ctl_n]
    finds no controller for some bus of [rdm_controller_bus], the first change
    list handed to vSphere consists of one controller of the requested type
    per such entry of the list, in list order; a bus listed twice gets two. *)
Theorem controllers_created_in_list_order (p : Params)
    (R : VirtualMachine → list VirtualDeviceSpec → TaskEnd * VirtualMachine)
    (vm : VirtualMachine) :
  state p = present →
  (run p R vm).1 ≠ FailJson msg_wrong_controller_type →
  filter (λ b, get_vm_ctl_n vm b = None) (rdm_controller_bus p) ≠ [] →
  head (submitted (run p R vm).2)
  = Some (create_scsi_controller_bus (rdm_controller_type p)
            <$> filter (λ b, get_vm_ctl_n vm b = None) (rdm_controller_bus p)).
Proof.
  intros Hpresent Hguard Hmissing.
  destruct (inventory_state_fields p vm) as (Hsub & Hcs & Hcd & Hvm & _ & _ & _ & Hu & _).
  set (s1 := set_configspec [] (inventory_state p vm)).
  assert (Hm : missing_ctls p s1
               = filter (λ b, get_vm_ctl_n vm b = None) (rdm_controller_bus p)).
  { unfold missing_ctls. apply list_filter_iff. intros b.
    cbn [ctl_units current_vm_obj s1 set_configspec]. rewrite Hu, Hvm.
    rewrite get_vm_ctl_n_units. tauto. }
  set (specs := create_scsi_controller_bus (rdm_controller_type p)
                  <$> filter (λ b, get_vm_ctl_n vm b = None) (rdm_controller_bus p)).
  assert (Hhd : ∀ ca s, submitted s = [specs] →
                        head (submitted (configure_disks p R ca s).2) = Some specs).
  { intros ca s Hs.
    destruct (present_disk_pass p R ca s Hpresent)
      as [->|(? & ? & ? & ? & ? & ? & ? & _ & _ & _ & _ & ->)]; by rewrite Hs. }
  revert Hguard.
  rewrite run_inventory, Hpresent, bind_run, ensure_controllers_run. cbv zeta.
  fold s1. rewrite Hm. fold specs.
  destruct (existsb _ _); [by intros []|]. intros _.
  set (s2 := append_specs specs s1).
  assert (Hcd2 : change_detected s2 = true).
  { unfold s2. simpl. rewrite bool_decide_true; [by rewrite orb_true_r|].
    unfold specs. by intros Hnil%fmap_nil_inv. }
  assert (Hlog2 : submitted s2 ++ [configspec s2] = [specs]).
  { unfold s2, s1. simpl. by rewrite Hsub. }
  rewrite Hcd2, Hlog2.
  destruct (R (current_vm_obj s2) (configspec s2)).1 as [m|n|m|]; try done.
  - destruct (truthy (Some m)); [done|]. by apply Hhd.
  - by apply Hhd.
Qed.

Lemma controllers_created_in_list_order_witness :
  head (submitted (run RepeatedBus.params ReconfigVM_ideal RepeatedBus.vm).2)
  = Some [create_scsi_controller_bus lsilogic 1; create_scsi_controller_bus lsilogic 0;
          create_scsi_controller_bus lsilogic 1].
Proof.
  apply (controllers_created_in_list_order RepeatedBus.params ReconfigVM_ideal
           RepeatedBus.vm).
  - reflexivity.
  - vm_compute. discriminate.
  - vm_compute. discriminate.
Defined.
